(** * partner_bot: user store, ledger client and admission workflow

    A shallow embedding of the core of the referral bot:

    - [utils/database.py]  : the SQLite [users] table and its operations;
    - [utils/sheets-old2.py] : the Google-Sheets ledger client;
    - [handlers/admin.py]  : the approve / reject callbacks and the
      statistics command;
    - [handlers/menu.py], [handlers/start-old.py] : the balance request
      and the end of the registration dialogue.

    Python values are represented as follows.  A [str] is a Rocq [string]
    holding its UTF-8 bytes; [strip] and [len] follow Unicode (white space
    of any script, code points), while [int] and [float] are modelled on
    ASCII texts, where they read what CPython reads.  An [int] is a [Z].
    A [float] is an IEEE-754 binary64 number, a [spec_float] used at
    precision 53 and maximal exponent 1024, so that parsing and addition
    round exactly as CPython does.  A function that may raise returns an
    [outcome].

    SQLite, the Sheets service and the Telegram API are external: each
    has its state in the [world] and a plan of the faults to come, so
    that every statement below holds whatever fails, unless it says which
    calls are assumed to succeed. *)

From Stdlib Require Import ZArith List String Ascii Bool Lia.
From Stdlib Require Import Floats.SpecFloat.
From stdpp Require Import base gmap.

Import ListNotations.
Local Open Scope string_scope.
Local Open Scope Z_scope.

(** ** Exceptions and outcomes *)

Inductive py_exc : Type :=
  | ValueError
  | IndexError
  | NameError
  | OverflowError
  | SqliteError              (* sqlite3.Error and its subclasses *)
  | FileNotFoundError
  | DefaultCredentialsError
  | SpreadsheetNotFound
  | WorksheetNotFound
  | APIError
  | AnswerLost               (* a timeout or a broken connection once the
                                service has carried the request out *)
  | TelegramError            (* any aiogram / network exception *)
  | OtherException.          (* any other subclass of Exception *)

Inductive outcome (A : Type) : Type :=
  | Returned (a : A)
  | Raised (e : py_exc).
Arguments Returned {A} a.
Arguments Raised {A} e.

(** ** Python string built-ins *)

Module PyStr.

(** A [str] is any Unicode text; it is held as its UTF-8 bytes. *)
Definition code (c : ascii) : Z := Z.of_nat (nat_of_ascii c).

(** [Py_UNICODE_ISSPACE] on the ASCII range: TAB..CR, FS..US and SPACE. *)
Definition is_space (c : ascii) : bool :=
  let n := Z.of_nat (nat_of_ascii c) in
  ((9 <=? n) && (n <=? 13)) || ((28 <=? n) && (n <=? 32)).

(** [Py_UNICODE_ISSPACE] beyond ASCII.  On two bytes: U+0085 and
    U+00A0. *)
Definition is_space2 (a b : Z) : bool :=
  (a =? 194) && ((b =? 133) || (b =? 160)).

(** On three bytes: U+1680, U+2000 to U+200A, U+2028, U+2029, U+202F,
    U+205F and U+3000. *)
Definition is_space3 (a b c : Z) : bool :=
  ((a =? 225) && (b =? 154) && (c =? 128))
  || ((a =? 226) && (b =? 128)
      && (((128 <=? c) && (c <=? 138)) || (c =? 168) || (c =? 169)
          || (c =? 175)))
  || ((a =? 226) && (b =? 129) && (c =? 159))
  || ((a =? 227) && (b =? 128) && (c =? 128)).

(** The white space at the start of [l] removed, where [s1], [s2] and
    [s3] tell whether the next one, two or three bytes are a white
    space. *)
Fixpoint lstrip_by (s1 : ascii -> bool) (s2 : ascii -> ascii -> bool)
  (s3 : ascii -> ascii -> ascii -> bool) (l : list ascii) : list ascii :=
  match l with
  | [] => []
  | a :: r =>
      if s1 a then lstrip_by s1 s2 s3 r
      else
        match r with
        | [] => l
        | b :: r1 =>
            if s2 a b then lstrip_by s1 s2 s3 r1
            else
              match r1 with
              | [] => l
              | c :: r2 =>
                  if s3 a b c then lstrip_by s1 s2 s3 r2 else l
              end
        end
  end.

(** [s.lstrip()] *)
Definition lstrip_text : list ascii -> list ascii :=
  lstrip_by is_space
            (fun a b => is_space2 (code a) (code b))
            (fun a b c => is_space3 (code a) (code b) (code c)).

(** The same from the end: the text is read backwards, and so are the
    bytes of a white space. *)
Definition lstrip_backwards : list ascii -> list ascii :=
  lstrip_by is_space
            (fun a b => is_space2 (code b) (code a))
            (fun a b c => is_space3 (code c) (code b) (code a)).

(** C's [isspace], which [int] and [float] use on an ASCII string:
    TAB..CR and SPACE. *)
Definition is_c_space (c : ascii) : bool :=
  let n := Z.of_nat (nat_of_ascii c) in
  ((9 <=? n) && (n <=? 13)) || (n =? 32).

(** What [int] and [float] strip of an ASCII text, by the white-space
    class they use. *)
Fixpoint lstrip (space : ascii -> bool) (cs : list ascii) : list ascii :=
  match cs with
  | c :: cs' => if space c then lstrip space cs' else cs
  | [] => []
  end.

Definition rstrip (space : ascii -> bool) (cs : list ascii) : list ascii :=
  rev (lstrip space (rev cs)).

Definition strip_chars (space : ascii -> bool) (cs : list ascii)
  : list ascii :=
  rstrip space (lstrip space cs).

(** [s.strip()]: white space is removed at both ends. *)
Definition strip (s : string) : string :=
  string_of_list_ascii
    (rev (lstrip_backwards (rev (lstrip_text (list_ascii_of_string s))))).

(** [s.startswith(p)] *)
Definition startswith (p s : string) : bool := String.prefix p s.

(** [s.split(sep)] for a one-character separator. *)
Fixpoint split_chars (sep : ascii) (cur : list ascii) (cs : list ascii)
  : list string :=
  match cs with
  | [] => [string_of_list_ascii (rev cur)]
  | c :: cs' =>
      if Ascii.eqb c sep
      then string_of_list_ascii (rev cur) :: split_chars sep [] cs'
      else split_chars sep (c :: cur) cs'
  end.

Definition split (sep : ascii) (s : string) : list string :=
  split_chars sep [] (list_ascii_of_string s).

(** [l[i]] on a list: [IndexError] out of range. *)
Definition index {A} (l : list A) (i : nat) : outcome A :=
  match nth_error l i with
  | Some x => Returned x
  | None => Raised IndexError
  end.

Definition is_digit (c : ascii) : bool :=
  let n := Z.of_nat (nat_of_ascii c) in (48 <=? n) && (n <=? 57).

Definition digit_val (c : ascii) : Z := Z.of_nat (nat_of_ascii c) - 48.

Definition is_underscore (c : ascii) : bool := Ascii.eqb c "_"%char.

(** The tail of a [digitpart]: digits, each optionally preceded by one
    underscore.  Returns the digits read and the unread rest. *)
Fixpoint digit_tail (cs : list ascii) : list Z * list ascii :=
  match cs with
  | [] => ([], [])
  | c :: cs' =>
      if is_digit c then
        let '(ds, rest) := digit_tail cs' in (digit_val c :: ds, rest)
      else if is_underscore c then
        match cs' with
        | c2 :: _ => if is_digit c2 then digit_tail cs' else ([], cs)
        | [] => ([], cs)
        end
      else ([], cs)
  end.

(** [digitpart ::= digit (["_"] digit)*] *)
Definition digitpart (cs : list ascii) : option (list Z * list ascii) :=
  match cs with
  | c :: cs' =>
      if is_digit c then
        let '(ds, rest) := digit_tail cs' in Some (digit_val c :: ds, rest)
      else None
  | [] => None
  end.

Definition digits_value (ds : list Z) : Z :=
  fold_left (fun acc d => 10 * acc + d) ds 0.

(** An optional sign; [true] is minus. *)
Definition sign (cs : list ascii) : bool * list ascii :=
  match cs with
  | "-"%char :: cs' => (true, cs')
  | "+"%char :: cs' => (false, cs')
  | _ => (false, cs)
  end.

(** [int(s)] in base 10, for an ASCII text [s] within the interpreter's
    limit on the number of digits (4300 by default). *)
Definition int (s : string) : outcome Z :=
  let '(neg, cs) := sign (strip_chars is_c_space (list_ascii_of_string s)) in
  match digitpart cs with
  | Some (ds, []) =>
      Returned (if neg then - digits_value ds else digits_value ds)
  | _ => Raised ValueError
  end.

(** [str(n)] for an [int] within the same limit. *)
Fixpoint pos_digits (fuel : nat) (n : Z) (acc : list ascii) : list ascii :=
  match fuel with
  | O => acc
  | S fuel' =>
      let acc' := ascii_of_nat (Z.to_nat (48 + n mod 10)) :: acc in
      if n <? 10 then acc' else pos_digits fuel' (n / 10) acc'
  end.

Definition str_of_int (n : Z) : string :=
  let body := pos_digits (S (Z.to_nat (Z.log2 (Z.abs n)))) (Z.abs n) [] in
  string_of_list_ascii (if n <? 0 then "-"%char :: body else body).

End PyStr.

(** ** Python floats: IEEE-754 binary64 *)

Module PyFloat.

Definition prec : Z := 53.
Definition emax : Z := 1024.

Definition float : Type := spec_float.

(** [0.0] *)
Definition zero : float := S754_zero false.

(** [x + y], rounded to nearest even. *)
Definition add (x y : float) : float := SFadd prec emax x y.

(** The binary64 nearest to [(-1)^neg * m * 10^e]. *)
Definition of_decimal (neg : bool) (m : Z) (e : Z) : float :=
  match m with
  | Zpos p =>
      if 0 <=? e
      then binary_normalize prec emax
             (if neg then - (m * 10 ^ e) else m * 10 ^ e) 0 neg
      else match 10 ^ (- e) with
           | Zpos q =>
               SFdiv prec emax (S754_finite neg p 0) (S754_finite false q 0)
           | _ => S754_nan
           end
  | _ => S754_zero neg
  end.

Definition lower (c : ascii) : ascii :=
  let n := nat_of_ascii c in
  if ((65 <=? Z.of_nat n) && (Z.of_nat n <=? 90))%Z
  then ascii_of_nat (n + 32) else c.

Definition lower_string (cs : list ascii) : string :=
  string_of_list_ascii (map lower cs).

(** [exponent ::= ("e" | "E") [sign] digitpart]; absent exponent is 0. *)
Definition exponent (cs : list ascii) : option Z :=
  match cs with
  | [] => Some 0
  | c :: cs' =>
      if Ascii.eqb (lower c) "e"%char then
        let '(neg, cs'') := PyStr.sign cs' in
        match PyStr.digitpart cs'' with
        | Some (ds, []) =>
            Some (if neg then - PyStr.digits_value ds
                  else PyStr.digits_value ds)
        | _ => None
        end
      else None
  end.

(** [number ::= [digitpart] "." digitpart | digitpart ["."]], followed by
    the exponent.  Returns mantissa and decimal exponent. *)
Definition floatnumber (cs : list ascii) : option (Z * Z) :=
  match PyStr.digitpart cs with
  | Some (ip, rest) =>
      match rest with
      | "."%char :: rest' =>
          match PyStr.digitpart rest' with
          | Some (fp, rest'') =>
              match exponent rest'' with
              | Some e =>
                  Some (PyStr.digits_value (ip ++ fp),
                        e - Z.of_nat (length fp))
              | None => None
              end
          | None =>
              match exponent rest' with
              | Some e => Some (PyStr.digits_value ip, e)
              | None => None
              end
          end
      | _ =>
          match exponent rest with
          | Some e => Some (PyStr.digits_value ip, e)
          | None => None
          end
      end
  | None =>
      match cs with
      | "."%char :: rest' =>
          match PyStr.digitpart rest' with
          | Some (fp, rest'') =>
              match exponent rest'' with
              | Some e =>
                  Some (PyStr.digits_value fp, e - Z.of_nat (length fp))
              | None => None
              end
          | None => None
          end
      | _ => None
      end
  end.

(** [float(s)] for a [str]: white space is stripped, then
    [[sign] (floatnumber | "inf" | "infinity" | "nan")]; anything else
    raises [ValueError]. *)
Definition of_string (s : string) : outcome float :=
  let '(neg, cs) :=
    PyStr.sign
      (PyStr.strip_chars PyStr.is_c_space (list_ascii_of_string s)) in
  let w := lower_string cs in
  if String.eqb w "inf" || String.eqb w "infinity"
  then Returned (S754_infinity neg)
  else if String.eqb w "nan" then Returned S754_nan
  else match floatnumber cs with
       | Some (m, e) => Returned (of_decimal neg m e)
       | None => Raised ValueError
       end.

End PyFloat.

(** ** Dates and times as text *)

Module Clock.

(** Year, month and day of the proleptic Gregorian calendar for a count
    of days since 1970-01-01. *)
Definition civil_from_days (days : Z) : Z * Z * Z :=
  let z := days + 719468 in
  let era := z / 146097 in
  let doe := z - era * 146097 in
  let yoe := (doe - doe / 1460 + doe / 36524 - doe / 146096) / 365 in
  let doy := doe - (365 * yoe + yoe / 4 - yoe / 100) in
  let mp := (5 * doy + 2) / 153 in
  let d := doy - (153 * mp + 2) / 5 + 1 in
  let m := if mp <? 10 then mp + 3 else mp - 9 in
  let y := yoe + era * 400 + (if m <=? 2 then 1 else 0) in
  (y, m, d).

(** [n] in decimal on [width] digits, zero padded. *)
Fixpoint pad_digits (width : nat) (n : Z) (acc : list ascii) : list ascii :=
  match width with
  | O => acc
  | S width' =>
      pad_digits width' (n / 10)
                 (ascii_of_nat (Z.to_nat (48 + n mod 10)) :: acc)
  end.

Definition pad (width : nat) (n : Z) : string :=
  string_of_list_ascii (pad_digits width n []).

(** [YYYY-MM-DD] of a reading in microseconds since the epoch. *)
Definition date_text (us : Z) : string :=
  let '(y, m, d) := civil_from_days (us / 86400000000) in
  pad 4 y ++ "-" ++ pad 2 m ++ "-" ++ pad 2 d.

(** [HH:MM:SS] of a reading in microseconds since the epoch. *)
Definition time_text (us : Z) : string :=
  let s := (us / 1000000) mod 86400 in
  pad 2 (s / 3600) ++ ":" ++ pad 2 (s / 60 mod 60) ++ ":" ++ pad 2 (s mod 60).

(** SQLite's [CURRENT_TIMESTAMP] text: ["YYYY-MM-DD HH:MM:SS"]. *)
Definition sqlite_text (us : Z) : string :=
  date_text us ++ " " ++ time_text us.

(** [datetime.isoformat()]: ["YYYY-MM-DDTHH:MM:SS"], followed by
    [".ffffff"] when the microsecond is not zero. *)
Definition isoformat (us : Z) : string :=
  date_text us ++ "T" ++ time_text us ++
  (if us mod 1000000 =? 0 then "" else "." ++ pad 6 (us mod 1000000)).

End Clock.

(** ** The world the bot runs in

    One record gathers everything the three modules read or write: the
    [users] table, the worksheet, the messages handed to the Telegram
    API, the clock, the process environment, and, for each external
    service, a plan saying which of the coming calls fail. *)

(** A row of [users].  The two timestamps are stored as text. *)
Record user_row : Type := mk_user {
  telegram_id : Z;
  name : string;
  phone : string;
  approved : bool;
  created_at : string;
  approved_at : option string
}.

Inductive chat : Type :=
  | ChatId (n : Z)
  | ChatName (s : string).

(** The texts the admin handlers send, by the place they are sent from. *)
Inductive template : Type :=
  | T_not_admin
  | T_user_not_found
  | T_already_approved
  | T_approved_user_notice
  | T_approved_group_notice (user_id : Z) (name phone : string)
  | T_approved_alert
  | T_approved_edit (name : string) (user_id : Z)
  | T_sheets_error
  | T_status_error
  | T_approve_failed
  | T_rejected_user_notice
  | T_rejected_group_notice (user_id : Z) (name phone : string)
  | T_rejected_alert
  | T_rejected_edit (name : string) (user_id : Z)
  | T_reject_failed.

Inductive bot_call : Type :=
  | Answer (text : template)                (* callback.answer(.., show_alert=True) *)
  | SendMessage (chat_id : chat) (text : template)
  | EditText (text : template).             (* callback.message.edit_text *)

Record world : Type := mk_world {
  users : gmap Z user_row;            (* table users, by primary key *)
  db_faults : list bool;              (* true: the next connection raises sqlite3.Error *)
  utc_now : Z;                        (* the instant, microseconds since the epoch, UTC *)
  utc_offset : Z;                     (* local time minus UTC, in seconds *)
  sheet : list (list string);         (* worksheet rows, row 1 first *)
  api_faults : list (option py_exc);  (* what the next Sheets calls raise *)
  outbox : list bot_call;             (* Telegram calls that went through *)
  bot_faults : list (option py_exc);  (* what the next Telegram calls raise *)
  ADMIN_USER_ID : option string;      (* os.getenv('ADMIN_USER_ID') *)
  ADMIN_GROUP_ID : option string      (* os.getenv('ADMIN_GROUP_ID') *)
}.

Definition set_users (t : gmap Z user_row) (w : world) : world :=
  mk_world t (db_faults w) (utc_now w) (utc_offset w) (sheet w)
           (api_faults w) (outbox w) (bot_faults w)
           (ADMIN_USER_ID w) (ADMIN_GROUP_ID w).

Definition set_db_faults (p : list bool) (w : world) : world :=
  mk_world (users w) p (utc_now w) (utc_offset w) (sheet w)
           (api_faults w) (outbox w) (bot_faults w)
           (ADMIN_USER_ID w) (ADMIN_GROUP_ID w).

Definition set_sheet (rows : list (list string)) (w : world) : world :=
  mk_world (users w) (db_faults w) (utc_now w) (utc_offset w) rows
           (api_faults w) (outbox w) (bot_faults w)
           (ADMIN_USER_ID w) (ADMIN_GROUP_ID w).

Definition set_api_faults (p : list (option py_exc)) (w : world) : world :=
  mk_world (users w) (db_faults w) (utc_now w) (utc_offset w) (sheet w)
           p (outbox w) (bot_faults w)
           (ADMIN_USER_ID w) (ADMIN_GROUP_ID w).

Definition set_outbox (o : list bot_call) (w : world) : world :=
  mk_world (users w) (db_faults w) (utc_now w) (utc_offset w) (sheet w)
           (api_faults w) o (bot_faults w)
           (ADMIN_USER_ID w) (ADMIN_GROUP_ID w).

Definition set_bot_faults (p : list (option py_exc)) (w : world) : world :=
  mk_world (users w) (db_faults w) (utc_now w) (utc_offset w) (sheet w)
           (api_faults w) (outbox w) p
           (ADMIN_USER_ID w) (ADMIN_GROUP_ID w).

(** Time passing between two events: [dt] microseconds. *)
Definition advance (dt : Z) (w : world) : world :=
  mk_world (users w) (db_faults w) (utc_now w + dt) (utc_offset w) (sheet w)
           (api_faults w) (outbox w) (bot_faults w)
           (ADMIN_USER_ID w) (ADMIN_GROUP_ID w).

(** ** Computations: state and exceptions *)

Definition M (A : Type) : Type := world -> outcome A * world.

Definition ret {A} (a : A) : M A := fun w => (Returned a, w).

Definition raise {A} (e : py_exc) : M A := fun w => (Raised e, w).

Definition bind {A B} (m : M A) (k : A -> M B) : M B :=
  fun w =>
    match m w with
    | (Returned a, w') => k a w'
    | (Raised e, w') => (Raised e, w')
    end.

Notation "'let*' x ':=' m 'in' k" := (bind m (fun x => k))
  (at level 10, x pattern, k at level 200).

(** A pure computation that may raise. *)
Definition lift {A} (o : outcome A) : M A := fun w => (o, w).

(** [try: m  except Exception: h] *)
Definition try_except {A} (m : M A) (h : py_exc -> M A) : M A :=
  fun w =>
    match m w with
    | (Returned a, w') => (Returned a, w')
    | (Raised e, w') => h e w'
    end.

Definition result {A} (m : M A) (w : world) : outcome A := fst (m w).
Definition after {A} (m : M A) (w : world) : world := snd (m w).

(** The next entry of a fault plan; an exhausted plan means no fault. *)
Definition next_fault {F} (plan : list F) (ok : F) : F * list F :=
  match plan with
  | f :: plan' => (f, plan')
  | [] => (ok, [])
  end.

(** ** utils/database.py

    The table is a finite map from [telegram_id], an SQLite INTEGER
    PRIMARY KEY, to the row.  The ids the functions are called with are
    any Python [int]. *)

Module Db.

(** The integers SQLite stores and [sqlite3] binds to a [?]: 64 bits,
    signed. *)
Definition sqlite_int (n : Z) : bool :=
  (- 2 ^ 63 <=? n) && (n <? 2 ^ 63).

(** SQLite's [CURRENT_TIMESTAMP]: the date and time in UTC. *)
Definition CURRENT_TIMESTAMP (w : world) : string :=
  Clock.sqlite_text (utc_now w).

(** The reading of the host's local wall clock. *)
Definition local_now (w : world) : Z :=
  utc_now w + 1000000 * utc_offset w.

(** [datetime.now().isoformat()]: the naive local date and time. *)
Definition datetime_now (w : world) : string :=
  Clock.isoformat (local_now w).

(** [with sqlite3.connect(DATABASE_PATH) as conn: body].  The block runs
    as one transaction on the table: committed at its end, or rolled back
    when a statement raises. *)
Definition connect {A}
  (body : world -> gmap Z user_row -> outcome A * gmap Z user_row) : M A :=
  fun w =>
    let '(fault, plan) := next_fault (db_faults w) false in
    let w1 := set_db_faults plan w in
    if fault then (Raised SqliteError, w1)
    else
      match body w (users w) with
      | (Returned a, t) => (Returned a, set_users t w1)
      | (Raised e, _) => (Raised e, w1)
      end.

(** A statement [.. WHERE telegram_id = ?] (or the INSERT) for an id that
    no row has: [cursor.execute] raises [OverflowError] when the id does
    not fit 64 bits, which no [except] of this module catches; else the
    statement runs and gives [ran].  An id that has a row is a value of
    the INTEGER PRIMARY KEY column, so it fits. *)
Definition no_row {A} (telegram_id : Z)
  (ran : outcome A * gmap Z user_row) (t : gmap Z user_row)
  : outcome A * gmap Z user_row :=
  if sqlite_int telegram_id then ran else (Raised OverflowError, t).

(** [except sqlite3.Error as e: ... return dflt] *)
Definition except_sqlite {A} (m : M A) (dflt : A) : M A :=
  try_except m (fun e =>
    match e with
    | SqliteError => ret dflt
    | _ => raise e
    end).

Definition save_user (telegram_id : Z) (name phone : string)
  (approved : bool) : M bool :=
  except_sqlite
    (connect (fun w t =>
       match t !! telegram_id with
       | Some _ => (Returned false, t)
       | None =>
           no_row telegram_id
             (Returned true,
              <[telegram_id :=
                  mk_user telegram_id name phone approved
                          (CURRENT_TIMESTAMP w) None]> t)
             t
       end))
    false.

Definition get_user (telegram_id : Z) : M (option user_row) :=
  except_sqlite
    (connect (fun _ t =>
       match t !! telegram_id with
       | Some u => (Returned (Some u), t)
       | None => no_row telegram_id (Returned None, t) t
       end))
    None.

Definition update_user_approval (telegram_id : Z) (approved : bool)
  : M bool :=
  except_sqlite
    (connect (fun w t =>
       let approved_at := if approved then Some (datetime_now w) else None in
       match t !! telegram_id with
       | Some (mk_user key nm ph _ created _) =>
           (Returned true,
            <[telegram_id := mk_user key nm ph approved created approved_at]> t)
       | None => no_row telegram_id (Returned false, t) t
       end))
    false.

Definition is_user_approved (telegram_id : Z) : M bool :=
  let* user := get_user telegram_id in
  ret (match user with
       | Some u => approved u
       | None => false
       end).

Definition delete_user (telegram_id : Z) : M bool :=
  except_sqlite
    (connect (fun _ t =>
       match t !! telegram_id with
       | Some _ => (Returned true, delete telegram_id t)
       | None => no_row telegram_id (Returned false, t) t
       end))
    false.

End Db.

(** ** utils/sheets-old2.py *)

Module Sheets.

(** One request to the Sheets service (or to the credentials file): it
    raises what the plan says, else goes through. *)
Definition request : M unit :=
  fun w =>
    let '(fault, plan) := next_fault (api_faults w) None in
    let w1 := set_api_faults plan w in
    match fault with
    | Some e => (Raised e, w1)
    | None => (Returned tt, w1)
    end.

(** [get_client()]: every handler of its [try] re-raises. *)
Definition get_client : M unit := request.

(** [client.open_by_key(config.SHEETS_ID)] then
    [sheet.worksheet(config.SHEET_NAME)] *)
Definition open_worksheet : M unit :=
  let* _ := get_client in
  let* _ := request in
  request.

(** The value gspread reads in column 1 of a row: a missing cell reads
    as the empty string. *)
Definition key_of (row : list string) : string := hd ""%string row.

Fixpoint find_from (n : nat) (query : string) (rows : list (list string))
  : option nat :=
  match rows with
  | [] => None
  | row :: rows' =>
      if String.eqb (key_of row) query then Some n
      else find_from (S n) query rows'
  end.

(** [worksheet.find(query, in_column=1)]: the number of the first row
    whose column-1 value equals [query], counting from 1, or [None]. *)
Definition find (query : string) : M (option nat) :=
  let* _ := request in
  fun w => (Returned (find_from 1 query (sheet w)), w).

(** [worksheet.row_values(row)] *)
Definition row_values (row : nat) : M (list string) :=
  let* _ := request in
  fun w => (Returned (nth (row - 1) (sheet w) []), w).

(** [worksheet.get_all_values()] *)
Definition get_all_values : M (list (list string)) :=
  let* _ := request in
  fun w => (Returned (sheet w), w).

(** [worksheet.append_row(row_data, value_input_option="USER_ENTERED")]:
    the row is written after the last row of the sheet.  The request can
    fail before the service acts on it, or after: then the row is written
    and the call raises all the same.  The worksheet is modelled by the
    values handed to it; what the service makes of a value typed in
    ([USER_ENTERED]) is outside the model. *)
Definition append_row (row_data : list string) : M unit :=
  fun w =>
    let '(fault, plan) := next_fault (api_faults w) None in
    let w1 := set_api_faults plan w in
    let written := set_sheet (sheet w1 ++ [row_data]) w1 in
    match fault with
    | None => (Returned tt, written)
    | Some AnswerLost => (Raised AnswerLost, written)
    | Some e => (Raised e, w1)
    end.

Definition _safe_value (val : option string) : string :=
  match val with
  | None => "-"
  | Some v =>
      let val_str := PyStr.strip v in
      if String.eqb val_str "" then "-" else val_str
  end.

(** Lines 93 to 96: the [@] prefix. *)
Definition format_username (username : option string) : string :=
  let formatted_username := _safe_value username in
  if negb (String.eqb formatted_username "-")
     && negb (PyStr.startswith "@" formatted_username)
  then "@" ++ formatted_username
  else formatted_username.

Definition _add_partnercode_sync (partnercode : string)
  (name contact username referral_source : option string) : M bool :=
  try_except
    (let* _ := open_worksheet in
     let* cell := find partnercode in
     match cell with
     | Some _ => ret true
     | None =>
         let row_data :=
           [ partnercode;
             _safe_value name;
             _safe_value contact;
             format_username username;
             _safe_value referral_source ] in
         let* _ := append_row row_data in
         ret true
     end)
    (fun _ => ret false).

(** The loop [for value in values: try: balance += float(value)
    except ValueError: continue]. *)
Fixpoint sum_cells (balance : PyFloat.float) (values : list string)
  : outcome PyFloat.float :=
  match values with
  | [] => Returned balance
  | value :: values' =>
      match PyFloat.of_string value with
      | Returned x => sum_cells (PyFloat.add balance x) values'
      | Raised ValueError => sum_cells balance values'
      | Raised e => Raised e
      end
  end.

(** The body shared by the two definitions of [_get_balance_sync]; they
    differ in the slice [row_values[first:]] only. *)
Definition balance_body (first : nat) (partnercode : string)
  : M PyFloat.float :=
  let* _ := open_worksheet in
  let* cell := find partnercode in
  match cell with
  | None => ret PyFloat.zero
  | Some row =>
      let* values := row_values row in
      match values with
      | [] => ret PyFloat.zero
      | _ => lift (sum_cells PyFloat.zero (skipn first values))
      end
  end.

(** Line 148: "skipping first column". *)
Definition _get_balance_sync_l148 (partnercode : string) : M PyFloat.float :=
  try_except (balance_body 1 partnercode) (fun _ => ret PyFloat.zero).

(** Line 209: "skipping first 4 columns". *)
Definition _get_balance_sync_l209 (partnercode : string) : M PyFloat.float :=
  try_except (balance_body 4 partnercode) (fun _ => ret PyFloat.zero).

(** Lines 190 to 208.  Their [def] line is commented out, so these
    statements follow the [return] of [get_balance_async] and are bound
    to no name.  A [dict] is a list of items. *)
Definition worksheet_info_statements : M (list (string * Z)) :=
  try_except
    (let* _ := open_worksheet in
     let* all_values := get_all_values in
     let row_count := Z.of_nat (length all_values) in
     let partnercode_count :=
       Z.of_nat
         (length
            (List.filter
               (fun row =>
                  match row with
                  | [] => false
                  | c :: _ => negb (String.eqb c "")
                  end)
               (tl all_values))) in
     ret [ ("row_count"%string, row_count);
           ("partnercode_count"%string, partnercode_count) ])
    (fun _ => ret []).

(** Function objects of the module. *)
Inductive pyfun : Type :=
  | Fn_add (f : string -> option string -> option string -> option string
                -> option string -> M bool)
  | Fn_balance (f : string -> M PyFloat.float)
  | Fn_info (f : M (list (string * Z))).

(** The module's [def] statements for the private helpers, in source
    order.  The wrappers below look their helper up when they are called,
    so a later [def] of a name replaces an earlier one. *)
Definition module_defs : list (string * pyfun) :=
  [ ("_add_partnercode_sync"%string, Fn_add _add_partnercode_sync);
    ("_get_balance_sync"%string, Fn_balance _get_balance_sync_l148);
    ("_get_balance_sync"%string, Fn_balance _get_balance_sync_l209) ].

Fixpoint lookup_def (defs : list (string * pyfun)) (name : string)
  (found : option pyfun) : option pyfun :=
  match defs with
  | [] => found
  | (n, f) :: defs' =>
      lookup_def defs' name (if String.eqb n name then Some f else found)
  end.

Definition global (name : string) : option pyfun :=
  lookup_def module_defs name None.

Definition add_partnercode (partnercode : string)
  (name contact username referral_source : option string) : M bool :=
  match global "_add_partnercode_sync" with
  | Some (Fn_add f) => f partnercode name contact username referral_source
  | Some _ => raise OtherException
  | None => raise NameError
  end.

Definition get_balance (partnercode : string) : M PyFloat.float :=
  match global "_get_balance_sync" with
  | Some (Fn_balance f) => f partnercode
  | Some _ => raise OtherException
  | None => raise NameError
  end.

Definition get_worksheet_info : M (list (string * Z)) :=
  match global "_get_worksheet_info_sync" with
  | Some (Fn_info f) => f
  | Some _ => raise OtherException
  | None => raise NameError
  end.

End Sheets.

(** ** handlers/admin.py *)

Module Admin.

(** What the handlers read of an aiogram [CallbackQuery]. *)
Record CallbackQuery : Type := mk_callback {
  from_user_id : Z;                    (* callback.from_user.id *)
  from_user_username : option string;  (* callback.from_user.username *)
  data : string                        (* callback.data *)
}.

Definition getenv (var : option string) (default : string) : string :=
  match var with
  | Some v => v
  | None => default
  end.

Definition get_admin_user_id : M Z :=
  fun w => (PyStr.int (getenv (ADMIN_USER_ID w) "1454702347"), w).

Definition get_admin_group_id : M string :=
  fun w => (Returned (getenv (ADMIN_GROUP_ID w) "-1003016595712"), w).

Definition is_admin (user_id : Z) : M bool :=
  let* admin_user_id := get_admin_user_id in
  ret (user_id =? admin_user_id).

(** One call of the Telegram API: it raises what the plan says, else the
    call is delivered. *)
Definition bot (c : bot_call) : M unit :=
  fun w =>
    let '(fault, plan) := next_fault (bot_faults w) None in
    let w1 := set_bot_faults plan w in
    match fault with
    | Some e => (Raised e, w1)
    | None => (Returned tt, set_outbox (outbox w1 ++ [c]) w1)
    end.

(** [try: await callback.bot.send_message(..) except Exception: log] *)
Definition notify (chat_id : M chat) (text : template) : M unit :=
  try_except
    (let* c := chat_id in bot (SendMessage c text))
    (fun _ => ret tt).

(** [int(callback.data.split("_")[1])] *)
Definition callback_user_id (callback : CallbackQuery) : M Z :=
  let* field := lift (PyStr.index (PyStr.split "_" (data callback)) 1) in
  lift (PyStr.int field).

Definition admin_group : M chat :=
  let* g := get_admin_group_id in ret (ChatName g).

Definition approve_user (callback : CallbackQuery) : M unit :=
  try_except
    (let* admin := is_admin (from_user_id callback) in
     if negb admin then bot (Answer T_not_admin)
     else
       let* user_id := callback_user_id callback in
       let* user := Db.get_user user_id in
       match user with
       | None => bot (Answer T_user_not_found)
       | Some u =>
           if approved u then bot (Answer T_already_approved)
           else
             let* success := Db.update_user_approval user_id true in
             if success then
               let* sheets_success :=
                 Sheets.add_partnercode
                   (PyStr.str_of_int user_id)
                   (Some (name u))
                   (Some (phone u))
                   (from_user_username callback)
                   None in
               if sheets_success then
                 let* _ := notify (ret (ChatId user_id))
                                  T_approved_user_notice in
                 let* _ := notify admin_group
                                  (T_approved_group_notice
                                     user_id (name u) (phone u)) in
                 let* _ := bot (Answer T_approved_alert) in
                 bot (EditText (T_approved_edit (name u) user_id))
               else bot (Answer T_sheets_error)
             else bot (Answer T_status_error)
       end)
    (fun _ => bot (Answer T_approve_failed)).

Definition reject_user (callback : CallbackQuery) : M unit :=
  try_except
    (let* admin := is_admin (from_user_id callback) in
     if negb admin then bot (Answer T_not_admin)
     else
       let* user_id := callback_user_id callback in
       let* user := Db.get_user user_id in
       match user with
       | None => bot (Answer T_user_not_found)
       | Some u =>
           let* _ := notify (ret (ChatId user_id)) T_rejected_user_notice in
           let* _ := notify admin_group
                            (T_rejected_group_notice
                               user_id (name u) (phone u)) in
           let* _ := bot (Answer T_rejected_alert) in
           bot (EditText (T_rejected_edit (name u) user_id))
       end)
    (fun _ => bot (Answer T_reject_failed)).

End Admin.

(** ** Worlds used in the examples *)

(** A fresh installation: empty table, a worksheet holding its header
    row, no fault planned, default environment. *)
Definition fresh (now offset : Z) : world :=
  mk_world ∅ [] now offset
           [["Partner ID"; "Name"; "Contact"; "Username"; "Referral"]]
           [] [] [] None None.

(** The admin pressing "approve" under the registration of user 12345. *)
Definition approve_12345 (username : string) : Admin.CallbackQuery :=
  Admin.mk_callback 1454702347 (Some username) "approve_12345".

(** A host five hours west of Greenwich, at 2024-01-02 01:00:00 UTC. *)
Definition west_of_utc : world := fresh 1704157200000000 (-18000).

(** A host on UTC, at the same instant. *)
Definition installed : world := fresh 1704157200000000 0.

(** User 12345 has registered and waits for a decision. *)
Definition registered : world :=
  after (Db.save_user 12345 "Test User" "+1234567890" false)
        installed.

Definition reject_12345 : Admin.CallbackQuery :=
  Admin.mk_callback 1454702347 (Some "testuser") "reject_12345".

(** The parsing rule in the words of the specification: a cell counts
    when it parses as a float after a comma decimal separator has been
    normalised to a period. *)
Module Spec.

Definition normalize_decimal_comma (s : string) : string :=
  string_of_list_ascii
    (map (fun c => if Ascii.eqb c ","%char then "."%char else c)
         (list_ascii_of_string s)).

Fixpoint sum_cells (balance : PyFloat.float) (values : list string)
  : outcome PyFloat.float :=
  match values with
  | [] => Returned balance
  | value :: values' =>
      match PyFloat.of_string (normalize_decimal_comma value) with
      | Returned x => sum_cells (PyFloat.add balance x) values'
      | Raised _ => sum_cells balance values'
      end
  end.

End Spec.

(** A ledger whose partner 42 has the cells "100,50", "text", "200.75"
    and "" from column 5 on. *)
Definition ledger_with_comma_cell : world :=
  set_sheet
    [ ["Partner ID"; "Name"; "Contact"; "Username"; "Referral"];
      ["42"; "Test User"; "+1234567890"; "@testuser";
       "100,50"; "text"; "200.75"; ""] ]%string
    installed.

(** ** Predicates used in the statements *)

Definition no_db_faults (w : world) : Prop :=
  Forall (fun f => f = false) (db_faults w).

Definition no_api_faults (w : world) : Prop :=
  Forall (fun f => f = @None py_exc) (api_faults w).

(** The number of rows whose key column holds [partnercode]. *)
Definition count_key (partnercode : string) (rows : list (list string))
  : nat :=
  length (List.filter
            (fun row => String.eqb (Sheets.key_of row) partnercode) rows).

(** [approved_at] is set exactly on the approved rows. *)
Definition approval_invariant (t : gmap Z user_row) : Prop :=
  forall id u, t !! id = Some u ->
    (approved_at u <> None <-> approved u = true).

(** What a step leaves alone when it only talks to Telegram or reads the
    table: the table, the worksheet, the clock, the environment and the
    Sheets plan; the database plan may only be consumed. *)
Definition frame (w w' : world) : Prop :=
  users w' = users w /\
  sheet w' = sheet w /\
  utc_now w' = utc_now w /\
  utc_offset w' = utc_offset w /\
  api_faults w' = api_faults w /\
  ADMIN_USER_ID w' = ADMIN_USER_ID w /\
  ADMIN_GROUP_ID w' = ADMIN_GROUP_ID w /\
  exists k, db_faults w' = skipn k (db_faults w).

(** A computation keeps [R] when every run relates the world it starts
    in to the world it ends in. *)
Definition keeps (R : world -> world -> Prop) {A} (m : M A) : Prop :=
  forall w, R w (after m w).

Definition framed {A} (m : M A) : Prop := keeps frame m.

Definition same_users (w w' : world) : Prop := users w' = users w.

Definition no_bot_faults (w : world) : Prop :=
  Forall (fun f => f = @None py_exc) (bot_faults w).

(** The world once the next Telegram call [c] has gone through. *)
Definition delivered (c : bot_call) (w : world) : world :=
  set_outbox (outbox w ++ [c]) (set_bot_faults (tl (bot_faults w)) w).

(** What [reject_user] sends about user [id], whose row is [u]. *)
Definition rejection_notices (w : world) (id : Z) (u : user_row)
  : list bot_call :=
  [ SendMessage (ChatId id) T_rejected_user_notice;
    SendMessage (ChatName (Admin.getenv (ADMIN_GROUP_ID w) "-1003016595712"))
                (T_rejected_group_notice id (name u) (phone u));
    Answer T_rejected_alert;
    EditText (T_rejected_edit (name u) id) ].

(** The world once the next Sheets request has gone through. *)
Definition served (w : world) : world :=
  set_api_faults (tl (api_faults w)) w.

(** The row [_add_partnercode_sync] builds. *)
Definition row_data (partnercode : string)
  (name contact username referral_source : option string) : list string :=
  [ partnercode;
    Sheets._safe_value name;
    Sheets._safe_value contact;
    Sheets.format_username username;
    Sheets._safe_value referral_source ].


(** ** utils/database.py: the two listings *)

From Stdlib Require Import Sorting.Sorted Sorting.Permutation.

Module DbQueries.

(** Insertion into a list ordered by [le]; an element goes before the
    first one it is not greater than. *)
Fixpoint insert_by {A} (le : A -> A -> bool) (x : A) (l : list A) : list A :=
  match l with
  | [] => [x]
  | y :: l' => if le x y then x :: l else y :: insert_by le x l'
  end.

(** [ORDER BY]: rows that compare equal stay in the order they had. *)
Definition order_by {A} (le : A -> A -> bool) (l : list A) : list A :=
  fold_right (insert_by le) [] l.

(** A scan of the table: rows by increasing rowid, that is by
    [telegram_id]. *)
Definition scan (t : gmap Z user_row) : list user_row :=
  map snd (order_by (fun a b => fst a <=? fst b) (map_to_list t)).

(** SQLite's order on a nullable text column: NULL first, then the
    texts byte by byte. *)
Definition null_first_le (a b : option string) : bool :=
  match a, b with
  | None, _ => true
  | Some _, None => false
  | Some x, Some y => String.leb x y
  end.

(** The [dict] of a row of [get_pending_users]. *)
Record pending_user : Type := mk_pending {
  pending_telegram_id : Z;
  pending_name : string;
  pending_phone : string;
  pending_created_at : string
}.

(** The [dict] of a row of [get_approved_users]. *)
Record approved_user : Type := mk_approved {
  approved_telegram_id : Z;
  approved_name : string;
  approved_phone : string;
  approved_approved_at : option string
}.

Definition pending_of (u : user_row) : pending_user :=
  mk_pending (telegram_id u) (name u) (phone u) (created_at u).

Definition approved_of (u : user_row) : approved_user :=
  mk_approved (telegram_id u) (name u) (phone u) (approved_at u).

(** [SELECT .. WHERE approved = FALSE ORDER BY created_at ASC] *)
Definition select_pending (t : gmap Z user_row) : list user_row :=
  order_by (fun a b => String.leb (created_at a) (created_at b))
           (List.filter (fun u => negb (approved u)) (scan t)).

(** [SELECT .. WHERE approved = TRUE ORDER BY approved_at ASC] *)
Definition select_approved (t : gmap Z user_row) : list user_row :=
  order_by (fun a b => null_first_le (approved_at a) (approved_at b))
           (List.filter (fun u => approved u) (scan t)).

Definition get_pending_users : M (list pending_user) :=
  Db.except_sqlite
    (Db.connect (fun _ t => (Returned (map pending_of (select_pending t)), t)))
    [].

Definition get_approved_users : M (list approved_user) :=
  Db.except_sqlite
    (Db.connect
       (fun _ t => (Returned (map approved_of (select_approved t)), t)))
    [].

End DbQueries.

(** ** utils/sheets-old2.py: the connection test *)

Module SheetsConn.

(** [worksheet.cell(1, 1).value]: one request; an empty sheet has no
    value there. *)
Definition cell_1_1 : M (option string) :=
  let* _ := Sheets.request in
  fun w => (Returned (match sheet w with
                      | (c :: _) :: _ => Some c
                      | _ => None
                      end), w).

Definition _test_connection_sync : M bool :=
  try_except
    (let* _ := Sheets.open_worksheet in
     let* _ := cell_1_1 in
     ret true)
    (fun e =>
       match e with
       | SpreadsheetNotFound | WorksheetNotFound => ret false
       | APIError => ret false
       | _ => ret false
       end).

(** The module binds [_test_connection_sync] once, at line 37. *)
Definition test_connection : M bool := _test_connection_sync.

End SheetsConn.

(** ** handlers/admin.py: the buttons of the admin panel *)

Module AdminPanel.

(** [callback_data=f"approve_{user['telegram_id']}"] *)
Definition approve_data (telegram_id : Z) : string :=
  "approve_" ++ PyStr.str_of_int telegram_id.

(** [callback_data=f"reject_{user['telegram_id']}"] *)
Definition reject_data (telegram_id : Z) : string :=
  "reject_" ++ PyStr.str_of_int telegram_id.

(** The inline keyboard: a pair of buttons for each of the first five
    pending users. *)
Definition keyboard_buttons (pending_users : list DbQueries.pending_user)
  : list (string * string) :=
  map (fun user =>
         (approve_data (DbQueries.pending_telegram_id user),
          reject_data (DbQueries.pending_telegram_id user)))
      (firstn 5 pending_users).

End AdminPanel.

(** ** Message handlers: handlers/menu.py, handlers/start-old.py and the
    statistics command of handlers/admin.py

    A message handler runs in a [session]: the world, the messages it
    has sent, and the FSM context of the user (aiogram's state and its
    data, of which the handlers use the key [phone] only). *)

Module Chat.

(** [len(s)]: the number of code points, that is of the bytes that are
    not continuation bytes. *)
Definition len (s : string) : Z :=
  Z.of_nat
    (length
       (List.filter (fun c => negb (Z.land (PyStr.code c) 192 =? 128))
                    (list_ascii_of_string s))).

(** [message.text.strip()] *)
Definition strip (s : string) : string := PyStr.strip s.

(** The states of [class Register(StatesGroup)]. *)
Inductive state : Type :=
  | Register_phone
  | Register_name.

(** The texts the handlers send, by the place they are sent from. *)
Inductive text : Type :=
  | Approval_waiting                      (* config.MESSAGES['approval_waiting'] *)
  | Error_balance                         (* config.MESSAGES['error_balance'] *)
  | Balance_info (balance : PyFloat.float) (* MESSAGES['balance_info'].format(..) *)
  | Name_invalid
  | Name_too_long
  | Phone_missing
  | New_registration (user_id : Z) (name phone : string)
  | Registration_done
  | Save_failed
  | Name_failed
  | Stats_not_admin
  | Stats (pending approved : nat) (sheets : option (option Z * option Z))
  | Stats_failed.

(** What the handlers read of an aiogram [Message].  The sender's id is
    a Telegram user id, an integer of at most 52 significant bits by the
    Bot API: it fits 64 bits. *)
Record Message : Type := mk_message {
  from_user_id : Z;        (* message.from_user.id *)
  chat_id : Z;             (* message.chat.id *)
  text_of : option string; (* message.text *)
  from_user_id_fits : Db.sqlite_int from_user_id = true
}.

Record session : Type := mk_session {
  base : world;
  sent : list (chat * text);      (* send_message calls that went through *)
  fsm_state : option state;       (* await state.get_state() *)
  fsm_phone : option string       (* (await state.get_data()).get('phone') *)
}.

Definition set_base (w : world) (s : session) : session :=
  mk_session w (sent s) (fsm_state s) (fsm_phone s).

Definition H (A : Type) : Type := session -> outcome A * session.

Definition hret {A} (a : A) : H A := fun s => (Returned a, s).

Definition hbind {A B} (m : H A) (k : A -> H B) : H B :=
  fun s =>
    match m s with
    | (Returned a, s') => k a s'
    | (Raised e, s') => (Raised e, s')
    end.

Notation "'do*' x ':=' m 'in' k" := (hbind m (fun x => k))
  (at level 10, x pattern, k at level 200).

(** [try: m  except Exception: h] *)
Definition htry {A} (m : H A) (h : py_exc -> H A) : H A :=
  fun s =>
    match m s with
    | (Returned a, s') => (Returned a, s')
    | (Raised e, s') => h e s'
    end.

(** A call into [utils.database], [utils.sheets] or [handlers.admin]. *)
Definition call {A} (m : M A) : H A :=
  fun s => let '(o, w) := m (base s) in (o, set_base w s).

(** [bot.send_message(chat_id=c, text=t)]: one call of the Telegram
    API, which raises what the plan says or is delivered. *)
Definition send (c : chat) (t : text) : H unit :=
  fun s =>
    let '(fault, plan) := next_fault (bot_faults (base s)) None in
    let s1 := set_base (set_bot_faults plan (base s)) s in
    match fault with
    | Some e => (Raised e, s1)
    | None =>
        (Returned tt,
         mk_session (base s1) (sent s1 ++ [(c, t)]) (fsm_state s1)
                    (fsm_phone s1))
    end.

(** [message.answer(t)]: a [send_message] to the chat of the message. *)
Definition answer (message : Message) (t : text) : H unit :=
  send (ChatId (chat_id message)) t.

(** [await state.clear()] *)
Definition state_clear : H unit :=
  fun s => (Returned tt, mk_session (base s) (sent s) None None).

(** [data = await state.get_data(); phone = data.get('phone')] *)
Definition state_get_phone : H (option string) :=
  fun s => (Returned (fsm_phone s), s).

(** [balance is None], of the float [get_balance] returns. *)
Definition is_None (balance : PyFloat.float) : bool := false.

(** handlers/menu.py, [check_balance]. *)
Definition check_balance (message : Message) : H unit :=
  do* is_approved := call (Db.is_user_approved (from_user_id message)) in
  if negb is_approved then answer message Approval_waiting
  else
    let partnercode := PyStr.str_of_int (from_user_id message) in
    do* balance := call (Sheets.get_balance partnercode) in
    if is_None balance then answer message Error_balance
    else answer message (Balance_info balance).

(** handlers/start-old.py, [process_name].  The module has its own
    [get_admin_group_id], with the body of the one of handlers/admin.py. *)
Definition process_name (message : Message) : H unit :=
  htry
    (do* name :=
       match text_of message with
       | Some t => hret (strip t)
       | None => fun s => (Raised OtherException, s)  (* AttributeError *)
       end in
     if String.eqb name EmptyString || (len name <? 2)
     then answer message Name_invalid
     else if len name >? 50 then answer message Name_too_long
     else
       do* phone := state_get_phone in
       match phone with
       | None => do* _ := answer message Phone_missing in state_clear
       | Some ph =>
           if String.eqb ph EmptyString
           then do* _ := answer message Phone_missing in state_clear
           else
             let user_id := from_user_id message in
             do* success := call (Db.save_user user_id name ph false) in
             do* _ :=
               (if success then
                  do* _ :=
                    htry
                      (do* g := call Admin.get_admin_group_id in
                       send (ChatName g) (New_registration user_id name ph))
                      (fun _ => hret tt) in
                  answer message Registration_done
                else answer message Save_failed) in
             state_clear
       end)
    (fun _ => answer message Name_failed).

(** [sheets_info.get(key, 'N/A')] *)
Definition dict_get (d : list (string * Z)) (key : string) : option Z :=
  match List.find (fun kv => String.eqb (fst kv) key) d with
  | Some kv => Some (snd kv)
  | None => None
  end.

(** handlers/admin.py, [admin_stats]. *)
Definition admin_stats (message : Message) : H unit :=
  htry
    (let user_id := from_user_id message in
     do* admin := call (Admin.is_admin user_id) in
     if negb admin then answer message Stats_not_admin
     else
       do* pending_users := call DbQueries.get_pending_users in
       do* approved_users := call DbQueries.get_approved_users in
       do* sheets_connected := call SheetsConn.test_connection in
       do* sheets_info :=
         (if sheets_connected then call Sheets.get_worksheet_info
          else hret []) in
       answer message
         (Stats (length pending_users) (length approved_users)
                (if sheets_connected
                 then Some (dict_get sheets_info "partnercode_count",
                            dict_get sheets_info "row_count")
                 else None)))
    (fun _ => answer message Stats_failed).

Definition hresult {A} (m : H A) (s : session) : outcome A := fst (m s).
Definition hafter {A} (m : H A) (s : session) : session := snd (m s).

(** A session with nothing sent and no FSM state. *)
Definition idle (w : world) : session := mk_session w [] None None.

End Chat.

(** ** Further predicates *)

(** Every row is stored under its own [telegram_id]. *)
Definition keys_match (t : gmap Z user_row) : Prop :=
  forall k u, t !! k = Some u -> telegram_id u = k.

(** The operations of the store as the handlers use them: registration
    always creates with [approved=False]. *)
Inductive store_op : Type :=
  | Create (telegram_id : Z) (name phone : string)
  | SetApproval (telegram_id : Z) (approved : bool)
  | Delete (telegram_id : Z)
  | Find (telegram_id : Z)
  | IsApproved (telegram_id : Z).

Definition run_op (op : store_op) (w : world) : world :=
  match op with
  | Create id nm ph => after (Db.save_user id nm ph false) w
  | SetApproval id flag => after (Db.update_user_approval id flag) w
  | Delete id => after (Db.delete_user id) w
  | Find id => after (Db.get_user id) w
  | IsApproved id => after (Db.is_user_approved id) w
  end.

Definition run_ops (ops : list store_op) (w : world) : world :=
  fold_left (fun w op => run_op op w) ops w.

(** What [approve_user] sends about user [id], whose row is [u], when
    the ledger call has succeeded. *)
Definition approval_notices (w : world) (id : Z) (u : user_row)
  : list bot_call :=
  [ SendMessage (ChatId id) T_approved_user_notice;
    SendMessage (ChatName (Admin.getenv (ADMIN_GROUP_ID w) "-1003016595712"))
                (T_approved_group_notice id (name u) (phone u));
    Answer T_approved_alert;
    EditText (T_approved_edit (name u) id) ].

(** The second world differs from the first in the Telegram outbox and
    plan at most. *)
Definition only_telegram (w w' : world) : Prop :=
  users w' = users w /\ db_faults w' = db_faults w /\
  utc_now w' = utc_now w /\ utc_offset w' = utc_offset w /\
  sheet w' = sheet w /\ api_faults w' = api_faults w /\
  ADMIN_USER_ID w' = ADMIN_USER_ID w /\ ADMIN_GROUP_ID w' = ADMIN_GROUP_ID w.

(** The second world differs from the first in the worksheet and the
    Sheets plan at most. *)
Definition only_ledger (w w' : world) : Prop :=
  users w' = users w /\ db_faults w' = db_faults w /\
  utc_now w' = utc_now w /\ utc_offset w' = utc_offset w /\
  outbox w' = outbox w /\ bot_faults w' = bot_faults w /\
  ADMIN_USER_ID w' = ADMIN_USER_ID w /\ ADMIN_GROUP_ID w' = ADMIN_GROUP_ID w.

(** The second world differs from the first in the table and the
    database plan at most. *)
Definition only_database (w w' : world) : Prop :=
  sheet w' = sheet w /\ api_faults w' = api_faults w /\
  utc_now w' = utc_now w /\ utc_offset w' = utc_offset w /\
  outbox w' = outbox w /\ bot_faults w' = bot_faults w /\
  ADMIN_USER_ID w' = ADMIN_USER_ID w /\ ADMIN_GROUP_ID w' = ADMIN_GROUP_ID w.

(** The messages of [approve_user] once the ledger call has returned
    [sheets_success]. *)
Definition approve_tail (user_id : Z) (u : user_row) (sheets_success : bool)
  : M unit :=
  if sheets_success then
    let* _ := Admin.notify (ret (ChatId user_id)) T_approved_user_notice in
    let* _ := Admin.notify Admin.admin_group
                (T_approved_group_notice user_id (name u) (phone u)) in
    let* _ := Admin.bot (Answer T_approved_alert) in
    Admin.bot (EditText (T_approved_edit (name u) user_id))
  else Admin.bot (Answer T_sheets_error).

(** User 12345 has been approved and written to the ledger. *)
Definition approved_12345 : world :=
  after (Admin.approve_user (approve_12345 "testuser")) registered.

(** The ledger is out of reach: the next request raises. *)
Definition ledger_down (w : world) : world :=
  set_api_faults [Some APIError] w.


(** A text made of decimal digits only. *)
Definition all_digits (ds : list ascii) : Prop :=
  Forall (fun c => PyStr.is_digit c = true) ds.




(** * Properties *)

(** ** Computations that keep a relation between worlds *)

Section Keeps.

Variable R : world -> world -> Prop.
Hypothesis R_refl : forall w, R w w.
Hypothesis R_trans : forall w1 w2 w3, R w1 w2 -> R w2 w3 -> R w1 w3.

Lemma keeps_ret {A} (a : A) : keeps R (ret a).
Proof using R_refl. intros w; apply R_refl. Qed.

Lemma keeps_raise {A} (e : py_exc) : keeps R (@raise A e).
Proof using R_refl. intros w; apply R_refl. Qed.

Lemma keeps_lift {A} (o : outcome A) : keeps R (lift o).
Proof using R_refl. intros w; apply R_refl. Qed.

Lemma keeps_bind {A B} (m : M A) (k : A -> M B) :
  keeps R m -> (forall a, keeps R (k a)) -> keeps R (bind m k).
Proof using R_trans.
  intros Hm Hk w. specialize (Hm w).
  unfold after, bind in *.
  destruct (m w) as [[a | e] w']; simpl in *.
  - eapply R_trans; [exact Hm | apply Hk].
  - exact Hm.
Qed.

Lemma keeps_try_except {A} (m : M A) (h : py_exc -> M A) :
  keeps R m -> (forall e, keeps R (h e)) -> keeps R (try_except m h).
Proof using R_trans.
  intros Hm Hh w. specialize (Hm w).
  unfold after, try_except in *.
  destruct (m w) as [[a | e] w']; simpl in *.
  - exact Hm.
  - eapply R_trans; [exact Hm | apply Hh].
Qed.

End Keeps.

Lemma frame_refl (w : world) : frame w w.
Proof.
  unfold frame; repeat split; try reflexivity.
  exists 0%nat; reflexivity.
Qed.

Lemma frame_trans (w1 w2 w3 : world) :
  frame w1 w2 -> frame w2 w3 -> frame w1 w3.
Proof.
  intros (U1 & S1 & N1 & O1 & A1 & I1 & G1 & k1 & D1)
         (U2 & S2 & N2 & O2 & A2 & I2 & G2 & k2 & D2).
  unfold frame; repeat split; try congruence.
  exists (k1 + k2)%nat.
  rewrite D2, D1, skipn_skipn. f_equal; lia.
Qed.

Ltac framed_step :=
  first [ apply (keeps_ret frame frame_refl)
        | apply (keeps_raise frame frame_refl)
        | apply (keeps_lift frame frame_refl)
        | apply (keeps_bind frame frame_trans)
        | apply (keeps_try_except frame frame_trans) ].

Lemma framed_bot (c : bot_call) : framed (Admin.bot c).
Proof.
  intros w. unfold after, Admin.bot.
  destruct (next_fault (bot_faults w) None) as [[e |] plan]; simpl;
    unfold frame; simpl; repeat split; exists 0%nat; reflexivity.
Qed.

Lemma framed_get_user (id : Z) : framed (Db.get_user id).
Proof.
  intros w.
  unfold after, Db.get_user, Db.except_sqlite, try_except, Db.connect,
    Db.no_row, next_fault.
  destruct (db_faults w) as [| [|] plan] eqn:E; simpl;
    try (destruct (users w !! id); simpl;
         try (destruct (Db.sqlite_int id); simpl));
    unfold frame; simpl; repeat split;
    solve [ exists 0%nat; symmetry; exact E
          | exists 1%nat; rewrite E; reflexivity ].
Qed.

Lemma framed_is_admin (user_id : Z) : framed (Admin.is_admin user_id).
Proof.
  unfold Admin.is_admin. framed_step.
  - intros w; apply frame_refl.
  - intros a; framed_step.
Qed.

Lemma framed_callback_user_id (c : Admin.CallbackQuery) :
  framed (Admin.callback_user_id c).
Proof.
  unfold Admin.callback_user_id. framed_step; [| intros]; framed_step.
Qed.

Lemma framed_notify (chat_id : M chat) (text : template) :
  framed chat_id -> framed (Admin.notify chat_id text).
Proof.
  intros H. unfold Admin.notify. framed_step.
  - framed_step; [exact H | intros; apply framed_bot].
  - intros; framed_step.
Qed.

Lemma framed_admin_group : framed Admin.admin_group.
Proof.
  unfold Admin.admin_group. framed_step.
  - intros w; apply frame_refl.
  - intros; framed_step.
Qed.

Lemma framed_user_chat (user_id : Z) : framed (ret (ChatId user_id)).
Proof. framed_step. Qed.

Lemma framed_reject_user (c : Admin.CallbackQuery) :
  framed (Admin.reject_user c).
Proof.
  unfold Admin.reject_user.
  framed_step; [| intros; apply framed_bot].
  framed_step; [apply framed_is_admin |].
  intros admin. destruct admin; simpl; [| apply framed_bot].
  framed_step; [apply framed_callback_user_id |].
  intros user_id.
  framed_step; [apply framed_get_user |].
  intros [u |]; [| apply framed_bot].
  framed_step; [apply framed_notify, framed_user_chat |]. intros _.
  framed_step; [apply framed_notify, framed_admin_group |]. intros _.
  framed_step; [apply framed_bot |]. intros _.
  apply framed_bot.
Qed.

(** ** The user store *)

Ltac run_db :=
  unfold result, after, Db.is_user_approved, Db.save_user, Db.get_user,
    Db.update_user_approval, Db.delete_user, Db.except_sqlite, bind,
    try_except, Db.connect, Db.no_row, next_fault, ret, raise.

Ltac row_cases :=
  repeat match goal with
         | |- context [match users ?w !! ?id with _ => _ end] =>
             destruct (users w !! id) as [[] |] eqn:?; simpl
         | |- context [if Db.sqlite_int ?id then _ else _] =>
             destruct (Db.sqlite_int id) eqn:?; simpl
         end.

(** What [save_user] does to the table, fault or not. *)
Lemma save_user_table (w : world) (id : Z) (nm ph : string) (flag : bool) :
  users (after (Db.save_user id nm ph flag) w) = users w \/
  (users w !! id = None /\
   users (after (Db.save_user id nm ph flag) w) =
     <[id := mk_user id nm ph flag (Db.CURRENT_TIMESTAMP w) None]> (users w)).
Proof.
  run_db.
  destruct (db_faults w) as [| [|] plan]; simpl;
    destruct (users w !! id) eqn:E; simpl; auto;
    destruct (Db.sqlite_int id); simpl; auto.
Qed.

(** What [update_user_approval] does to the table. *)
Lemma update_user_approval_table (w : world) (id : Z) (flag : bool) :
  users (after (Db.update_user_approval id flag) w) = users w \/
  (exists u, users w !! id = Some u /\
   users (after (Db.update_user_approval id flag) w) =
     <[id := mk_user (telegram_id u) (name u) (phone u) flag (created_at u)
                     (if flag then Some (Db.datetime_now w) else None)]>
       (users w)).
Proof.
  run_db.
  destruct (db_faults w) as [| [|] plan]; simpl;
    destruct (users w !! id) as [[key nm ph a c d] |] eqn:E; simpl; auto;
    try (destruct (Db.sqlite_int id); simpl; auto; fail);
    right; eexists; split; reflexivity.
Qed.

Lemma delete_user_table (w : world) (id : Z) :
  users (after (Db.delete_user id) w) = users w \/
  users (after (Db.delete_user id) w) = delete id (users w).
Proof.
  run_db.
  destruct (db_faults w) as [| [|] plan]; simpl;
    destruct (users w !! id) eqn:E; simpl; auto;
    destruct (Db.sqlite_int id); simpl; auto.
Qed.

Lemma approval_invariant_insert (t : gmap Z user_row) (id : Z) (u : user_row) :
  approval_invariant t ->
  (approved_at u <> None <-> approved u = true) ->
  approval_invariant (<[id := u]> t).
Proof.
  intros Ht Hu k v. rewrite lookup_insert.
  destruct (decide (id = k)); intros E.
  - injection E as <-. exact Hu.
  - eapply Ht; eauto.
Qed.

(** With the flag left at its default, [save_user] keeps the invariant. *)
Lemma save_user_pending_keeps_invariant
  (w : world) (id : Z) (nm ph : string) :
  approval_invariant (users w) ->
  approval_invariant (users (after (Db.save_user id nm ph false) w)).
Proof.
  intros H.
  destruct (save_user_table w id nm ph false) as [-> | [_ ->]]; [exact H |].
  apply approval_invariant_insert; [exact H |]. simpl.
  split; [intros C; contradiction | discriminate].
Qed.

(** [update_user_approval] keeps the invariant for either flag. *)
Lemma update_user_approval_keeps_invariant (w : world) (id : Z) (flag : bool) :
  approval_invariant (users w) ->
  approval_invariant (users (after (Db.update_user_approval id flag) w)).
Proof.
  intros H.
  destruct (update_user_approval_table w id flag) as [-> | (u & _ & ->)];
    [exact H |].
  apply approval_invariant_insert; [exact H |]. simpl.
  destruct flag; split; try discriminate; try reflexivity.
  intros C; contradiction.
Qed.

Lemma delete_user_keeps_invariant (w : world) (id : Z) :
  approval_invariant (users w) ->
  approval_invariant (users (after (Db.delete_user id) w)).
Proof.
  intros H.
  destruct (delete_user_table w id) as [-> | ->]; [exact H |].
  intros k v E. apply lookup_delete_Some in E as [_ E]. eapply H; eauto.
Qed.

(** C3.  The invariant "[approved_at] is non-null iff [approved]" holds
    of the empty table, yet creating a user with the optional flag set
    stores [approved = True] with a null [approved_at]: [save_user]
    never writes the column that [update_user_approval] fills. *)
Theorem save_user_approved_leaves_approved_at_null :
  let w := installed in
  let w' := after (Db.save_user 12346 "User 2" "+2222222222" true) w in
  approval_invariant (users w) /\
  result (Db.save_user 12346 "User 2" "+2222222222" true) w = Returned true /\
  users w' !! 12346 =
    Some (mk_user 12346 "User 2" "+2222222222" true "2024-01-02 01:00:00" None) /\
  ~ approval_invariant (users w').
Proof.
  assert (L : users (after (Db.save_user 12346 "User 2" "+2222222222" true)
                           installed) !! 12346 =
              Some (mk_user 12346 "User 2" "+2222222222" true
                            "2024-01-02 01:00:00" None)).
  { run_db. simpl. rewrite lookup_empty. simpl. apply lookup_insert_eq. }
  cbv zeta. split; [| split; [| split]].
  - intros id u E. simpl in E. rewrite lookup_empty in E. discriminate.
  - run_db. simpl. rewrite lookup_empty. reflexivity.
  - exact L.
  - intros Inv. specialize (Inv _ _ L). simpl in Inv.
    destruct Inv as [_ Inv]. apply Inv; reflexivity.
Qed.

(** C4.  A second [save_user] with an id already in the table returns
    [False] (it does not raise) and leaves the table, hence every field
    of the existing row, as it was. *)
Theorem save_user_existing_id_rejected
  (w : world) (id : Z) (u : user_row) (nm ph : string) (flag : bool) :
  users w !! id = Some u ->
  result (Db.save_user id nm ph flag) w = Returned false /\
  users (after (Db.save_user id nm ph flag) w) = users w /\
  users (after (Db.save_user id nm ph flag) w) !! id = Some u.
Proof.
  intros H. run_db.
  destruct (db_faults w) as [| [|] plan]; simpl; rewrite ?H; simpl; auto.
Qed.

Lemma save_user_existing_id_rejected_witness :
  let w := after (Db.save_user 12345 "Test User" "+1234567890" false)
                 installed in
  let u := mk_user 12345 "Test User" "+1234567890" false
                   "2024-01-02 01:00:00" None in
  users w !! 12345 = Some u /\
  result (Db.save_user 12345 "Another User" "+0987654321" true) w
    = Returned false /\
  users (after (Db.save_user 12345 "Another User" "+0987654321" true) w)
    = users w /\
  users (after (Db.save_user 12345 "Another User" "+0987654321" true) w)
    !! 12345 = Some u.
Proof.
  cbv zeta.
  assert (L : users (after (Db.save_user 12345 "Test User" "+1234567890" false)
                           installed) !! 12345 =
              Some (mk_user 12345 "Test User" "+1234567890" false
                            "2024-01-02 01:00:00" None)).
  { vm_compute. reflexivity. }
  split; [exact L |].
  exact (save_user_existing_id_rejected _ 12345 _
           "Another User" "+0987654321" true L).
Defined.

(** C10, as the code has it.  [is_user_approved] answers [False],
    without raising, for an id that fits 64 bits and has no row, and for
    any id when the connection raises [sqlite3.Error]. *)
Theorem is_user_approved_unknown_is_false (w : world) (id : Z) :
  (Db.sqlite_int id = true /\ users w !! id = None) \/
  head (db_faults w) = Some true ->
  result (Db.is_user_approved id) w = Returned false.
Proof.
  intros H. run_db.
  destruct (db_faults w) as [| [|] plan]; simpl in *;
    try reflexivity;
    destruct H as [[F H] | H]; try discriminate; rewrite H, F; reflexivity.
Qed.

Lemma is_user_approved_unknown_is_false_witness :
  ((Db.sqlite_int 99999 = true /\ users installed !! 99999 = None) \/
   head (db_faults installed) = Some true) /\
  result (Db.is_user_approved 99999) installed
    = Returned false.
Proof.
  assert (H : (Db.sqlite_int 99999 = true /\
               users installed !! 99999 = None) \/
              head (db_faults installed) = Some true).
  { left. split; vm_compute; reflexivity. }
  split; [exact H |].
  exact (is_user_approved_unknown_is_false _ 99999 H).
Defined.

(** C10, as it is written, fails on an id that does not fit 64 bits:
    2^63 has no row in a fresh installation, the connection succeeds,
    and [is_user_approved] raises [OverflowError], as [get_user] does:
    [except sqlite3.Error] does not catch it. *)
Lemma is_user_approved_raises_on_wide_id :
  users installed !! (2 ^ 63) = None /\
  head (db_faults installed) = None /\
  result (Db.get_user (2 ^ 63)) installed = Raised OverflowError /\
  result (Db.is_user_approved (2 ^ 63)) installed = Raised OverflowError /\
  result (Db.is_user_approved (2 ^ 63)) installed <> Returned false.
Proof.
  repeat split; try (vm_compute; reflexivity).
  vm_compute. discriminate.
Qed.

(** An approval that goes through: the flag is set and [approved_at] is
    the local wall-clock reading. *)
Lemma update_user_approval_approves (w : world) (id : Z) (u : user_row) :
  users w !! id = Some u ->
  head (db_faults w) <> Some true ->
  result (Db.update_user_approval id true) w = Returned true /\
  users (after (Db.update_user_approval id true) w) !! id
    = Some (mk_user (telegram_id u) (name u) (phone u) true
                    (created_at u) (Some (Db.datetime_now w))).
Proof.
  intros H F. run_db.
  destruct (db_faults w) as [| [|] plan]; simpl in *;
    try (exfalso; apply F; reflexivity);
    rewrite H; destruct u as [key nm ph a c d]; simpl;
    rewrite lookup_insert_eq; split; reflexivity.
Qed.

(** On a host whose local time is not behind UTC, the local reading taken
    at an approval is not earlier than the UTC reading taken at a
    registration that came first. *)
Lemma local_now_not_before_utc (w0 w : world) :
  0 <= utc_offset w ->
  utc_now w0 <= utc_now w ->
  utc_now w0 <= Db.local_now w.
Proof. unfold Db.local_now. lia. Qed.

(** C6.  [created_at] is SQLite's [CURRENT_TIMESTAMP], which is UTC, and
    [approved_at] is [datetime.now()], which is local time.  On a host
    five hours west of Greenwich, a user registered at 01:00 UTC and
    approved one minute later is found with [approved = True] and a
    non-null [approved_at] of the evening before, which is earlier than
    [created_at]. *)
Theorem approved_at_local_time_precedes_created_at :
  let w1 := after (Db.save_user 12345 "Test User" "+1234567890" false)
                  west_of_utc in
  let w2 := advance 60000000 w1 in
  let w3 := after (Db.update_user_approval 12345 true) w2 in
  result (Db.get_user 12345) w2 =
    Returned (Some (mk_user 12345 "Test User" "+1234567890" false
                            "2024-01-02 01:00:00" None)) /\
  result (Db.update_user_approval 12345 true) w2 = Returned true /\
  result (Db.get_user 12345) w3 =
    Returned (Some (mk_user 12345 "Test User" "+1234567890" true
                            "2024-01-02 01:00:00"
                            (Some "2024-01-01T20:01:00"))) /\
  String.ltb "2024-01-01T20:01:00" "2024-01-02 01:00:00" = true /\
  Db.local_now w2 < utc_now w1.
Proof.
  cbv zeta. repeat split; vm_compute; reflexivity.
Qed.

(** ** The ledger client *)

Lemma request_served (w : world) :
  no_api_faults w -> Sheets.request w = (Returned tt, served w).
Proof.
  unfold no_api_faults, Sheets.request, served, next_fault.
  destruct (api_faults w) as [| f plan]; intros F; [reflexivity |].
  inversion F; subst; reflexivity.
Qed.

Lemma no_api_faults_served (w : world) :
  no_api_faults w -> no_api_faults (served w).
Proof.
  unfold no_api_faults, served; simpl.
  destruct (api_faults w); intros F; [exact F | inversion F; assumption].
Qed.

Lemma open_worksheet_served (w : world) :
  no_api_faults w ->
  Sheets.open_worksheet w = (Returned tt, served (served (served w))).
Proof.
  intros F. unfold Sheets.open_worksheet, Sheets.get_client, bind.
  rewrite (request_served w F).
  rewrite (request_served _ (no_api_faults_served _ F)).
  apply request_served. now do 2 apply no_api_faults_served.
Qed.

Lemma append_row_served (row : list string) (w : world) :
  no_api_faults w ->
  Sheets.append_row row w
    = (Returned tt, set_sheet (sheet w ++ [row]) (served w)).
Proof.
  unfold no_api_faults, Sheets.append_row, served, next_fault.
  destruct (api_faults w) as [| f plan]; intros F; [reflexivity |].
  inversion F; subst; reflexivity.
Qed.

(** Without a fault, [add_partnercode] succeeds; it appends its row when
    the key is not found and touches nothing when it is. *)
Lemma add_partnercode_run (w : world) (pc : string)
  (nm ct un rs : option string) :
  no_api_faults w ->
  result (Sheets.add_partnercode pc nm ct un rs) w = Returned true /\
  no_api_faults (after (Sheets.add_partnercode pc nm ct un rs) w) /\
  sheet (after (Sheets.add_partnercode pc nm ct un rs) w) =
    match Sheets.find_from 1 pc (sheet w) with
    | Some _ => sheet w
    | None => (sheet w ++ [row_data pc nm ct un rs])%list
    end.
Proof.
  intros F.
  unfold result, after, Sheets.add_partnercode; simpl.
  unfold Sheets._add_partnercode_sync, try_except, bind.
  rewrite (open_worksheet_served w F).
  unfold Sheets.find, bind.
  rewrite request_served by (now do 3 apply no_api_faults_served).
  change (sheet (served (served (served (served w))))) with (sheet w).
  destruct (Sheets.find_from 1 pc (sheet w)) as [n |]; simpl.
  - repeat split. now do 4 apply no_api_faults_served.
  - rewrite append_row_served by (now do 4 apply no_api_faults_served).
    simpl. repeat split.
    change (no_api_faults (served (served (served (served (served w)))))).
    now do 5 apply no_api_faults_served.
Qed.

(** ** The admission workflow *)


Lemma same_users_refl (w : world) : same_users w w.
Proof. reflexivity. Qed.

Lemma same_users_trans (w1 w2 w3 : world) :
  same_users w1 w2 -> same_users w2 w3 -> same_users w1 w3.
Proof. unfold same_users; congruence. Qed.

Ltac users_step :=
  first [ apply (keeps_ret same_users same_users_refl)
        | apply (keeps_raise same_users same_users_refl)
        | apply (keeps_lift same_users same_users_refl)
        | apply (keeps_bind same_users same_users_trans)
        | apply (keeps_try_except same_users same_users_trans) ].

Lemma request_same_users : keeps same_users Sheets.request.
Proof.
  intros w. unfold after, Sheets.request.
  destruct (next_fault (api_faults w) None) as [[e |] plan]; reflexivity.
Qed.

Lemma open_worksheet_same_users : keeps same_users Sheets.open_worksheet.
Proof.
  unfold Sheets.open_worksheet, Sheets.get_client.
  users_step; [apply request_same_users | intros _].
  users_step; [apply request_same_users | intros _].
  apply request_same_users.
Qed.

(** The ledger client never writes the [users] table. *)
Lemma add_partnercode_same_users (pc : string) (nm ct un rs : option string) :
  keeps same_users (Sheets.add_partnercode pc nm ct un rs).
Proof.
  unfold Sheets.add_partnercode; simpl. unfold Sheets._add_partnercode_sync.
  users_step; [| intros; users_step].
  users_step; [apply open_worksheet_same_users | intros _].
  users_step.
  - unfold Sheets.find. users_step; [apply request_same_users | intros _].
    intros w; reflexivity.
  - intros [n |]; [users_step |].
    users_step; [| intros; users_step].
    intros w. unfold after, Sheets.append_row.
    destruct (next_fault (api_faults w) None) as [[e |] plan];
      [destruct e |]; reflexivity.
Qed.

Lemma bind_returned {A B} (m : M A) (k : A -> M B) (w : world) (a : A) :
  result m w = Returned a -> bind m k w = k a (after m w).
Proof.
  unfold result, after, bind. destruct (m w) as [o w']; simpl.
  intros ->; reflexivity.
Qed.

Lemma frame_after_bind {A B} (m : M A) (k : A -> M B) (w : world) :
  (forall a, framed (k a)) -> frame (after m w) (after (bind m k) w).
Proof.
  intros Hk. unfold after, bind.
  destruct (m w) as [[a | e] w']; simpl; [apply Hk | apply frame_refl].
Qed.

Lemma frame_after_try_except {A} (m : M A) (h : py_exc -> M A) (w : world) :
  (forall e, framed (h e)) -> frame (after m w) (after (try_except m h) w).
Proof.
  intros Hh. unfold after, try_except.
  destruct (m w) as [[a | e] w']; simpl; [apply frame_refl | apply Hh].
Qed.

Lemma is_admin_after (user_id : Z) (w : world) :
  after (Admin.is_admin user_id) w = w.
Proof.
  unfold after, Admin.is_admin, Admin.get_admin_user_id, bind, ret.
  destruct (PyStr.int _); reflexivity.
Qed.

Lemma callback_user_id_after (c : Admin.CallbackQuery) (w : world) :
  after (Admin.callback_user_id c) w = w.
Proof.
  unfold after, Admin.callback_user_id, bind, lift.
  destruct (PyStr.index _ _); [destruct (PyStr.int _) |]; reflexivity.
Qed.

Lemma no_db_faults_skipn (w w' : world) (k : nat) :
  no_db_faults w -> db_faults w' = skipn k (db_faults w) -> no_db_faults w'.
Proof.
  unfold no_db_faults. intros F ->.
  rewrite <- (firstn_skipn k (db_faults w)) in F.
  apply Forall_app in F. tauto.
Qed.

Lemma no_db_faults_frame (w w' : world) :
  no_db_faults w -> frame w w' -> no_db_faults w'.
Proof.
  intros F (_ & _ & _ & _ & _ & _ & _ & k & D).
  eapply no_db_faults_skipn; eauto.
Qed.

Lemma get_user_result (w : world) (id : Z) :
  no_db_faults w ->
  Db.sqlite_int id = true \/ users w !! id <> None ->
  result (Db.get_user id) w = Returned (users w !! id).
Proof.
  unfold no_db_faults. run_db. intros F B.
  assert (E : match users w !! id with
              | Some u => (Returned (Some u), users w)
              | None =>
                  if Db.sqlite_int id then (Returned None, users w)
                  else (@Raised (option user_row) OverflowError, users w)
              end = (Returned (users w !! id), users w)).
  { destruct (users w !! id); [reflexivity |].
    destruct B as [-> | B]; [reflexivity | congruence]. }
  destruct (db_faults w) as [| f plan]; [| inversion F; subst];
    simpl; rewrite E; reflexivity.
Qed.

(** The world after a successful [update_user_approval(id, True)]. *)
Lemma update_user_approval_run (w : world) (id : Z) (u : user_row) :
  no_db_faults w ->
  users w !! id = Some u ->
  let w' := after (Db.update_user_approval id true) w in
  result (Db.update_user_approval id true) w = Returned true /\
  users w' =
    <[id := mk_user (telegram_id u) (name u) (phone u) true (created_at u)
                    (Some (Db.datetime_now w))]> (users w) /\
  sheet w' = sheet w /\ api_faults w' = api_faults w.
Proof.
  unfold no_db_faults. intros F H. run_db.
  destruct (db_faults w) as [| f plan]; [| inversion F; subst];
    simpl; rewrite H; destruct u; simpl; repeat split.
Qed.

(** The messages sent once the ledger call has returned. *)
Lemma framed_approve_tail (user_id : Z) (u : user_row) (sheets_success : bool) :
  framed
    (if sheets_success then
       let* _ := Admin.notify (ret (ChatId user_id)) T_approved_user_notice in
       let* _ := Admin.notify Admin.admin_group
                   (T_approved_group_notice user_id (name u) (phone u)) in
       let* _ := Admin.bot (Answer T_approved_alert) in
       Admin.bot (EditText (T_approved_edit (name u) user_id))
     else Admin.bot (Answer T_sheets_error)).
Proof.
  destruct sheets_success; [| apply framed_bot].
  framed_step; [apply framed_notify, framed_user_chat |]. intros _.
  framed_step; [apply framed_notify, framed_admin_group |]. intros _.
  framed_step; [apply framed_bot |]. intros _.
  apply framed_bot.
Qed.

(** Approving a pending user, the database answering: the row is marked
    approved whatever the ledger does, and, the ledger answering too, the
    partner row is appended unless its key is already there. *)
Lemma approve_user_pending
  (w : world) (c : Admin.CallbackQuery) (id : Z) (u : user_row) :
  result (Admin.is_admin (Admin.from_user_id c)) w = Returned true ->
  result (Admin.callback_user_id c) w = Returned id ->
  users w !! id = Some u ->
  approved u = false ->
  no_db_faults w ->
  users (after (Admin.approve_user c) w) =
    <[id := mk_user (telegram_id u) (name u) (phone u) true (created_at u)
                    (Some (Db.datetime_now w))]> (users w) /\
  (no_api_faults w ->
   sheet (after (Admin.approve_user c) w) =
     match Sheets.find_from 1 (PyStr.str_of_int id) (sheet w) with
     | Some _ => sheet w
     | None =>
         (sheet w ++ [row_data (PyStr.str_of_int id) (Some (name u))
                               (Some (phone u))
                               (Admin.from_user_username c) None])%list
     end).
Proof.
  intros Hadmin Hid Hu Hpending Hdb.
  unfold Admin.approve_user.
  match goal with
  | |- context [after (try_except ?body ?h) w] =>
      pose proof (frame_after_try_except body h w
                    (fun _ => framed_bot _)) as Hframe;
      set (final := after (try_except body h) w) in *;
      assert (Hbody : exists w3,
        users w3 =
          <[id := mk_user (telegram_id u) (name u) (phone u) true
                          (created_at u) (Some (Db.datetime_now w))]>
            (users w) /\
        sheet w3 = sheet w /\ api_faults w3 = api_faults w /\
        frame
          (after (Sheets.add_partnercode (PyStr.str_of_int id)
                    (Some (name u)) (Some (phone u))
                    (Admin.from_user_username c) None) w3)
          (after body w))
  end.
  { unfold after at 2.
    rewrite (bind_returned _ _ _ _ Hadmin), is_admin_after. simpl.
    rewrite (bind_returned _ _ _ _ Hid), callback_user_id_after.
    pose proof (framed_get_user id w) as Fg.
    rewrite (bind_returned _ _ _ (Some u))
      by (rewrite (get_user_result _ _ Hdb) by (right; congruence);
          now rewrite Hu).
    rewrite Hpending.
    set (wg := after (Db.get_user id) w) in *.
    assert (Hdbg : no_db_faults wg) by (eapply no_db_faults_frame; eauto).
    destruct Fg as (Ug & Sg & Ng & Og & Ag & _).
    assert (Hug : users wg !! id = Some u) by (rewrite Ug; exact Hu).
    destruct (update_user_approval_run wg id u Hdbg Hug)
      as (Rup & Uup & Sup & Aup).
    rewrite (bind_returned _ _ _ _ Rup).
    exists (after (Db.update_user_approval id true) wg).
    split; [| split; [| split]].
    - rewrite Uup, Ug. unfold Db.datetime_now, Db.local_now.
      now rewrite Ng, Og.
    - congruence.
    - congruence.
    - apply frame_after_bind. intros b. apply framed_approve_tail. }
  destruct Hbody as (w3 & U3 & S3 & A3 & Ftail).
  pose proof (frame_trans _ _ _ Ftail Hframe) as (Uf & Sf & _).
  split.
  - rewrite Uf. rewrite (add_partnercode_same_users _ _ _ _ _ w3). exact U3.
  - intros Hapi. rewrite Sf.
    assert (Hapi3 : no_api_faults w3)
      by (unfold no_api_faults in *; now rewrite A3).
    destruct (add_partnercode_run w3 (PyStr.str_of_int id) (Some (name u))
                (Some (phone u)) (Admin.from_user_username c) None Hapi3)
      as (_ & _ & ->).
    now rewrite S3.
Qed.

Lemma is_admin_result_env (user_id : Z) (w w' : world) :
  ADMIN_USER_ID w' = ADMIN_USER_ID w ->
  result (Admin.is_admin user_id) w' = result (Admin.is_admin user_id) w.
Proof.
  intros E.
  unfold result, Admin.is_admin, Admin.get_admin_user_id, bind, ret.
  rewrite E. destruct (PyStr.int _); reflexivity.
Qed.

Lemma callback_user_id_result (c : Admin.CallbackQuery) (w w' : world) :
  result (Admin.callback_user_id c) w' = result (Admin.callback_user_id c) w.
Proof.
  unfold result, Admin.callback_user_id, bind, lift.
  destruct (PyStr.index _ _); [destruct (PyStr.int _) |]; reflexivity.
Qed.

Lemma reject_user_iterated (c : Admin.CallbackQuery) (n : nat) (w : world) :
  frame w (Nat.iter n (after (Admin.reject_user c)) w).
Proof.
  induction n as [| n IH]; simpl.
  - apply frame_refl.
  - eapply frame_trans; [exact IH | apply framed_reject_user].
Qed.

Lemma bot_delivered (c : bot_call) (w : world) :
  no_bot_faults w -> Admin.bot c w = (Returned tt, delivered c w).
Proof.
  unfold no_bot_faults, Admin.bot, delivered, next_fault.
  destruct (bot_faults w) as [| f plan]; intros F; [reflexivity |].
  inversion F; subst; reflexivity.
Qed.

Lemma no_bot_faults_delivered (c : bot_call) (w : world) :
  no_bot_faults w -> no_bot_faults (delivered c w).
Proof.
  unfold no_bot_faults, delivered; simpl.
  destruct (bot_faults w); intros F; [exact F | inversion F; assumption].
Qed.

Lemma get_user_keeps_bot (id : Z) (w : world) :
  outbox (after (Db.get_user id) w) = outbox w /\
  bot_faults (after (Db.get_user id) w) = bot_faults w.
Proof.
  run_db. destruct (db_faults w) as [| [|] plan]; simpl; row_cases;
    split; reflexivity.
Qed.

(** The Telegram API answering, a rejection of an existing user sends
    its four messages, in order. *)
Lemma reject_user_notifies
  (w : world) (c : Admin.CallbackQuery) (id : Z) (u : user_row) :
  result (Admin.is_admin (Admin.from_user_id c)) w = Returned true ->
  result (Admin.callback_user_id c) w = Returned id ->
  users w !! id = Some u ->
  no_db_faults w ->
  no_bot_faults w ->
  result (Admin.reject_user c) w = Returned tt /\
  outbox (after (Admin.reject_user c) w) =
    (outbox w ++ rejection_notices w id u)%list.
Proof.
  intros Hadmin Hid Hu Hdb Hbot.
  unfold result, after.
  destruct (Admin.reject_user c w) as [o final] eqn:E. simpl.
  revert E. unfold Admin.reject_user, try_except.
  rewrite (bind_returned _ _ _ _ Hadmin), is_admin_after.
  change (negb true) with false. cbv iota.
  rewrite (bind_returned _ _ _ _ Hid), callback_user_id_after.
  rewrite (bind_returned _ _ _ (Some u))
    by (rewrite (get_user_result _ _ Hdb) by (right; congruence);
          now rewrite Hu).
  destruct (get_user_keeps_bot id w) as [Og Bg].
  destruct (framed_get_user id w) as (_ & _ & _ & _ & _ & _ & Gg & _).
  set (wg := after (Db.get_user id) w) in *.
  assert (Hbotg : no_bot_faults wg)
    by (unfold no_bot_faults in *; now rewrite Bg).
  unfold Admin.notify, Admin.admin_group, Admin.get_admin_group_id,
    try_except, bind, ret.
  rewrite (bot_delivered _ wg Hbotg).
  rewrite bot_delivered by (now apply no_bot_faults_delivered).
  rewrite bot_delivered by (now do 2 apply no_bot_faults_delivered).
  rewrite bot_delivered by (now do 3 apply no_bot_faults_delivered).
  intros E. injection E as <- <-. split; [reflexivity |].
  simpl. rewrite Og, Gg. unfold rejection_notices.
  now rewrite <- !app_assoc.
Qed.

(** C9.  [reject_user] writes nothing that is stored: whoever presses
    the button and whatever the callback data, the [users] table and the
    worksheet are afterwards what they were, so every record keeps its
    fields, [approved] and [approved_at] included; this holds after any
    number of rejections; for an existing user, with the admin pressing
    and Telegram answering, the four notices are what is added to the
    outbox; and a pending user who was rejected is approved by a later
    [approve_user] with no new registration. *)
Theorem reject_user_mutates_no_stored_state
  (w : world) (c : Admin.CallbackQuery) (n : nat) :
  let w' := after (Admin.reject_user c) w in
  frame w w' /\
  (forall id, users w' !! id = users w !! id) /\
  users (Nat.iter n (after (Admin.reject_user c)) w) = users w /\
  (forall (id : Z) (u : user_row),
     result (Admin.is_admin (Admin.from_user_id c)) w = Returned true ->
     result (Admin.callback_user_id c) w = Returned id ->
     users w !! id = Some u ->
     no_db_faults w ->
     no_bot_faults w ->
     outbox w' = (outbox w ++ rejection_notices w id u)%list) /\
  (forall (a : Admin.CallbackQuery) (id : Z) (u : user_row),
     result (Admin.is_admin (Admin.from_user_id a)) w = Returned true ->
     result (Admin.callback_user_id a) w = Returned id ->
     users w !! id = Some u ->
     approved u = false ->
     no_db_faults w ->
     exists t,
       users (after (Admin.approve_user a) w') !! id =
         Some (mk_user (telegram_id u) (name u) (phone u) true
                       (created_at u) (Some t))).
Proof.
  cbv zeta.
  pose proof (framed_reject_user c w) as F.
  split; [exact F |].
  split; [intros id; destruct F as (-> & _); reflexivity |].
  split; [apply reject_user_iterated |].
  split; [intros id u H1 H2 H3 H4 H5;
          apply (reject_user_notifies w c id u H1 H2 H3 H4 H5) |].
  intros a id u Hadmin Hid Hu Hpending Hdb.
  set (w' := after (Admin.reject_user c) w) in *.
  assert (Hdb' : no_db_faults w') by (eapply no_db_faults_frame; eauto).
  destruct F as (U & _ & _ & _ & _ & I & _).
  assert (Hadmin' : result (Admin.is_admin (Admin.from_user_id a)) w'
                    = Returned true)
    by (rewrite (is_admin_result_env _ w w' I); exact Hadmin).
  assert (Hid' : result (Admin.callback_user_id a) w' = Returned id)
    by (rewrite (callback_user_id_result a w w'); exact Hid).
  assert (Hu' : users w' !! id = Some u) by (rewrite U; exact Hu).
  destruct (approve_user_pending w' a id u Hadmin' Hid' Hu' Hpending Hdb')
    as [-> _].
  eexists. apply lookup_insert_eq.
Qed.

Lemma reject_user_mutates_no_stored_state_witness :
  exists t,
    users (after (Admin.approve_user (approve_12345 "testuser"))
                 (after (Admin.reject_user reject_12345) registered))
      !! 12345 =
    Some (mk_user 12345 "Test User" "+1234567890" true
                  "2024-01-02 01:00:00" (Some t)).
Proof.
  destruct (reject_user_mutates_no_stored_state registered reject_12345 3)
    as (_ & _ & _ & _ & H).
  apply (H (approve_12345 "testuser") 12345
           (mk_user 12345 "Test User" "+1234567890" false
                    "2024-01-02 01:00:00" None)).
  - vm_compute. reflexivity.
  - vm_compute. reflexivity.
  - vm_compute. reflexivity.
  - reflexivity.
  - unfold no_db_faults. vm_compute. constructor.
Defined.

(** A registration that goes through. *)
Lemma save_user_creates (w : world) (id : Z) (nm ph : string) (flag : bool) :
  no_db_faults w ->
  Db.sqlite_int id = true ->
  users w !! id = None ->
  let w' := after (Db.save_user id nm ph flag) w in
  result (Db.save_user id nm ph flag) w = Returned true /\
  users w' = <[id := mk_user id nm ph flag (Db.CURRENT_TIMESTAMP w) None]>
               (users w) /\
  sheet w' = sheet w /\ api_faults w' = api_faults w /\
  ADMIN_USER_ID w' = ADMIN_USER_ID w /\ no_db_faults w'.
Proof.
  unfold no_db_faults. intros F B H. run_db.
  destruct (db_faults w) as [| f plan]; [| inversion F; subst];
    simpl; rewrite H, B; simpl; repeat split; assumption.
Qed.

(** C2.  User 12345 registers as "Test User", "+1234567890" and an
    administrator approves.  The users table has no username column, and
    [approve_user] passes [callback.from_user.username] to
    [add_partnercode]: the username of whoever pressed the button.
    Database and ledger answering, and the key not yet in the ledger,
    the row appended is
    ["12345"; "Test User"; "+1234567890"; <presser's username>; "-"],
    the username formatted by lines 93 to 96; it is the row of the
    specification, with "@testuser", only when the presser's own username
    formats to that: an administrator called "boss" writes "@boss", one
    without a username writes "-". *)
Theorem approved_user_ledger_row_has_presser_username
  (w : world) (c : Admin.CallbackQuery) :
  no_db_faults w ->
  no_api_faults w ->
  users w !! 12345 = None ->
  Sheets.find_from 1 "12345" (sheet w) = None ->
  result (Admin.is_admin (Admin.from_user_id c)) w = Returned true ->
  Admin.data c = "approve_12345"%string ->
  let w1 := after (Db.save_user 12345 "Test User" "+1234567890" false) w in
  let w2 := after (Admin.approve_user c) w1 in
  sheet w2 =
    (sheet w ++
     [["12345"; "Test User"; "+1234567890";
       Sheets.format_username (Admin.from_user_username c); "-"]])%list /\
  (sheet w2 =
     (sheet w ++
      [["12345"; "Test User"; "+1234567890"; "@testuser"; "-"]])%list <->
   Sheets.format_username (Admin.from_user_username c) = "@testuser"%string).
Proof.
  intros Hdb Hapi Hnew Hkey Hadmin Hdata. cbv zeta.
  destruct (save_user_creates w 12345 "Test User" "+1234567890" false
              Hdb eq_refl Hnew)
    as (_ & U1 & S1 & A1 & I1 & Hdb1).
  set (w1 := after (Db.save_user 12345 "Test User" "+1234567890" false) w) in *.
  set (u := mk_user 12345 "Test User" "+1234567890" false
                    (Db.CURRENT_TIMESTAMP w) None) in *.
  assert (Hadmin1 : result (Admin.is_admin (Admin.from_user_id c)) w1
                    = Returned true)
    by (rewrite (is_admin_result_env _ w w1 I1); exact Hadmin).
  assert (Hid : result (Admin.callback_user_id c) w1 = Returned 12345).
  { unfold result, Admin.callback_user_id, bind, lift. rewrite Hdata.
    vm_compute. reflexivity. }
  assert (Hu : users w1 !! 12345 = Some u)
    by (rewrite U1; apply lookup_insert_eq).
  assert (Hapi1 : no_api_faults w1)
    by (unfold no_api_faults in *; now rewrite A1).
  destruct (approve_user_pending w1 c 12345 u Hadmin1 Hid Hu eq_refl Hdb1)
    as [_ Hsheet].
  assert (E : sheet (after (Admin.approve_user c) w1) =
              (sheet w ++
               [["12345"; "Test User"; "+1234567890";
                 Sheets.format_username (Admin.from_user_username c);
                 "-"]])%list).
  { rewrite (Hsheet Hapi1), S1.
    change (PyStr.str_of_int 12345) with "12345"%string.
    rewrite Hkey. reflexivity. }
  split; [exact E |].
  rewrite E. split.
  - intros X. apply app_inv_head in X. now injection X.
  - intros ->. reflexivity.
Qed.

Lemma approved_user_ledger_row_has_presser_username_witness :
  sheet (after (Admin.approve_user (approve_12345 "boss"))
               (after (Db.save_user 12345 "Test User" "+1234567890" false)
                      installed)) =
  [ ["Partner ID"; "Name"; "Contact"; "Username"; "Referral"];
    ["12345"; "Test User"; "+1234567890"; "@boss"; "-"] ]%string.
Proof.
  refine (proj1 (approved_user_ledger_row_has_presser_username installed
                   (approve_12345 "boss") _ _ _ _ _ _)).
  - unfold no_db_faults. simpl. constructor.
  - unfold no_api_faults. simpl. constructor.
  - vm_compute. reflexivity.
  - vm_compute. reflexivity.
  - vm_compute. reflexivity.
  - reflexivity.
Defined.

(** ** Registration in the ledger *)

Lemma find_from_none_count (q : string) (rows : list (list string)) (n : nat) :
  Sheets.find_from n q rows = None <-> count_key q rows = 0%nat.
Proof.
  unfold count_key. revert n.
  induction rows as [| row rows IH]; intros n; simpl.
  - tauto.
  - destruct (String.eqb (Sheets.key_of row) q); simpl.
    + split; discriminate.
    + apply IH.
Qed.

Lemma count_key_app (q : string) (rows rows' : list (list string)) :
  count_key q (rows ++ rows') = (count_key q rows + count_key q rows')%nat.
Proof. unfold count_key. now rewrite List.filter_app, length_app. Qed.

Lemma count_key_row_data (pc : string) (nm ct un rs : option string) :
  count_key pc [row_data pc nm ct un rs] = 1%nat.
Proof. unfold count_key, row_data. simpl. now rewrite String.eqb_refl. Qed.

(** C7.  The ledger answering, [add_partnercode] returns [True] without
    appending when the key is already in column 1; hence two calls in a
    row with the same key both return [True], the second appends nothing,
    and the key that was on at most one row is then on exactly one. *)
Theorem add_partnercode_idempotent
  (w : world) (pc : string) (nm ct un rs nm' ct' un' rs' : option string) :
  no_api_faults w ->
  let first := Sheets.add_partnercode pc nm ct un rs in
  let second := Sheets.add_partnercode pc nm' ct' un' rs' in
  let w1 := after first w in
  let w2 := after second w1 in
  (Sheets.find_from 1 pc (sheet w) <> None ->
   result first w = Returned true /\ sheet w1 = sheet w) /\
  result first w = Returned true /\
  result second w1 = Returned true /\
  sheet w2 = sheet w1 /\
  count_key pc (sheet w2) = Nat.max 1 (count_key pc (sheet w)) /\
  ((count_key pc (sheet w) <= 1)%nat -> count_key pc (sheet w2) = 1%nat).
Proof.
  intros F. cbv zeta.
  destruct (add_partnercode_run w pc nm ct un rs F) as (R1 & F1 & S1).
  set (w1 := after (Sheets.add_partnercode pc nm ct un rs) w) in *.
  destruct (add_partnercode_run w1 pc nm' ct' un' rs' F1) as (R2 & _ & S2).
  set (w2 := after (Sheets.add_partnercode pc nm' ct' un' rs') w1) in *.
  assert (C1 : count_key pc (sheet w1) = Nat.max 1 (count_key pc (sheet w))).
  { rewrite S1.
    destruct (Sheets.find_from 1 pc (sheet w)) as [n |] eqn:E.
    - assert (count_key pc (sheet w) <> 0%nat).
      { intros Z0. apply (proj2 (find_from_none_count pc (sheet w) 1%nat)) in Z0.
        rewrite E in Z0. discriminate. }
      lia.
    - apply (proj1 (find_from_none_count pc (sheet w) 1%nat)) in E.
      rewrite count_key_app, count_key_row_data, E. reflexivity. }
  assert (S21 : sheet w2 = sheet w1).
  { rewrite S2.
    destruct (Sheets.find_from 1 pc (sheet w1)) as [n |] eqn:E;
      [reflexivity |].
    apply (proj1 (find_from_none_count pc (sheet w1) 1%nat)) in E.
    rewrite C1 in E. lia. }
  split; [| split; [exact R1 | split; [exact R2 | split; [exact S21 |]]]].
  - intros Hfound. split; [exact R1 |]. rewrite S1.
    destruct (Sheets.find_from 1 pc (sheet w)); [reflexivity | congruence].
  - rewrite S21, C1. split; [reflexivity | lia].
Qed.

Lemma add_partnercode_idempotent_witness :
  let first := Sheets.add_partnercode "12345" (Some "Test User")
                 (Some "+1234567890") (Some "testuser") None in
  let w1 := after first installed in
  let w2 := after first w1 in
  result first installed = Returned true /\
  result first w1 = Returned true /\
  sheet w2 = sheet w1 /\
  count_key "12345" (sheet w2) = 1%nat.
Proof.
  cbv zeta.
  assert (F : no_api_faults installed)
    by (unfold no_api_faults; simpl; constructor).
  destruct (add_partnercode_idempotent installed "12345"
              (Some "Test User") (Some "+1234567890") (Some "testuser") None
              (Some "Test User") (Some "+1234567890") (Some "testuser") None F)
    as (_ & R1 & R2 & S & _ & C).
  assert (L : (count_key "12345" (sheet installed) <= 1)%nat)
    by (vm_compute; lia).
  exact (conj R1 (conj R2 (conj S (C L)))).
Defined.

(** ** Balance *)

Lemma try_except_returns {A} (m : M A) (a : A) (w : world) :
  exists v, result (try_except m (fun _ => ret a)) w = Returned v.
Proof.
  unfold result, try_except, ret.
  destruct (m w) as [[v | e] w']; simpl; eauto.
Qed.

(** C5.  [get_balance] always returns; it returns [0.0] when the key is
    not in column 1 and when any of the requests it makes (credentials,
    spreadsheet, worksheet, search, row) raises. *)
Theorem get_balance_defaults_to_zero (w : world) (partnercode : string) :
  (exists v, result (Sheets.get_balance partnercode) w = Returned v) /\
  (Sheets.find_from 1 partnercode (sheet w) = None \/
   Exists (fun f => f <> None) (firstn 5 (api_faults w)) ->
   result (Sheets.get_balance partnercode) w = Returned PyFloat.zero).
Proof.
  split; [apply try_except_returns |].
  unfold result, Sheets.get_balance; simpl.
  unfold Sheets._get_balance_sync_l209, Sheets.balance_body,
    Sheets.open_worksheet, Sheets.get_client, Sheets.find, Sheets.row_values,
    Sheets.request, try_except, bind, ret, lift, next_fault.
  destruct w as [t dbf now off rows plan out botf uid gid]. simpl.
  intros H.
  destruct plan as [| [e1 |] plan]; simpl in *; try reflexivity.
  - destruct H as [-> | H]; [reflexivity | inversion H].
  - do 4 (try (destruct plan as [| [? |] plan]; simpl in *; try reflexivity));
      destruct (Sheets.find_from 1 partnercode rows) as [n |] eqn:E;
      simpl; try reflexivity;
      (destruct H as [H | H]; [discriminate |]);
      repeat match goal with
             | X : Exists _ [] |- _ => inversion X
             | X : Exists _ (firstn 0 _) |- _ => inversion X
             | X : Exists _ (_ :: _) |- _ =>
                 inversion X; subst; clear X; try congruence
             end.
Qed.

Lemma get_balance_defaults_to_zero_witness :
  result (Sheets.get_balance "99999") installed
    = Returned PyFloat.zero.
Proof.
  refine (proj2 (get_balance_defaults_to_zero installed
                   "99999") _).
  left. vm_compute. reflexivity.
Defined.

Lemma of_string_raises_ValueError (s : string) (e : py_exc) :
  PyFloat.of_string s = Raised e -> e = ValueError.
Proof.
  unfold PyFloat.of_string.
  destruct (PyStr.sign _) as [neg cs].
  destruct (_ || _); [discriminate |].
  destruct (String.eqb _ _); [discriminate |].
  destruct (PyFloat.floatnumber cs) as [[m x] |]; [discriminate |].
  congruence.
Qed.

(** A cell enters the sum exactly when [float] accepts it as written. *)
Lemma sum_cells_cons (balance : PyFloat.float) (value : string)
  (values : list string) :
  Sheets.sum_cells balance (value :: values) =
    Sheets.sum_cells
      (match PyFloat.of_string value with
       | Returned x => PyFloat.add balance x
       | Raised _ => balance
       end) values.
Proof.
  simpl. destruct (PyFloat.of_string value) as [x | e] eqn:E; [reflexivity |].
  now rewrite (of_string_raises_ValueError _ _ E).
Qed.



(** C1.  [float] is applied to the cell as written, with no comma
    normalisation: "100,50" raises [ValueError] and is skipped.  For the
    row whose cells from column 5 on are "100,50", "text", "200.75", "",
    [get_balance] returns 200.75, where the rule of the specification
    gives 301.25. *)
Theorem get_balance_skips_comma_decimal_cell :
  result (Sheets.get_balance "42") ledger_with_comma_cell
    = PyFloat.of_string "200.75" /\
  PyFloat.of_string "200.75"
    = Returned (S754_finite false 7063262696833024 (-45)) /\
  PyFloat.of_string "100,50" = Raised ValueError /\
  Spec.sum_cells PyFloat.zero ["100,50"; "text"; "200.75"; ""]%string
    = PyFloat.of_string "301.25" /\
  result (Sheets.get_balance "42") ledger_with_comma_cell
    <> PyFloat.of_string "301.25".
Proof.
  repeat split; try (vm_compute; reflexivity).
  vm_compute. discriminate.
Qed.

(** ** Worksheet statistics *)

(** The statements left without their [def] would count as the
    specification says: all rows, and the rows after the header whose
    key is not empty. *)
Lemma worksheet_info_statements_count (w : world) :
  no_api_faults w ->
  result Sheets.worksheet_info_statements w =
    Returned
      [ ("row_count"%string, Z.of_nat (length (sheet w)));
        ("partnercode_count"%string,
         Z.of_nat
           (length
              (List.filter
                 (fun row => negb (String.eqb (Sheets.key_of row) ""))
                 (tl (sheet w))))) ].
Proof.
  intros F.
  unfold result, Sheets.worksheet_info_statements, try_except, bind.
  rewrite (open_worksheet_served w F).
  unfold Sheets.get_all_values, bind.
  rewrite request_served by (now do 3 apply no_api_faults_served).
  change (sheet (served (served (served (served w))))) with (sheet w).
  simpl.
  rewrite (List.filter_ext
             (fun row => negb (String.eqb (Sheets.key_of row) ""))
             (fun row => match row with
                         | [] => false
                         | c :: _ => negb (String.eqb c "")
                         end))
    by (intros [| c row]; reflexivity).
  reflexivity.
Qed.

(** C8.  No [def] of the module binds [_get_worksheet_info_sync]: its
    [def] line is a comment.  [get_worksheet_info] therefore raises
    [NameError] on every worksheet and returns no record. *)
Theorem get_worksheet_info_raises_NameError (w : world) :
  Sheets.global "_get_worksheet_info_sync" = None /\
  Sheets.get_worksheet_info w = (Raised NameError, w).
Proof. split; reflexivity. Qed.

(** * Further properties of the code *)

(** ** The user store: rows in, rows out *)

(** X1.  Registering an id that fits 64 bits and has no row, the
    database answering, returns [True], and [get_user] then finds the row
    with the name and phone given, the flag given, the UTC text of the
    moment as [created_at] and no [approved_at]. *)
Theorem save_user_then_get_user
  (w : world) (id : Z) (nm ph : string) (flag : bool) :
  no_db_faults w ->
  Db.sqlite_int id = true ->
  users w !! id = None ->
  result (Db.save_user id nm ph flag) w = Returned true /\
  result (Db.get_user id) (after (Db.save_user id nm ph flag) w) =
    Returned (Some (mk_user id nm ph flag (Db.CURRENT_TIMESTAMP w) None)).
Proof.
  intros Hdb Hfit Hnew.
  destruct (save_user_creates w id nm ph flag Hdb Hfit Hnew)
    as (R & U & _ & _ & _ & Hdb').
  split; [exact R |].
  rewrite (get_user_result _ id Hdb' (or_introl Hfit)), U.
  now rewrite lookup_insert_eq.
Qed.

Lemma save_user_then_get_user_witness :
  result (Db.get_user 12345)
         (after (Db.save_user 12345 "Test User" "+1234567890" false) installed)
  = Returned (Some (mk_user 12345 "Test User" "+1234567890" false
                            "2024-01-02 01:00:00" None)).
Proof.
  refine (proj2 (save_user_then_get_user installed 12345 "Test User"
                   "+1234567890" false _ _ _)).
  - unfold no_db_faults. simpl. constructor.
  - reflexivity.
  - vm_compute. reflexivity.
Defined.

(** X2.  Whatever the database does, [save_user], [update_user_approval]
    and [delete_user] called for one id leave the row of every other id
    as it was. *)
Theorem store_writes_touch_one_row
  (w : world) (id other : Z) (nm ph : string) (flag : bool) :
  id <> other ->
  users (after (Db.save_user id nm ph flag) w) !! other = users w !! other /\
  users (after (Db.update_user_approval id flag) w) !! other
    = users w !! other /\
  users (after (Db.delete_user id) w) !! other = users w !! other.
Proof.
  intros N. split; [| split].
  - destruct (save_user_table w id nm ph flag) as [-> | [_ ->]];
      [reflexivity | now apply lookup_insert_ne].
  - destruct (update_user_approval_table w id flag) as [-> | (u & _ & ->)];
      [reflexivity | now apply lookup_insert_ne].
  - destruct (delete_user_table w id) as [-> | ->];
      [reflexivity | now apply lookup_delete_ne].
Qed.

Lemma store_writes_touch_one_row_witness :
  users (after (Db.delete_user 1) registered) !! 12345
    = users registered !! 12345.
Proof.
  refine (proj2 (proj2 (store_writes_touch_one_row registered 1 12345
                          "A" "B" true _))).
  lia.
Defined.

(** X3.  For an id that fits 64 bits: [delete_user] of an id that has
    no row returns [False] and changes nothing; of an id that has one,
    the database answering, it returns [True], [get_user] then finds
    nothing, and the id can be registered again. *)
Theorem delete_user_removes_the_row (w : world) (id : Z) :
  Db.sqlite_int id = true ->
  (users w !! id = None ->
   result (Db.delete_user id) w = Returned false /\
   users (after (Db.delete_user id) w) = users w) /\
  (forall u nm ph,
     no_db_faults w ->
     users w !! id = Some u ->
     let w1 := after (Db.delete_user id) w in
     result (Db.delete_user id) w = Returned true /\
     result (Db.get_user id) w1 = Returned None /\
     result (Db.save_user id nm ph false) w1 = Returned true).
Proof.
  intros Hfit. split.
  - intros H. run_db.
    destruct (db_faults w) as [| [|] plan]; simpl; rewrite ?H, ?Hfit;
      simpl; auto.
  - intros u nm ph Hdb Hu. cbv zeta.
    assert (R : result (Db.delete_user id) w = Returned true /\
                users (after (Db.delete_user id) w) = delete id (users w) /\
                no_db_faults (after (Db.delete_user id) w)).
    { revert Hdb. unfold no_db_faults. run_db.
      destruct (db_faults w) as [| f plan]; intros F;
        [| inversion F; subst]; simpl; rewrite Hu; simpl; repeat split;
        assumption. }
    destruct R as (R & U & Hdb1).
    assert (Hgone : users (after (Db.delete_user id) w) !! id = None)
      by (rewrite U; apply lookup_delete_eq).
    split; [exact R | split].
    + now rewrite (get_user_result _ id Hdb1 (or_introl Hfit)), Hgone.
    + apply (save_user_creates _ id nm ph false Hdb1 Hfit Hgone).
Qed.

Lemma delete_user_removes_the_row_witness :
  result (Db.get_user 12345) (after (Db.delete_user 12345) registered)
    = Returned None.
Proof.
  refine (proj1 (proj2 (proj2 (delete_user_removes_the_row registered 12345
                                 eq_refl)
            (mk_user 12345 "Test User" "+1234567890" false
                     "2024-01-02 01:00:00" None) "A" "B" _ _))).
  - unfold no_db_faults. vm_compute. constructor.
  - vm_compute. reflexivity.
Defined.

(** X4.  For an id that fits 64 bits: [update_user_approval] of an id
    that has no row returns [False] and changes nothing.  Of an id that
    has one, the database answering,
    it returns [True] and rewrites two columns only: [approved] becomes
    the flag, and [approved_at] the local time text of the call when the
    flag is [True] (also when the row was approved before: the earlier
    time is overwritten) and NULL when it is [False]. *)
Theorem update_user_approval_rewrites_two_columns
  (w : world) (id : Z) (flag : bool) :
  Db.sqlite_int id = true ->
  (users w !! id = None ->
   result (Db.update_user_approval id flag) w = Returned false /\
   users (after (Db.update_user_approval id flag) w) = users w) /\
  (forall u,
     no_db_faults w ->
     users w !! id = Some u ->
     result (Db.update_user_approval id flag) w = Returned true /\
     users (after (Db.update_user_approval id flag) w) !! id =
       Some (mk_user (telegram_id u) (name u) (phone u) flag (created_at u)
                     (if flag then Some (Db.datetime_now w) else None))).
Proof.
  intros Hfit. split.
  - intros H. run_db.
    destruct (db_faults w) as [| [|] plan]; simpl; rewrite ?H, ?Hfit;
      simpl; auto.
  - intros u. unfold no_db_faults. intros F H. run_db.
    destruct (db_faults w) as [| f plan]; [| inversion F; subst];
      simpl; rewrite H; destruct u; simpl; rewrite lookup_insert_eq;
      split; reflexivity.
Qed.

Lemma update_user_approval_rewrites_two_columns_witness :
  users (after (Db.update_user_approval 12345 true) registered) !! 12345 =
    Some (mk_user 12345 "Test User" "+1234567890" true
                  "2024-01-02 01:00:00" (Some "2024-01-02T01:00:00")).
Proof.
  refine (proj2 (proj2 (update_user_approval_rewrites_two_columns
                          registered 12345 true eq_refl)
            (mk_user 12345 "Test User" "+1234567890" false
                     "2024-01-02 01:00:00" None) _ _)).
  - unfold no_db_faults. vm_compute. constructor.
  - vm_compute. reflexivity.
Defined.

(** ** The user store: invariants along any sequence of operations *)

Lemma keys_match_insert (t : gmap Z user_row) (id : Z) (u : user_row) :
  keys_match t -> telegram_id u = id -> keys_match (<[id := u]> t).
Proof.
  intros Ht Hu k v. rewrite lookup_insert.
  destruct (decide (id = k)); intros E.
  - injection E as <-. congruence.
  - eapply Ht; eauto.
Qed.

Lemma run_op_keys_match (op : store_op) (w : world) :
  keys_match (users w) -> keys_match (users (run_op op w)).
Proof.
  intros H. destruct op as [id nm ph | id flag | id | id | id]; simpl.
  - destruct (save_user_table w id nm ph false) as [-> | [_ ->]];
      [exact H | now apply keys_match_insert].
  - destruct (update_user_approval_table w id flag) as [-> | (u & E & ->)];
      [exact H |]. apply keys_match_insert; [exact H |]. simpl. eapply H; eauto.
  - destruct (delete_user_table w id) as [-> | ->]; [exact H |].
    intros k v E. apply lookup_delete_Some in E as [_ E]. eapply H; eauto.
  - now destruct (framed_get_user id w) as (-> & _).
  - assert (E : users (after (Db.is_user_approved id) w) = users w).
    { unfold Db.is_user_approved.
      apply (keeps_bind same_users same_users_trans);
        [intros v; now destruct (framed_get_user id v) as (E & _)
        | intros; apply (keeps_ret same_users same_users_refl)]. }
    now rewrite E.
Qed.

Lemma run_op_approval_invariant (op : store_op) (w : world) :
  approval_invariant (users w) -> approval_invariant (users (run_op op w)).
Proof.
  intros H. destruct op as [id nm ph | id flag | id | id | id]; simpl.
  - now apply save_user_pending_keeps_invariant.
  - now apply update_user_approval_keeps_invariant.
  - now apply delete_user_keeps_invariant.
  - now destruct (framed_get_user id w) as (-> & _).
  - assert (E : users (after (Db.is_user_approved id) w) = users w).
    { unfold Db.is_user_approved.
      apply (keeps_bind same_users same_users_trans);
        [intros v; now destruct (framed_get_user id v) as (E & _)
        | intros; apply (keeps_ret same_users same_users_refl)]. }
    now rewrite E.
Qed.

(** X5.  Along any sequence of store operations as the handlers issue
    them (registration creates with [approved=False]), and whatever
    faults occur on the way, a table in which [approved_at] is set
    exactly on the approved rows, and in which every row sits under its
    own [telegram_id], stays so; the empty table is such a table. *)
Theorem store_invariants_along_any_run (ops : list store_op) (w : world) :
  approval_invariant (users w) /\ keys_match (users w) ->
  approval_invariant (users (run_ops ops w)) /\
  keys_match (users (run_ops ops w)).
Proof.
  revert w. induction ops as [| op ops IH]; intros w [Ha Hk]; simpl.
  - split; assumption.
  - apply IH. split;
      [now apply run_op_approval_invariant | now apply run_op_keys_match].
Qed.

Lemma store_invariants_along_any_run_witness :
  let ops := [Create 1 "Ann" "+100"; SetApproval 1 true; Create 2 "Bob" "+200";
              SetApproval 1 false; Delete 2; SetApproval 1 true] in
  approval_invariant (users (run_ops ops installed)) /\
  keys_match (users (run_ops ops installed)).
Proof.
  apply store_invariants_along_any_run.
  split; intros k u E; simpl in E; rewrite lookup_empty in E; discriminate.
Defined.

(** ** The user store: the two listings *)

Lemma insert_by_perm {A} (le : A -> A -> bool) (x : A) (l : list A) :
  Permutation (DbQueries.insert_by le x l) (x :: l).
Proof.
  induction l as [| y l IH]; simpl; [reflexivity |].
  destruct (le x y); [reflexivity |].
  rewrite IH. apply perm_swap.
Qed.

Lemma order_by_perm {A} (le : A -> A -> bool) (l : list A) :
  Permutation (DbQueries.order_by le l) l.
Proof.
  induction l as [| x l IH]; simpl; [reflexivity |].
  rewrite insert_by_perm. now constructor.
Qed.

Lemma in_order_by {A} (le : A -> A -> bool) (l : list A) (x : A) :
  In x (DbQueries.order_by le l) <-> In x l.
Proof.
  split; apply Permutation_in;
    [apply order_by_perm | apply Permutation_sym, order_by_perm].
Qed.

Lemma insert_by_hd {A} (le : A -> A -> bool) (x y : A) (l : list A) :
  HdRel (fun a b => le a b = true) y l ->
  le y x = true ->
  HdRel (fun a b => le a b = true) y (DbQueries.insert_by le x l).
Proof.
  intros H Hyx. destruct l as [| a l]; simpl; [now constructor |].
  destruct (le x a); constructor; [exact Hyx | now inversion H].
Qed.

Lemma insert_by_sorted {A} (le : A -> A -> bool) (x : A) (l : list A) :
  (forall a b, le a b = true \/ le b a = true) ->
  Sorted (fun a b => le a b = true) l ->
  Sorted (fun a b => le a b = true) (DbQueries.insert_by le x l).
Proof.
  intros total. induction l as [| y l IH]; intros S; simpl.
  - repeat constructor.
  - destruct (le x y) eqn:E.
    + constructor; [exact S | now constructor].
    + inversion S; subst. constructor; [now apply IH |].
      apply insert_by_hd; [assumption |].
      destruct (total x y); congruence.
Qed.

Lemma order_by_sorted {A} (le : A -> A -> bool) (l : list A) :
  (forall a b, le a b = true \/ le b a = true) ->
  Sorted (fun a b => le a b = true) (DbQueries.order_by le l).
Proof.
  intros total. induction l as [| x l IH]; simpl; [constructor |].
  now apply insert_by_sorted.
Qed.

Lemma null_first_le_total (a b : option string) :
  DbQueries.null_first_le a b = true \/ DbQueries.null_first_le b a = true.
Proof.
  destruct a as [x |], b as [y |]; simpl; auto. apply String.leb_total.
Qed.

Lemma in_scan (t : gmap Z user_row) (u : user_row) :
  In u (DbQueries.scan t) <-> exists k, t !! k = Some u.
Proof.
  unfold DbQueries.scan. rewrite in_map_iff. split.
  - intros ([k v] & <- & H). exists k.
    apply (Permutation_in _ (order_by_perm _ _)) in H.
    apply list_elem_of_In in H. now apply elem_of_map_to_list in H.
  - intros [k H]. exists (k, u). split; [reflexivity |].
    apply (Permutation_in _ (Permutation_sym (order_by_perm _ _))).
    apply list_elem_of_In. now apply elem_of_map_to_list.
Qed.

Lemma length_scan (t : gmap Z user_row) :
  length (DbQueries.scan t) = size t.
Proof.
  unfold DbQueries.scan.
  rewrite length_map, (Permutation_length (order_by_perm _ _)).
  apply length_map_to_list.
Qed.

(** X6.  The database answering, [get_pending_users] returns exactly the
    rows with [approved] false, oldest [created_at] first, and
    [get_approved_users] exactly the rows with [approved] true, by
    [approved_at] with the NULL ones first; together they list every row
    of the table once.  When the connection fails each returns the empty
    list.  Neither changes the table. *)
Theorem listings_partition_the_table (w : world) :
  let pend := DbQueries.select_pending (users w) in
  let appr := DbQueries.select_approved (users w) in
  (no_db_faults w ->
   result DbQueries.get_pending_users w
     = Returned (map DbQueries.pending_of pend) /\
   result DbQueries.get_approved_users w
     = Returned (map DbQueries.approved_of appr)) /\
  (head (db_faults w) = Some true ->
   result DbQueries.get_pending_users w = Returned [] /\
   result DbQueries.get_approved_users w = Returned []) /\
  (forall u, In u pend <->
             (exists k, users w !! k = Some u) /\ approved u = false) /\
  (forall u, In u appr <->
             (exists k, users w !! k = Some u) /\ approved u = true) /\
  Sorted (fun a b => String.leb (created_at a) (created_at b) = true) pend /\
  Sorted (fun a b => DbQueries.null_first_le (approved_at a) (approved_at b)
                     = true) appr /\
  (length pend + length appr)%nat = size (users w) /\
  users (after DbQueries.get_pending_users w) = users w /\
  users (after DbQueries.get_approved_users w) = users w.
Proof.
  cbv zeta.
  split; [| split; [| split; [| split; [| split; [| split; [| split;
    [| split]]]]]]].
  - unfold no_db_faults, DbQueries.get_pending_users,
      DbQueries.get_approved_users. run_db.
    destruct (db_faults w) as [| f plan]; intros F;
      [| inversion F; subst]; split; reflexivity.
  - unfold DbQueries.get_pending_users, DbQueries.get_approved_users. run_db.
    destruct (db_faults w) as [| [|] plan]; simpl; intros F;
      try discriminate; split; reflexivity.
  - intros u. unfold DbQueries.select_pending.
    rewrite in_order_by, filter_In, in_scan, negb_true_iff. reflexivity.
  - intros u. unfold DbQueries.select_approved.
    rewrite in_order_by, filter_In, in_scan. reflexivity.
  - apply order_by_sorted. intros a b. apply String.leb_total.
  - apply order_by_sorted. intros a b. apply null_first_le_total.
  - unfold DbQueries.select_pending, DbQueries.select_approved.
    rewrite !(Permutation_length (order_by_perm _ _)).
    rewrite Nat.add_comm, filter_length. apply length_scan.
  - unfold DbQueries.get_pending_users. run_db.
    destruct (db_faults w) as [| [|] plan]; reflexivity.
  - unfold DbQueries.get_approved_users. run_db.
    destruct (db_faults w) as [| [|] plan]; reflexivity.
Qed.

Lemma listings_partition_the_table_witness :
  result DbQueries.get_pending_users registered =
    Returned [DbQueries.mk_pending 12345 "Test User" "+1234567890"
                                   "2024-01-02 01:00:00"].
Proof.
  assert (H : no_db_faults registered)
    by (unfold no_db_faults; vm_compute; constructor).
  pose proof (proj1 (proj1 (listings_partition_the_table registered) H)) as E.
  vm_compute in E. vm_compute. exact E.
Defined.

(** ** The ledger client: connection test *)

(** Every handler of [_test_connection_sync] returns [False]. *)
Lemma test_connection_handlers (w : world) :
  SheetsConn.test_connection w =
    try_except
      (let* _ := Sheets.open_worksheet in
       let* _ := SheetsConn.cell_1_1 in
       ret true)
      (fun _ => ret false) w.
Proof.
  unfold SheetsConn.test_connection, SheetsConn._test_connection_sync,
    try_except.
  match goal with
  | |- context [match ?m w with _ => _ end] =>
      destruct (m w) as [[b | e] w']; [reflexivity | destruct e; reflexivity]
  end.
Qed.

(** X7.  [test_connection] never raises and changes neither the
    worksheet nor the table; it returns [True] exactly when its four
    requests (credentials, spreadsheet, worksheet, cell A1) all go
    through, whatever exception a failing one raises. *)
Theorem test_connection_reports_reachability (w : world) :
  (exists b, result SheetsConn.test_connection w = Returned b) /\
  (result SheetsConn.test_connection w = Returned true <->
   Forall (fun f => f = None) (firstn 4 (api_faults w))) /\
  sheet (after SheetsConn.test_connection w) = sheet w /\
  users (after SheetsConn.test_connection w) = users w.
Proof.
  unfold result, after. rewrite test_connection_handlers.
  unfold SheetsConn.cell_1_1,
    Sheets.open_worksheet, Sheets.get_client, Sheets.request,
    try_except, bind, ret, next_fault.
  destruct w as [t dbf now off rows plan out botf uid gid]. simpl.
  destruct plan as [| [e1 |] [| [e2 |] [| [e3 |] [| [e4 |] plan]]]]; simpl;
    (split; [eexists; reflexivity |]);
    (split; [| split; reflexivity]);
    (split; [intros H; try discriminate; repeat constructor
            | intros H; try reflexivity;
              repeat match goal with
                     | X : Forall _ (_ :: _) |- _ =>
                         inversion X; subst; clear X; try discriminate
                     end]).
Qed.

Lemma test_connection_reports_reachability_witness :
  result SheetsConn.test_connection installed = Returned true.
Proof.
  refine (proj2 (proj1 (proj2 (test_connection_reports_reachability
                                 installed))) _).
  simpl. constructor.
Defined.

(** ** The ledger client: what a balance is made of *)





Lemma add_nan_r (x : PyFloat.float) : PyFloat.add x S754_nan = S754_nan.
Proof. destruct x; reflexivity. Qed.

Lemma sum_cells_from_nan (cells : list string) :
  Sheets.sum_cells S754_nan cells = Returned S754_nan.
Proof.
  induction cells as [| c cells IH]; [reflexivity |].
  rewrite sum_cells_cons.
  destruct (PyFloat.of_string c); [| exact IH].
  change (PyFloat.add S754_nan a) with S754_nan. exact IH.
Qed.

(** X9.  [float] accepts the text "nan" (in any case, signed or not), so
    a cell reading so is not skipped: one such cell among those summed
    makes the whole sum NaN, whatever the other cells hold. *)
Theorem nan_cell_makes_the_sum_nan
  (balance : PyFloat.float) (cells : list string) (c : string) :
  In c cells ->
  PyFloat.of_string c = Returned S754_nan ->
  Sheets.sum_cells balance cells = Returned S754_nan.
Proof.
  intros Hin Hc. revert balance.
  induction cells as [| x cells IH]; intros b; [contradiction |].
  rewrite sum_cells_cons.
  destruct Hin as [-> | Hin].
  - rewrite Hc, add_nan_r. apply sum_cells_from_nan.
  - now apply IH.
Qed.

Lemma nan_cell_makes_the_sum_nan_witness :
  Sheets.sum_cells PyFloat.zero ["100.50"; " NaN "; "200.75"]%string
    = Returned S754_nan.
Proof.
  apply (nan_cell_makes_the_sum_nan _ _ " NaN "%string).
  - simpl. auto.
  - vm_compute. reflexivity.
Defined.

(** X11.  Whatever fails, [add_partnercode] returns a boolean and never
    raises, never touches the [users] table, and leaves the worksheet as
    it was or one row longer: no existing row is changed or removed, and
    a row is added only when the key is not in column 1.  (The row can be
    there although the call returned [False]: the answer to the append
    was lost.) *)
Theorem add_partnercode_only_appends
  (w : world) (pc : string) (nm ct un rs : option string) :
  let w' := after (Sheets.add_partnercode pc nm ct un rs) w in
  (exists b, result (Sheets.add_partnercode pc nm ct un rs) w = Returned b) /\
  users w' = users w /\
  (sheet w' = sheet w \/
   (Sheets.find_from 1 pc (sheet w) = None /\
    exists row, sheet w' = (sheet w ++ [row])%list)).
Proof.
  cbv zeta.
  split; [unfold Sheets.add_partnercode; simpl; apply try_except_returns |].
  split; [apply add_partnercode_same_users |].
  unfold result, after, Sheets.add_partnercode; simpl.
  unfold Sheets._add_partnercode_sync, Sheets.open_worksheet,
    Sheets.get_client, Sheets.find, Sheets.append_row, Sheets.request,
    try_except, bind, ret, next_fault.
  destruct w as [t dbf now off rows plan out botf uid gid]. simpl.
  destruct plan as [| [e1 |] plan]; simpl; auto.
  - destruct (Sheets.find_from 1 pc rows); simpl; eauto.
  - do 3 (try (destruct plan as [| [? |] plan]; simpl; auto));
      destruct (Sheets.find_from 1 pc rows); simpl; eauto;
      try (destruct plan as [| [e5 |] plan]; simpl; eauto;
           destruct e5; simpl; eauto).
Qed.

(** ** The ledger client: the cells it writes *)

Lemma lstrip_snoc (sp : ascii -> bool) (x : list ascii) (c : ascii) :
  sp c = false ->
  PyStr.lstrip sp (x ++ [c]) = (PyStr.lstrip sp x ++ [c])%list.
Proof.
  intros H. induction x as [| a x IH]; simpl.
  - now rewrite H.
  - destruct (sp a); [exact IH | reflexivity].
Qed.

Lemma rstrip_cons (sp : ascii -> bool) (c : ascii) (l : list ascii) :
  sp c = false -> PyStr.rstrip sp (c :: l) = c :: PyStr.rstrip sp l.
Proof.
  intros H. unfold PyStr.rstrip. simpl.
  now rewrite lstrip_snoc, rev_app_distr.
Qed.

(** *** White space at the ends of a text *)

Section LstripBy.

Variable s1 : ascii -> bool.
Variable s2 : ascii -> ascii -> bool.
Variable s3 : ascii -> ascii -> ascii -> bool.

(** One step: the text is left as it is, or a white space of one, two
    or three bytes is dropped and the rest is stripped. *)
Lemma lstrip_by_step (l : list ascii) :
  PyStr.lstrip_by s1 s2 s3 l = l \/
  exists p l', l = (p ++ l')%list /\ p <> [] /\ PyStr.lstrip_by s1 s2 s3 l = PyStr.lstrip_by s1 s2 s3 l'.
Proof using Type.
  destruct l as [| a r]; [left; reflexivity |].
  cbn [PyStr.lstrip_by].
  destruct (s1 a);
    [right; exists [a], r; split; [reflexivity | split; [discriminate |
                                                          reflexivity]] |].
  destruct r as [| b r1]; [left; reflexivity |].
  destruct (s2 a b);
    [right; exists [a; b], r1; split; [reflexivity | split; [discriminate |
                                                              reflexivity]] |].
  destruct r1 as [| c r2]; [left; reflexivity |].
  destruct (s3 a b c); [| left; reflexivity].
  right; exists [a; b; c], r2.
  split; [reflexivity | split; [discriminate | reflexivity]].
Qed.

Lemma lstrip_by_facts (n : nat) (l : list ascii) :
  (length l <= n)%nat ->
  (exists p, l = (p ++ PyStr.lstrip_by s1 s2 s3 l)%list) /\
  PyStr.lstrip_by s1 s2 s3 (PyStr.lstrip_by s1 s2 s3 l) = PyStr.lstrip_by s1 s2 s3 l.
Proof using Type.
  revert l. induction n as [| n IH]; intros l Hn.
  - destruct l; [| simpl in Hn; lia]. split; [exists []; reflexivity |].
    reflexivity.
  - destruct (lstrip_by_step l) as [E | (p & l' & -> & Hp & E)].
    + split; [exists []; now rewrite E | now rewrite E].
    + assert (Hl : (length l' <= n)%nat).
      { rewrite length_app in Hn. destruct p; [contradiction |].
        simpl in Hn. lia. }
      destruct (IH l' Hl) as [[q Hq] Hidem].
      rewrite E. split; [| exact Hidem].
      exists (p ++ q)%list. rewrite <- app_assoc. now rewrite <- Hq.
Qed.

Lemma lstrip_by_suffix (l : list ascii) : exists p, l = (p ++ PyStr.lstrip_by s1 s2 s3 l)%list.
Proof using Type. exact (proj1 (lstrip_by_facts (length l) l (le_n _))). Qed.

Lemma lstrip_by_idem (l : list ascii) : PyStr.lstrip_by s1 s2 s3 (PyStr.lstrip_by s1 s2 s3 l) = PyStr.lstrip_by s1 s2 s3 l.
Proof using Type. exact (proj2 (lstrip_by_facts (length l) l (le_n _))). Qed.

Lemma lstrip_by_length (l : list ascii) :
  (length (PyStr.lstrip_by s1 s2 s3 l) <= length l)%nat.
Proof using Type.
  destruct (lstrip_by_suffix l) as [p E].
  rewrite E at 2. rewrite length_app. lia.
Qed.

(** Stripping cannot give back more than it is given. *)
Lemma lstrip_by_not_longer (p l : list ascii) :
  p <> [] -> PyStr.lstrip_by s1 s2 s3 l <> (p ++ l)%list.
Proof using Type.
  intros Hp E. pose proof (lstrip_by_length l) as L.
  rewrite E, length_app in L. destruct p; [contradiction |].
  simpl in L. lia.
Qed.

(** The start of a text that does not start with white space does not
    either. *)
Lemma lstrip_by_prefix (x y : list ascii) :
  PyStr.lstrip_by s1 s2 s3 (x ++ y) = (x ++ y)%list -> PyStr.lstrip_by s1 s2 s3 x = x.
Proof using Type.
  destruct x as [| a x]; [reflexivity |].
  cbn [PyStr.lstrip_by app].
  destruct (s1 a).
  { intros E. now apply (lstrip_by_not_longer [a]) in E. }
  destruct x as [| b x].
  { reflexivity. }
  cbn [app].
  destruct (s2 a b).
  { intros E. now apply (lstrip_by_not_longer [a; b]) in E. }
  destruct x as [| c x].
  { reflexivity. }
  cbn [app].
  destruct (s3 a b c); [| reflexivity].
  intros E. now apply (lstrip_by_not_longer [a; b; c]) in E.
Qed.

End LstripBy.

Lemma lstrip_text_idem (l : list ascii) :
  PyStr.lstrip_text (PyStr.lstrip_text l) = PyStr.lstrip_text l.
Proof. apply lstrip_by_idem. Qed.

Lemma lstrip_backwards_idem (l : list ascii) :
  PyStr.lstrip_backwards (PyStr.lstrip_backwards l)
    = PyStr.lstrip_backwards l.
Proof. apply lstrip_by_idem. Qed.

Lemma lstrip_backwards_suffix (l : list ascii) :
  exists p, l = (p ++ PyStr.lstrip_backwards l)%list.
Proof. apply lstrip_by_suffix. Qed.

Lemma lstrip_text_prefix (x y : list ascii) :
  PyStr.lstrip_text (x ++ y) = (x ++ y)%list -> PyStr.lstrip_text x = x.
Proof. apply lstrip_by_prefix. Qed.

(** What is left by [lstrip] at the front is left by [rstrip]. *)
Lemma strip_idem (s : string) : PyStr.strip (PyStr.strip s) = PyStr.strip s.
Proof.
  unfold PyStr.strip.
  rewrite list_ascii_of_string_of_list_ascii.
  set (M := PyStr.lstrip_text (list_ascii_of_string s)).
  set (X := PyStr.lstrip_backwards (rev M)).
  assert (HM : PyStr.lstrip_text M = M) by apply lstrip_text_idem.
  assert (HX : PyStr.lstrip_backwards X = X) by apply lstrip_backwards_idem.
  destruct (lstrip_backwards_suffix (rev M)) as [p Hp]. fold X in Hp.
  assert (E : M = (rev X ++ rev p)%list).
  { rewrite <- (rev_involutive M), Hp at 1. apply rev_app_distr. }
  assert (HT : PyStr.lstrip_text (rev X) = rev X).
  { apply (lstrip_text_prefix (rev X) (rev p)).
    rewrite <- E. exact HM. }
  now rewrite HT, rev_involutive, HX.
Qed.

(** An [@] is no part of a white space. *)
Lemma lstrip_text_at (l : list ascii) :
  PyStr.lstrip_text ("@"%char :: l) = "@"%char :: l.
Proof. destruct l as [| b [| c l]]; reflexivity. Qed.

Lemma lstrip_backwards_snoc_at (x : list ascii) :
  PyStr.lstrip_backwards x = x ->
  PyStr.lstrip_backwards (x ++ ["@"%char]) = (x ++ ["@"%char])%list.
Proof.
  unfold PyStr.lstrip_backwards.
  destruct x as [| a x]; [reflexivity |].
  cbn [PyStr.lstrip_by app].
  destruct (PyStr.is_space a).
  { intros E. now apply (lstrip_by_not_longer _ _ _ [a]) in E. }
  destruct x as [| b x].
  { reflexivity. }
  cbn [app].
  destruct (PyStr.is_space2 (PyStr.code b) (PyStr.code a)).
  { intros E. now apply (lstrip_by_not_longer _ _ _ [a; b]) in E. }
  destruct x as [| c x].
  { reflexivity. }
  cbn [app].
  destruct (PyStr.is_space3 (PyStr.code c) (PyStr.code b) (PyStr.code a));
    [| reflexivity].
  intros E. now apply (lstrip_by_not_longer _ _ _ [a; b; c]) in E.
Qed.

Lemma strip_at_prefix (s : string) :
  PyStr.strip ("@" ++ PyStr.strip s) = ("@" ++ PyStr.strip s)%string.
Proof.
  unfold PyStr.strip.
  set (M := PyStr.lstrip_text (list_ascii_of_string s)).
  set (X := PyStr.lstrip_backwards (rev M)).
  change (list_ascii_of_string ("@" ++ string_of_list_ascii (rev X)))
    with ("@"%char :: list_ascii_of_string (string_of_list_ascii (rev X))).
  rewrite list_ascii_of_string_of_list_ascii, lstrip_text_at.
  cbn [rev]. rewrite rev_involutive.
  rewrite lstrip_backwards_snoc_at by apply lstrip_backwards_idem.
  rewrite rev_app_distr. reflexivity.
Qed.

Lemma startswith_at (s : string) :
  PyStr.startswith "@" (String "@"%char s) = true.
Proof. unfold PyStr.startswith. simpl. destruct s; reflexivity. Qed.

Lemma safe_value_fixed (s : string) :
  PyStr.strip s = s -> s <> EmptyString -> Sheets._safe_value (Some s) = s.
Proof.
  intros E N. unfold Sheets._safe_value. rewrite E.
  destruct (String.eqb s "") eqn:Q; [| reflexivity].
  apply String.eqb_eq in Q. contradiction.
Qed.

(** X12.  A cell written through [_safe_value] is never empty, and
    writing a written cell again changes nothing: [_safe_value] and the
    username formatting are idempotent, so a username that went through
    the formatting gets no second [@]. *)
Theorem written_cells_are_stable (v : option string) :
  Sheets._safe_value v <> EmptyString /\
  Sheets.format_username v <> EmptyString /\
  Sheets._safe_value (Some (Sheets._safe_value v)) = Sheets._safe_value v /\
  Sheets.format_username (Some (Sheets.format_username v))
    = Sheets.format_username v.
Proof.
  assert (Hsv : Sheets._safe_value v <> EmptyString /\
                PyStr.strip (Sheets._safe_value v) = Sheets._safe_value v).
  { destruct v as [s |]; simpl; [| split; [discriminate | reflexivity]].
    destruct (String.eqb (PyStr.strip s) "") eqn:Q;
      [split; [discriminate | reflexivity] |].
    apply String.eqb_neq in Q. split; [exact Q | apply strip_idem]. }
  destruct Hsv as [Hne Hstrip].
  assert (Hidem : Sheets._safe_value (Some (Sheets._safe_value v))
                  = Sheets._safe_value v)
    by (now apply safe_value_fixed).
  split; [exact Hne | split; [| split; [exact Hidem |]]].
  - unfold Sheets.format_username.
    destruct (negb _ && negb _); [discriminate | exact Hne].
  - destruct (String.eqb (Sheets._safe_value v) "-") eqn:D.
    + assert (F : Sheets.format_username v = "-"%string).
      { unfold Sheets.format_username. rewrite D. simpl.
        now apply String.eqb_eq. }
      rewrite F. reflexivity.
    + destruct (PyStr.startswith "@" (Sheets._safe_value v)) eqn:P.
      * assert (F : Sheets.format_username v = Sheets._safe_value v).
        { unfold Sheets.format_username. now rewrite D, P. }
        rewrite F. unfold Sheets.format_username. now rewrite Hidem, D, P.
      * assert (F : Sheets.format_username v
                    = ("@" ++ Sheets._safe_value v)%string).
        { unfold Sheets.format_username. now rewrite D, P. }
        assert (Hat : Sheets._safe_value
                        (Some ("@" ++ Sheets._safe_value v)%string)
                      = ("@" ++ Sheets._safe_value v)%string).
        { apply safe_value_fixed; [| discriminate].
          rewrite <- Hstrip at 1. rewrite strip_at_prefix.
          now rewrite Hstrip. }
        rewrite F. unfold Sheets.format_username. rewrite Hat.
        change ("@" ++ Sheets._safe_value v)%string
          with (String "@"%char (Sheets._safe_value v)).
        now rewrite startswith_at, andb_false_r.
Qed.

(** ** Decimal text of an integer, and the callback data *)

Lemma digit_facts (c : ascii) :
  PyStr.is_digit c = true ->
  PyStr.is_c_space c = false /\
  PyStr.is_underscore c = false /\
  (forall l, PyStr.sign (c :: l) = (false, c :: l)).
Proof.
  destruct c as [[] [] [] [] [] [] [] []]; intros H;
    try (vm_compute in H; discriminate H); repeat split.
Qed.

Lemma digit_of_remainder (r : Z) :
  0 <= r < 10 ->
  PyStr.is_digit (ascii_of_nat (Z.to_nat (48 + r))) = true /\
  PyStr.digit_val (ascii_of_nat (Z.to_nat (48 + r))) = r.
Proof.
  intros H.
  assert (E : r = 0 \/ r = 1 \/ r = 2 \/ r = 3 \/ r = 4 \/
              r = 5 \/ r = 6 \/ r = 7 \/ r = 8 \/ r = 9) by lia.
  repeat (destruct E as [-> | E]; [split; reflexivity |]).
  subst; split; reflexivity.
Qed.

Lemma digits_value_snoc (vs : list Z) (d : Z) :
  PyStr.digits_value (vs ++ [d]) = 10 * PyStr.digits_value vs + d.
Proof. unfold PyStr.digits_value. now rewrite fold_left_app. Qed.

(** With enough fuel [pos_digits] writes the decimal digits of [n] in
    front of its accumulator. *)
Lemma pos_digits_spec (fuel : nat) :
  forall (n : Z) (acc : list ascii),
    0 <= n < 2 ^ Z.of_nat (S fuel) ->
    exists ds,
      PyStr.pos_digits (S fuel) n acc = (ds ++ acc)%list /\
      ds <> [] /\ all_digits ds /\
      PyStr.digits_value (map PyStr.digit_val ds) = n.
Proof.
  induction fuel as [| fuel IH]; intros n acc Hn.
  - assert (n < 10) by (change (2 ^ Z.of_nat 1) with 2 in Hn; lia).
    destruct (digit_of_remainder (n mod 10)) as [D V];
      [apply Z.mod_pos_bound; lia |].
    exists [ascii_of_nat (Z.to_nat (48 + n mod 10))]. simpl.
    destruct (n <? 10) eqn:L; [| apply Z.ltb_ge in L; lia].
    repeat split; [discriminate | repeat constructor; exact D |].
    unfold PyStr.digits_value. simpl. rewrite V.
    rewrite Z.mod_small by lia. lia.
  - destruct (digit_of_remainder (n mod 10)) as [D V];
      [apply Z.mod_pos_bound; lia |].
    change (PyStr.pos_digits (S (S fuel)) n acc) with
      (let acc' := ascii_of_nat (Z.to_nat (48 + n mod 10)) :: acc in
       if n <? 10 then acc' else PyStr.pos_digits (S fuel) (n / 10) acc').
    cbv zeta. destruct (n <? 10) eqn:L.
    + apply Z.ltb_lt in L.
      exists [ascii_of_nat (Z.to_nat (48 + n mod 10))].
      repeat split; [discriminate | repeat constructor; exact D |].
      unfold PyStr.digits_value. simpl. rewrite V.
      rewrite Z.mod_small by lia. lia.
    + apply Z.ltb_ge in L.
      assert (Hq : 0 <= n / 10 < 2 ^ Z.of_nat (S fuel)).
      { split; [apply Z.div_pos; lia |].
        apply Z.div_lt_upper_bound; [lia |].
        replace (Z.of_nat (S (S fuel))) with (Z.succ (Z.of_nat (S fuel)))
          in Hn by lia.
        rewrite Z.pow_succ_r in Hn by lia. lia. }
      destruct (IH (n / 10)
                   (ascii_of_nat (Z.to_nat (48 + n mod 10)) :: acc) Hq)
        as (ds & E & _ & A & Vq).
      exists (ds ++ [ascii_of_nat (Z.to_nat (48 + n mod 10))])%list.
      rewrite E, <- app_assoc. repeat split.
      * intros C. apply app_eq_nil in C as [_ C]. discriminate.
      * apply Forall_app. split; [exact A | repeat constructor; exact D].
      * rewrite map_app.
        change (map PyStr.digit_val
                    [ascii_of_nat (Z.to_nat (48 + n mod 10))])
          with [PyStr.digit_val (ascii_of_nat (Z.to_nat (48 + n mod 10)))].
        rewrite digits_value_snoc, Vq, V.
        symmetry. apply Z.div_mod. lia.
Qed.

Lemma digit_tail_all_digits (ds : list ascii) :
  all_digits ds -> PyStr.digit_tail ds = (map PyStr.digit_val ds, []).
Proof.
  induction 1 as [| c ds Hc _ IH]; simpl; [reflexivity |].
  now rewrite Hc, IH.
Qed.

Lemma digitpart_all_digits (ds : list ascii) :
  ds <> [] -> all_digits ds ->
  PyStr.digitpart ds = Some (map PyStr.digit_val ds, []).
Proof.
  intros N A. destruct ds as [| c ds]; [contradiction |].
  inversion A; subst. simpl.
  rewrite H1, digit_tail_all_digits by assumption. reflexivity.
Qed.

Lemma strip_all_digits (ds : list ascii) :
  all_digits ds -> PyStr.strip_chars PyStr.is_c_space ds = ds.
Proof.
  intros A. unfold PyStr.strip_chars.
  assert (L : forall l, all_digits l -> PyStr.lstrip PyStr.is_c_space l = l).
  { intros l Hl. destruct Hl as [| c l Hc _]; [reflexivity |]. simpl.
    now rewrite (proj1 (digit_facts c Hc)). }
  rewrite (L ds A). unfold PyStr.rstrip.
  rewrite L by (apply Forall_rev; exact A). apply rev_involutive.
Qed.

(** [int(str(n)) == n] *)
Lemma int_str_of_int (n : Z) : PyStr.int (PyStr.str_of_int n) = Returned n.
Proof.
  unfold PyStr.str_of_int, PyStr.int.
  assert (Hb : 0 <= Z.abs n < 2 ^ Z.of_nat (S (Z.to_nat (Z.log2 (Z.abs n))))).
  { split; [lia |].
    rewrite Nat2Z.inj_succ, Z2Nat.id by apply Z.log2_nonneg.
    destruct (Z.eq_dec (Z.abs n) 0) as [-> | N]; [reflexivity |].
    apply Z.log2_spec. lia. }
  destruct (pos_digits_spec _ (Z.abs n) [] Hb) as (ds & E & N & A & V).
  rewrite E, app_nil_r. rewrite list_ascii_of_string_of_list_ascii.
  destruct (n <? 0) eqn:S.
  - apply Z.ltb_lt in S.
    unfold PyStr.strip_chars. simpl PyStr.lstrip.
    rewrite rstrip_cons by reflexivity.
    change (PyStr.rstrip PyStr.is_c_space ds)
      with (PyStr.rstrip PyStr.is_c_space ds).
    assert (R : PyStr.rstrip PyStr.is_c_space ds = ds).
    { pose proof (strip_all_digits ds A) as T. unfold PyStr.strip_chars in T.
      destruct A as [| c l Hc Hl]; [reflexivity |].
      simpl in T. rewrite (proj1 (digit_facts c Hc)) in T. exact T. }
    rewrite R. simpl PyStr.sign. cbv beta iota.
    rewrite (digitpart_all_digits ds N A), V. f_equal. lia.
  - apply Z.ltb_ge in S. rewrite (strip_all_digits ds A).
    destruct ds as [| c ds]; [contradiction |].
    inversion A; subst.
    rewrite (proj2 (proj2 (digit_facts c H1))). cbv beta iota.
    rewrite (digitpart_all_digits (c :: ds) N A), V. f_equal. lia.
Qed.

Lemma str_of_int_chars (n : Z) :
  exists ds,
    all_digits ds /\
    list_ascii_of_string (PyStr.str_of_int n) =
      if n <? 0 then "-"%char :: ds else ds.
Proof.
  unfold PyStr.str_of_int.
  assert (Hb : 0 <= Z.abs n < 2 ^ Z.of_nat (S (Z.to_nat (Z.log2 (Z.abs n))))).
  { split; [lia |].
    rewrite Nat2Z.inj_succ, Z2Nat.id by apply Z.log2_nonneg.
    destruct (Z.eq_dec (Z.abs n) 0) as [-> | N]; [reflexivity |].
    apply Z.log2_spec. lia. }
  destruct (pos_digits_spec _ (Z.abs n) [] Hb) as (ds & E & _ & A & _).
  exists ds. split; [exact A |].
  now rewrite E, app_nil_r, list_ascii_of_string_of_list_ascii.
Qed.

Lemma split_chars_no_separator (sep : ascii) (cs cur : list ascii) :
  Forall (fun c => Ascii.eqb c sep = false) cs ->
  PyStr.split_chars sep cur cs = [string_of_list_ascii (rev cur ++ cs)].
Proof.
  intros H. revert cur. induction H as [| c cs Hc _ IH]; intros cur; simpl.
  - now rewrite app_nil_r.
  - rewrite Hc, IH. simpl. now rewrite <- app_assoc.
Qed.

Lemma list_ascii_of_string_app (a b : string) :
  list_ascii_of_string (a ++ b) =
    (list_ascii_of_string a ++ list_ascii_of_string b)%list.
Proof. induction a as [| c a IH]; simpl; [reflexivity | now rewrite IH]. Qed.

(** The field after the first underscore of [prefix_<decimal of id>]
    reads back as [id]. *)
Lemma decimal_field_decodes (word : string) (id : Z) :
  Forall (fun c => Ascii.eqb c "_"%char = false) (list_ascii_of_string word) ->
  PyStr.index (PyStr.split "_" (word ++ "_" ++ PyStr.str_of_int id)) 1
    = Returned (PyStr.str_of_int id).
Proof.
  intros Hword. unfold PyStr.split.
  rewrite !list_ascii_of_string_app.
  change (list_ascii_of_string "_") with ["_"%char].
  assert (G : forall pre cur,
            Forall (fun c => Ascii.eqb c "_"%char = false) pre ->
            PyStr.split_chars "_" cur
              (pre ++ ["_"%char] ++ list_ascii_of_string (PyStr.str_of_int id))
            = [string_of_list_ascii (rev cur ++ pre); PyStr.str_of_int id]).
  { intros pre cur H. revert cur.
    induction H as [| c pre Hc _ IH]; intros cur; simpl.
    - rewrite app_nil_r. f_equal.
      destruct (str_of_int_chars id) as (ds & A & E).
      rewrite split_chars_no_separator.
      + simpl. now rewrite string_of_list_ascii_of_string.
      + rewrite E.
        assert (D : Forall (fun c => Ascii.eqb c "_"%char = false) ds).
        { eapply Forall_impl; [exact A |]. intros c Hc.
          apply (proj1 (proj2 (digit_facts c Hc))). }
        destruct (id <? 0); [constructor; [reflexivity | exact D] | exact D].
    - rewrite Hc, IH. simpl. now rewrite <- app_assoc. }
  rewrite (G _ [] Hword). reflexivity.
Qed.

(** X13.  The text of an integer reads back as that integer,
    [int(str(n)) == n] for every [n]; hence the callback data that the
    admin panel puts on the approve and reject buttons of a user decode,
    in [approve_user] and [reject_user], to the [telegram_id] of that
    user, and the panel carries buttons for the first five pending users
    only. *)
Theorem panel_buttons_decode_to_their_user
  (id presser : Z) (un : option string) (w : world)
  (pending_users : list DbQueries.pending_user) :
  PyStr.int (PyStr.str_of_int id) = Returned id /\
  Admin.callback_user_id
    (Admin.mk_callback presser un (AdminPanel.approve_data id)) w
    = (Returned id, w) /\
  Admin.callback_user_id
    (Admin.mk_callback presser un (AdminPanel.reject_data id)) w
    = (Returned id, w) /\
  map (fun b => result (Admin.callback_user_id
                          (Admin.mk_callback presser un (fst b))) w)
      (AdminPanel.keyboard_buttons pending_users)
    = map (fun u => Returned (DbQueries.pending_telegram_id u))
          (firstn 5 pending_users).
Proof.
  assert (D : forall word n,
            Forall (fun c => Ascii.eqb c "_"%char = false)
                   (list_ascii_of_string word) ->
            Admin.callback_user_id
              (Admin.mk_callback presser un
                 (word ++ "_" ++ PyStr.str_of_int n)) w
            = (Returned n, w)).
  { intros word n Hword.
    unfold Admin.callback_user_id, bind, lift. simpl Admin.data.
    rewrite (decimal_field_decodes word n Hword).
    now rewrite int_str_of_int. }
  assert (Da : forall n,
            Admin.callback_user_id
              (Admin.mk_callback presser un (AdminPanel.approve_data n)) w
            = (Returned n, w)).
  { intros n. apply (D "approve" n). repeat constructor. }
  split; [apply int_str_of_int | split; [apply Da | split]].
  - apply (D "reject" id). repeat constructor.
  - unfold AdminPanel.keyboard_buttons. rewrite map_map.
    apply map_ext. intros u. simpl. unfold result. now rewrite Da.
Qed.

(** ** The admission workflow: who can change what *)

Lemma only_telegram_refl (w : world) : only_telegram w w.
Proof. unfold only_telegram; repeat split. Qed.

Lemma only_telegram_trans (w1 w2 w3 : world) :
  only_telegram w1 w2 -> only_telegram w2 w3 -> only_telegram w1 w3.
Proof. unfold only_telegram. intuition congruence. Qed.

Lemma only_ledger_refl (w : world) : only_ledger w w.
Proof. unfold only_ledger; repeat split. Qed.

Lemma only_ledger_trans (w1 w2 w3 : world) :
  only_ledger w1 w2 -> only_ledger w2 w3 -> only_ledger w1 w3.
Proof. unfold only_ledger. intuition congruence. Qed.

Lemma only_database_refl (w : world) : only_database w w.
Proof. unfold only_database; repeat split. Qed.

Lemma only_database_trans (w1 w2 w3 : world) :
  only_database w1 w2 -> only_database w2 w3 -> only_database w1 w3.
Proof. unfold only_database. intuition congruence. Qed.

Lemma only_telegram_frame (w w' : world) : only_telegram w w' -> frame w w'.
Proof.
  intros (U & D & N & O & S & A & I & G).
  unfold frame. repeat split; try assumption.
  exists 0%nat. exact D.
Qed.

Lemma bot_only_telegram (c : bot_call) : keeps only_telegram (Admin.bot c).
Proof.
  intros w. unfold after, Admin.bot.
  destruct (next_fault (bot_faults w) None) as [[e |] plan]; simpl;
    unfold only_telegram; simpl; repeat split.
Qed.

Lemma run_eq {A} (m : M A) (w : world) : m w = (result m w, after m w).
Proof. unfold result, after. destruct (m w); reflexivity. Qed.

Lemma after_bind {A B} (m : M A) (k : A -> M B) (w : world) :
  after (bind m k) w =
    match result m w with
    | Returned a => after (k a) (after m w)
    | Raised _ => after m w
    end.
Proof.
  unfold after, result, bind. destruct (m w) as [[a | e] w']; reflexivity.
Qed.

Lemma after_try_except {A} (m : M A) (h : py_exc -> M A) (w : world) :
  after (try_except m h) w =
    match result m w with
    | Returned _ => after m w
    | Raised e => after (h e) (after m w)
    end.
Proof.
  unfold after, result, try_except.
  destruct (m w) as [[a | e] w']; reflexivity.
Qed.

Lemma result_bind {A B} (m : M A) (k : A -> M B) (w : world) :
  result (bind m k) w =
    match result m w with
    | Returned a => result (k a) (after m w)
    | Raised e => Raised e
    end.
Proof.
  unfold after, result, bind. destruct (m w) as [[a | e] w']; reflexivity.
Qed.



Lemma get_user_result_cases (w : world) (id : Z) :
  result (Db.get_user id) w = Returned None \/
  result (Db.get_user id) w = Returned (users w !! id) \/
  result (Db.get_user id) w = Raised OverflowError.
Proof.
  run_db. destruct (db_faults w) as [| [|] plan]; simpl; auto;
    destruct (users w !! id); simpl; auto;
    destruct (Db.sqlite_int id); simpl; auto.
Qed.

(** Unless the id in the callback data has a pending row,
    [approve_user] keeps the frame. *)
Lemma approve_user_framed_unless_pending
  (w : world) (c : Admin.CallbackQuery) :
  (forall id u, result (Admin.callback_user_id c) w = Returned id ->
                users w !! id = Some u -> approved u = true) ->
  frame w (after (Admin.approve_user c) w).
Proof.
  intros Hguard.
  unfold Admin.approve_user.
  eapply frame_trans;
    [| apply frame_after_try_except; intros; apply framed_bot].
  rewrite after_bind, is_admin_after.
  destruct (result (Admin.is_admin (Admin.from_user_id c)) w)
    as [[|] | e]; simpl negb; cbv iota;
    [| apply framed_bot | apply frame_refl].
  rewrite after_bind, callback_user_id_after.
  destruct (result (Admin.callback_user_id c) w) as [id | e] eqn:Hid;
    [| apply frame_refl].
  rewrite after_bind.
  pose proof (framed_get_user id w) as Fg.
  destruct (get_user_result_cases w id) as [R | [R | R]]; rewrite R.
  - eapply frame_trans; [exact Fg | apply framed_bot].
  - destruct (users w !! id) as [u |] eqn:Hu.
    + rewrite (Hguard id u eq_refl Hu).
      eapply frame_trans; [exact Fg | apply framed_bot].
    + eapply frame_trans; [exact Fg | apply framed_bot].
  - exact Fg.
Qed.



Lemma get_user_only_database (id : Z) : keeps only_database (Db.get_user id).
Proof.
  intros w. run_db.
  destruct (db_faults w) as [| [|] plan]; simpl; row_cases;
    unfold only_database; simpl; repeat split.
Qed.

Lemma update_user_approval_only_database (id : Z) (flag : bool) :
  keeps only_database (Db.update_user_approval id flag).
Proof.
  intros w. run_db.
  destruct (db_faults w) as [| [|] plan]; simpl; row_cases;
    unfold only_database; simpl; repeat split.
Qed.

Lemma request_only_ledger : keeps only_ledger Sheets.request.
Proof.
  intros w. unfold after, Sheets.request.
  destruct (next_fault (api_faults w) None) as [[e |] plan]; simpl;
    unfold only_ledger; simpl; repeat split.
Qed.

Ltac ledger_step :=
  first [ apply (keeps_ret only_ledger only_ledger_refl)
        | apply (keeps_raise only_ledger only_ledger_refl)
        | apply (keeps_lift only_ledger only_ledger_refl)
        | apply request_only_ledger
        | apply (keeps_bind only_ledger only_ledger_trans)
        | apply (keeps_try_except only_ledger only_ledger_trans) ].

Lemma open_worksheet_only_ledger : keeps only_ledger Sheets.open_worksheet.
Proof.
  unfold Sheets.open_worksheet, Sheets.get_client.
  ledger_step; [ledger_step | intros _].
  ledger_step; [ledger_step | intros _]. ledger_step.
Qed.

(** The ledger client touches nothing but the worksheet and its plan. *)
Lemma add_partnercode_only_ledger (pc : string) (nm ct un rs : option string) :
  keeps only_ledger (Sheets.add_partnercode pc nm ct un rs).
Proof.
  unfold Sheets.add_partnercode; simpl. unfold Sheets._add_partnercode_sync.
  ledger_step; [| intros; ledger_step].
  ledger_step; [apply open_worksheet_only_ledger | intros _].
  ledger_step.
  - unfold Sheets.find. ledger_step; [ledger_step | intros _].
    intros w; apply only_ledger_refl.
  - intros [n |]; [ledger_step |].
    ledger_step; [| intros; ledger_step].
    intros w. unfold after, Sheets.append_row, only_ledger.
    destruct (next_fault (api_faults w) None) as [[e |] plan];
      [destruct e |]; simpl; repeat split.
Qed.

(** A fault in one of the first four requests makes [add_partnercode]
    return [False] and leave the worksheet alone. *)
Lemma add_partnercode_fails (w : world) (pc : string)
  (nm ct un rs : option string) :
  Exists (fun f => f <> None) (firstn 4 (api_faults w)) ->
  result (Sheets.add_partnercode pc nm ct un rs) w = Returned false /\
  sheet (after (Sheets.add_partnercode pc nm ct un rs) w) = sheet w.
Proof.
  unfold result, after, Sheets.add_partnercode; simpl.
  unfold Sheets._add_partnercode_sync, Sheets.open_worksheet,
    Sheets.get_client, Sheets.find, Sheets.append_row, Sheets.request,
    try_except, bind, ret, next_fault.
  destruct w as [t dbf now off rows plan out botf uid gid]. simpl.
  intros H.
  destruct plan as [| [e1 |] [| [e2 |] [| [e3 |] [| [e4 |] plan]]]];
    simpl in *; auto;
    repeat match goal with
           | X : Exists _ [] |- _ => inversion X
           | X : Exists _ (firstn 0 _) |- _ => inversion X
           | X : Exists _ (_ :: _) |- _ =>
               inversion X; subst; clear X; try congruence
           end.
Qed.

(** An administrator approving a pending user, the database answering:
    the run comes down to the ledger call and the messages after it,
    started in a world [w3] that differs from [w] in the table only, where
    the row is already approved. *)
Lemma approve_user_reaches_ledger
  (w : world) (c : Admin.CallbackQuery) (id : Z) (u : user_row) :
  result (Admin.is_admin (Admin.from_user_id c)) w = Returned true ->
  result (Admin.callback_user_id c) w = Returned id ->
  users w !! id = Some u ->
  approved u = false ->
  no_db_faults w ->
  exists w3,
    only_database w w3 /\
    Admin.approve_user c w =
      try_except
        (let* sheets_success :=
           Sheets.add_partnercode (PyStr.str_of_int id) (Some (name u))
             (Some (phone u)) (Admin.from_user_username c) None in
         approve_tail id u sheets_success)
        (fun _ => Admin.bot (Answer T_approve_failed)) w3.
Proof.
  intros Hadmin Hid Hu Hpending Hdb.
  exists (after (Db.update_user_approval id true) (after (Db.get_user id) w)).
  split.
  - eapply only_database_trans;
      [apply get_user_only_database
      | apply update_user_approval_only_database].
  - unfold Admin.approve_user, try_except.
    rewrite (bind_returned _ _ _ _ Hadmin), is_admin_after.
    change (negb true) with false. cbv iota.
    rewrite (bind_returned _ _ _ _ Hid), callback_user_id_after.
    rewrite (bind_returned _ _ _ (Some u))
      by (rewrite (get_user_result _ _ Hdb) by (right; congruence);
          now rewrite Hu).
    rewrite Hpending.
    pose proof (framed_get_user id w) as Fg.
    set (wg := after (Db.get_user id) w) in *.
    assert (Hdbg : no_db_faults wg) by (eapply no_db_faults_frame; eauto).
    destruct Fg as (Ug & _).
    assert (Hug : users wg !! id = Some u) by (rewrite Ug; exact Hu).
    destruct (update_user_approval_run wg id u Hdbg Hug) as (Rup & _).
    rewrite (bind_returned _ _ _ _ Rup). reflexivity.
Qed.

Lemma approve_tail_only_telegram (id : Z) (u : user_row) (b : bool) :
  keeps only_telegram (approve_tail id u b).
Proof.
  assert (N : forall ch t, keeps only_telegram ch ->
                           keeps only_telegram (Admin.notify ch t)).
  { intros ch t H. unfold Admin.notify.
    apply (keeps_try_except only_telegram only_telegram_trans).
    - apply (keeps_bind only_telegram only_telegram_trans);
        [exact H | intros; apply bot_only_telegram].
    - intros. apply (keeps_ret only_telegram only_telegram_refl). }
  unfold approve_tail. destruct b; [| apply bot_only_telegram].
  apply (keeps_bind only_telegram only_telegram_trans).
  { apply N. apply (keeps_ret only_telegram only_telegram_refl). }
  intros _. apply (keeps_bind only_telegram only_telegram_trans).
  { apply N. unfold Admin.admin_group.
    apply (keeps_bind only_telegram only_telegram_trans);
      [intros v; apply only_telegram_refl
      | intros; apply (keeps_ret only_telegram only_telegram_refl)]. }
  intros _. apply (keeps_bind only_telegram only_telegram_trans);
    [apply bot_only_telegram | intros _; apply bot_only_telegram].
Qed.

(** X16.  The table is written before the ledger is called, and nothing
    undoes it.  When an administrator approves a pending user, the
    database answering, and one of the four requests that precede the
    append fails, the user is left approved with no row in the worksheet;
    Telegram answering, the only call is the "Google Sheets error" alert
    and the user gets no message.  Pressing approve again for that user
    does not write the row either. *)
Theorem ledger_failure_leaves_user_approved_without_row
  (w : world) (c : Admin.CallbackQuery) (id : Z) (u : user_row) :
  result (Admin.is_admin (Admin.from_user_id c)) w = Returned true ->
  result (Admin.callback_user_id c) w = Returned id ->
  users w !! id = Some u ->
  approved u = false ->
  no_db_faults w ->
  Exists (fun f => f <> None) (firstn 4 (api_faults w)) ->
  let w' := after (Admin.approve_user c) w in
  users w' !! id =
    Some (mk_user (telegram_id u) (name u) (phone u) true (created_at u)
                  (Some (Db.datetime_now w))) /\
  sheet w' = sheet w /\
  (no_bot_faults w -> outbox w' = (outbox w ++ [Answer T_sheets_error])%list) /\
  (forall c2, result (Admin.callback_user_id c2) w' = Returned id ->
              sheet (after (Admin.approve_user c2) w') = sheet w).
Proof.
  intros Hadmin Hid Hu Hpending Hdb Hfault. cbv zeta.
  destruct (approve_user_pending w c id u Hadmin Hid Hu Hpending Hdb)
    as [Husers _].
  assert (Hrow : users (after (Admin.approve_user c) w) !! id =
                 Some (mk_user (telegram_id u) (name u) (phone u) true
                               (created_at u) (Some (Db.datetime_now w))))
    by (rewrite Husers; apply lookup_insert_eq).
  destruct (approve_user_reaches_ledger w c id u Hadmin Hid Hu Hpending Hdb)
    as (w3 & (S3 & A3 & _ & _ & O3 & B3 & _) & Erun).
  set (add := Sheets.add_partnercode (PyStr.str_of_int id) (Some (name u))
                (Some (phone u)) (Admin.from_user_username c) None) in *.
  assert (Hfault3 : Exists (fun f => f <> None) (firstn 4 (api_faults w3)))
    by (now rewrite A3).
  destruct (add_partnercode_fails w3 (PyStr.str_of_int id) (Some (name u))
              (Some (phone u)) (Admin.from_user_username c) None Hfault3)
    as [Radd Sadd].
  fold add in Radd, Sadd.
  destruct (add_partnercode_only_ledger (PyStr.str_of_int id) (Some (name u))
              (Some (phone u)) (Admin.from_user_username c) None w3)
    as (_ & _ & _ & _ & O4 & B4 & _).
  fold add in O4, B4.
  assert (Hsheet : sheet (after (Admin.approve_user c) w) = sheet w).
  { unfold after at 1. rewrite Erun. fold (after (try_except
      (let* sheets_success := add in approve_tail id u sheets_success)
      (fun _ => Admin.bot (Answer T_approve_failed))) w3).
    rewrite after_try_except, result_bind, after_bind, Radd.
    assert (T : forall x, only_telegram (after add w3) x ->
                          sheet x = sheet w).
    { intros x (_ & _ & _ & _ & Sx & _). now rewrite Sx, Sadd, S3. }
    destruct (result (approve_tail id u false) (after add w3)); apply T.
    - apply approve_tail_only_telegram.
    - eapply only_telegram_trans;
        [apply approve_tail_only_telegram | apply bot_only_telegram]. }
  split; [exact Hrow | split; [exact Hsheet | split]].
  - intros Hbot. unfold after at 1. rewrite Erun.
    unfold try_except, bind. rewrite (run_eq add w3), Radd. simpl approve_tail.
    rewrite bot_delivered by (unfold no_bot_faults in *; now rewrite B4, B3).
    simpl. now rewrite O4, O3.
  - intros c2 Hc2.
    destruct (approve_user_framed_unless_pending
                (after (Admin.approve_user c) w) c2) as (_ & -> & _);
      [| exact Hsheet].
    intros id' u' Hid' Hu'. rewrite Hc2 in Hid'. injection Hid' as <-.
    rewrite Hrow in Hu'. injection Hu' as <-. reflexivity.
Qed.

Lemma ledger_failure_leaves_user_approved_without_row_witness :
  sheet (after (Admin.approve_user (approve_12345 "testuser"))
               (ledger_down registered))
  = sheet registered.
Proof.
  refine (proj1 (proj2 (ledger_failure_leaves_user_approved_without_row
            (ledger_down registered) (approve_12345 "testuser") 12345
            (mk_user 12345 "Test User" "+1234567890" false
                     "2024-01-02 01:00:00" None) _ _ _ _ _ _))).
  - vm_compute. reflexivity.
  - vm_compute. reflexivity.
  - vm_compute. reflexivity.
  - reflexivity.
  - unfold no_db_faults. vm_compute. constructor.
  - simpl. constructor. discriminate.
Defined.

(** X17.  When an administrator approves a pending user and the
    database, the ledger and Telegram all answer, [approve_user] returns
    normally and makes exactly four Telegram calls, in this order: the
    notice to the user, the notice to the admin group, the alert to the
    presser and the edit of the panel message. *)
Theorem approval_sends_its_four_notices
  (w : world) (c : Admin.CallbackQuery) (id : Z) (u : user_row) :
  result (Admin.is_admin (Admin.from_user_id c)) w = Returned true ->
  result (Admin.callback_user_id c) w = Returned id ->
  users w !! id = Some u ->
  approved u = false ->
  no_db_faults w ->
  no_api_faults w ->
  no_bot_faults w ->
  result (Admin.approve_user c) w = Returned tt /\
  outbox (after (Admin.approve_user c) w)
    = (outbox w ++ approval_notices w id u)%list.
Proof.
  intros Hadmin Hid Hu Hpending Hdb Hapi Hbot.
  destruct (approve_user_reaches_ledger w c id u Hadmin Hid Hu Hpending Hdb)
    as (w3 & (S3 & A3 & _ & _ & O3 & B3 & _ & G3) & Erun).
  set (add := Sheets.add_partnercode (PyStr.str_of_int id) (Some (name u))
                (Some (phone u)) (Admin.from_user_username c) None) in *.
  assert (Hapi3 : no_api_faults w3)
    by (unfold no_api_faults in *; now rewrite A3).
  destruct (add_partnercode_run w3 (PyStr.str_of_int id) (Some (name u))
              (Some (phone u)) (Admin.from_user_username c) None Hapi3)
    as (Radd & _).
  fold add in Radd.
  destruct (add_partnercode_only_ledger (PyStr.str_of_int id) (Some (name u))
              (Some (phone u)) (Admin.from_user_username c) None w3)
    as (_ & _ & _ & _ & O4 & B4 & _ & G4).
  fold add in O4, B4, G4.
  set (w4 := after add w3) in *.
  assert (Hbot4 : no_bot_faults w4)
    by (unfold no_bot_faults in *; now rewrite B4, B3).
  unfold result, after.
  destruct (Admin.approve_user c w) as [o final] eqn:E. simpl.
  pose proof E as E2. revert E2. rewrite Erun.
  unfold try_except, bind at 1. rewrite (run_eq add w3), Radd.
  fold w4. unfold approve_tail.
  unfold Admin.notify, Admin.admin_group, Admin.get_admin_group_id,
    try_except, bind, ret.
  rewrite (bot_delivered _ w4 Hbot4).
  rewrite bot_delivered by (now apply no_bot_faults_delivered).
  rewrite bot_delivered by (now do 2 apply no_bot_faults_delivered).
  rewrite bot_delivered by (now do 3 apply no_bot_faults_delivered).
  cbv beta iota. intros E2. rewrite E in E2. injection E2 as -> ->.
  split; [reflexivity |].
  simpl. rewrite O4, O3, G4, G3. unfold approval_notices.
  now rewrite <- !app_assoc.
Qed.

Lemma approval_sends_its_four_notices_witness :
  outbox approved_12345 =
    [ SendMessage (ChatId 12345) T_approved_user_notice;
      SendMessage (ChatName "-1003016595712")
                  (T_approved_group_notice 12345 "Test User" "+1234567890");
      Answer T_approved_alert;
      EditText (T_approved_edit "Test User" 12345) ].
Proof.
  refine (proj2 (approval_sends_its_four_notices registered
            (approve_12345 "testuser") 12345
            (mk_user 12345 "Test User" "+1234567890" false
                     "2024-01-02 01:00:00" None) _ _ _ _ _ _ _)).
  - vm_compute. reflexivity.
  - vm_compute. reflexivity.
  - vm_compute. reflexivity.
  - reflexivity.
  - unfold no_db_faults. vm_compute. constructor.
  - unfold no_api_faults. vm_compute. constructor.
  - unfold no_bot_faults. vm_compute. constructor.
Defined.

(** ** Message handlers: who is told what *)

Lemma send_delivered (c : chat) (t : Chat.text) (s : Chat.session) :
  no_bot_faults (Chat.base s) ->
  Chat.send c t s =
    (Returned tt,
     Chat.mk_session
       (set_bot_faults (tl (bot_faults (Chat.base s))) (Chat.base s))
       (Chat.sent s ++ [(c, t)]) (Chat.fsm_state s) (Chat.fsm_phone s)).
Proof.
  unfold no_bot_faults, Chat.send, next_fault. intros F.
  destruct (bot_faults (Chat.base s)) as [| f plan] eqn:E; simpl.
  - reflexivity.
  - inversion F; subst. reflexivity.
Qed.

(** X18.  [check_balance] for anyone who is not an approved user (no
    row, or a row that is not approved): no request goes to the ledger,
    table and worksheet stay as they are, and the only message that can
    be sent is the waiting text; it is sent when Telegram takes it. *)
Theorem unapproved_users_never_reach_the_ledger
  (message : Chat.Message) (s : Chat.session) :
  (forall u, users (Chat.base s) !! Chat.from_user_id message = Some u ->
             approved u = false) ->
  let s' := Chat.hafter (Chat.check_balance message) s in
  let waiting := (ChatId (Chat.chat_id message), Chat.Approval_waiting) in
  users (Chat.base s') = users (Chat.base s) /\
  sheet (Chat.base s') = sheet (Chat.base s) /\
  api_faults (Chat.base s') = api_faults (Chat.base s) /\
  (Chat.sent s' = Chat.sent s \/ Chat.sent s' = (Chat.sent s ++ [waiting])%list) /\
  (no_bot_faults (Chat.base s) -> Chat.sent s' = (Chat.sent s ++ [waiting])%list).
Proof.
  destruct s as [w snt st ph].
  destruct w as [t dbf now off rows plan out botf uid gid].
  unfold no_bot_faults. simpl. intros Hrow.
  unfold Chat.hafter, Chat.check_balance, Chat.hbind, Chat.call,
    Chat.answer, Chat.send, Chat.set_base.
  run_db. simpl.
  rewrite (Chat.from_user_id_fits message).
  destruct dbf as [| [|] dbf]; simpl;
    try (destruct (t !! Chat.from_user_id message) as [u |] eqn:E;
         [rewrite (Hrow u eq_refl) |]; simpl);
    destruct botf as [| [e |] botf]; simpl;
    repeat split; auto;
    intros F; inversion F; subst; try discriminate; reflexivity.
Qed.

Lemma unapproved_users_never_reach_the_ledger_witness :
  Chat.sent
    (Chat.hafter
       (Chat.check_balance
          (Chat.mk_message 12345 12345 (Some "Посмотреть баланс") eq_refl))
       (Chat.idle registered))
  = [(ChatId 12345, Chat.Approval_waiting)].
Proof.
  refine (proj2 (proj2 (proj2 (proj2
            (unapproved_users_never_reach_the_ledger
               (Chat.mk_message 12345 12345 (Some "Посмотреть баланс") eq_refl)
               (Chat.idle registered) _)))) _).
  - intros u. vm_compute. intros E. injection E as <-. reflexivity.
  - constructor.
Defined.

Lemma is_user_approved_run (w : world) (id : Z) :
  no_db_faults w ->
  Db.sqlite_int id = true \/ users w !! id <> None ->
  Db.is_user_approved id w =
    (Returned (match users w !! id with
               | Some u => approved u
               | None => false
               end),
     set_db_faults (tl (db_faults w)) w).
Proof.
  unfold no_db_faults. intros F B. run_db.
  assert (E : match users w !! id with
              | Some u => (Returned (Some u), users w)
              | None =>
                  if Db.sqlite_int id then (Returned None, users w)
                  else (@Raised (option user_row) OverflowError, users w)
              end = (Returned (users w !! id), users w)).
  { destruct (users w !! id); [reflexivity |].
    destruct B as [-> | B]; [reflexivity | congruence]. }
  destruct (db_faults w) as [| f plan]; [| inversion F; subst];
    simpl; rewrite E; reflexivity.
Qed.

Lemma get_balance_only_ledger (pc : string) :
  keeps only_ledger (Sheets.get_balance pc).
Proof.
  unfold Sheets.get_balance; simpl.
  unfold Sheets._get_balance_sync_l209, Sheets.balance_body.
  ledger_step; [| intros; ledger_step].
  ledger_step; [apply open_worksheet_only_ledger | intros _].
  ledger_step.
  - unfold Sheets.find. ledger_step; [ledger_step | intros _].
    intros w; apply only_ledger_refl.
  - intros [n |]; [| ledger_step].
    ledger_step.
    + unfold Sheets.row_values. ledger_step; [ledger_step | intros _].
      intros w; apply only_ledger_refl.
    + intros [| c row]; ledger_step.
Qed.

(** A fault in one of the five requests of [get_balance] makes it return
    [0.0]. *)
Lemma get_balance_zero_on_failure (w : world) (pc : string) :
  Exists (fun f => f <> None) (firstn 5 (api_faults w)) ->
  result (Sheets.get_balance pc) w = Returned PyFloat.zero.
Proof.
  unfold result, Sheets.get_balance; simpl.
  unfold Sheets._get_balance_sync_l209, Sheets.balance_body,
    Sheets.open_worksheet, Sheets.get_client, Sheets.find, Sheets.row_values,
    Sheets.request, try_except, bind, ret, lift, next_fault.
  destruct w as [t dbf now off rows plan out botf uid gid]. simpl.
  intros H.
  destruct plan as [| [e1 |] plan]; simpl in *; try reflexivity;
    [inversion H |].
  do 4 (try (destruct plan as [| [? |] plan]; simpl in *; try reflexivity));
    destruct (Sheets.find_from 1 pc rows) as [n |] eqn:E;
    simpl; try reflexivity;
    repeat match goal with
           | X : Exists _ [] |- _ => inversion X
           | X : Exists _ (firstn 0 _) |- _ => inversion X
           | X : Exists _ (_ :: _) |- _ =>
               inversion X; subst; clear X; try congruence
           end.
Qed.

(** X19.  [check_balance] for an approved user, database and Telegram
    answering: the reply is always a balance, never the error text; and
    when one of the five ledger requests fails, the balance shown is
    0.0, as for a partner who has earned nothing. *)
Theorem ledger_outage_reads_as_zero_balance
  (message : Chat.Message) (s : Chat.session) (u : user_row) :
  users (Chat.base s) !! Chat.from_user_id message = Some u ->
  approved u = true ->
  no_db_faults (Chat.base s) ->
  no_bot_faults (Chat.base s) ->
  let s' := Chat.hafter (Chat.check_balance message) s in
  exists b,
    Chat.hresult (Chat.check_balance message) s = Returned tt /\
    Chat.sent s' =
      (Chat.sent s ++
       [(ChatId (Chat.chat_id message), Chat.Balance_info b)])%list /\
    (Exists (fun f => f <> None) (firstn 5 (api_faults (Chat.base s))) ->
     b = PyFloat.zero).
Proof.
  intros Hrow Happ Hdb Hbot.
  unfold Chat.hafter, Chat.hresult, Chat.check_balance, Chat.hbind, Chat.call.
  rewrite (is_user_approved_run _ _ Hdb) by (right; congruence).
  rewrite Hrow, Happ. simpl.
  set (w1 := set_db_faults (tl (db_faults (Chat.base s))) (Chat.base s)).
  set (pc := PyStr.str_of_int (Chat.from_user_id message)).
  pose proof (get_balance_only_ledger pc w1) as L.
  pose proof (get_balance_zero_on_failure w1 pc) as Z0.
  destruct (try_except_returns (Sheets.balance_body 4 pc) PyFloat.zero w1)
    as [b R].
  change (result (Sheets.get_balance pc) w1 = Returned b) in R.
  unfold after in L. unfold result in R, Z0.
  destruct (Sheets.get_balance pc w1) as [o w2]. simpl in *. subst o.
  unfold Chat.is_None, Chat.answer.
  rewrite send_delivered.
  - exists b. simpl. repeat split.
    intros X. specialize (Z0 X). congruence.
  - unfold no_bot_faults, only_ledger in *. simpl.
    destruct L as (_ & _ & _ & _ & _ & -> & _). exact Hbot.
Qed.

Lemma ledger_outage_reads_as_zero_balance_witness :
  exists b,
    Chat.hresult (Chat.check_balance (Chat.mk_message 12345 12345 (Some "Посмотреть баланс") eq_refl))
                 (Chat.idle (ledger_down approved_12345)) = Returned tt /\
    Chat.sent
      (Chat.hafter (Chat.check_balance (Chat.mk_message 12345 12345 (Some "Посмотреть баланс") eq_refl))
                   (Chat.idle (ledger_down approved_12345))) =
      [(ChatId 12345, Chat.Balance_info b)] /\
    (Exists (fun f => f <> None)
            (firstn 5 (api_faults (ledger_down approved_12345))) ->
     b = PyFloat.zero).
Proof.
  refine (ledger_outage_reads_as_zero_balance
            (Chat.mk_message 12345 12345 (Some "Посмотреть баланс") eq_refl)
            (Chat.idle (ledger_down approved_12345)) _ _ _ _ _).
  - vm_compute. reflexivity.
  - reflexivity.
  - vm_compute. constructor.
  - vm_compute. constructor.
Defined.

(** ** Message handlers: the end of a registration *)

Ltac telegram_cases :=
  repeat match goal with
         | |- context [next_fault ?l None] =>
             destruct l as [| [? |] ?]; simpl
         | |- context [match ?l with [] => _ | _ :: _ => _ end] =>
             is_var l; destruct l as [| [? |] ?]; simpl
         end.

(** X20.  Whatever the message, the FSM data and the faults,
    [process_name] leaves the table as it is, or adds one row: then the
    sender had no row, the FSM data holds a non-empty phone, the stripped
    text has between 2 and 50 characters, and the row is the sender's,
    pending, with that name and that phone. *)
Theorem process_name_stores_validated_names_only
  (message : Chat.Message) (s : Chat.session) :
  let id := Chat.from_user_id message in
  let s' := Chat.hafter (Chat.process_name message) s in
  users (Chat.base s') = users (Chat.base s) \/
  exists t ph,
    Chat.text_of message = Some t /\
    2 <= Chat.len (Chat.strip t) <= 50 /\
    Chat.fsm_phone s = Some ph /\ ph <> ""%string /\
    users (Chat.base s) !! id = None /\
    users (Chat.base s') =
      <[id := mk_user id (Chat.strip t) ph false
                      (Db.CURRENT_TIMESTAMP (Chat.base s)) None]>
        (users (Chat.base s)).
Proof.
  destruct s as [w snt st phone].
  destruct w as [t dbf now off rows plan out botf uid gid].
  destruct message as [id cid txt fits]. simpl.
  unfold Chat.hafter, Chat.process_name, Chat.htry, Chat.hbind, Chat.hret,
    Chat.answer, Chat.send, Chat.state_get_phone, Chat.state_clear,
    Chat.call, Chat.set_base, Admin.get_admin_group_id.
  destruct txt as [tx |]; simpl; [| telegram_cases; left; reflexivity].
  destruct (String.eqb (Chat.strip tx) "" || (Chat.len (Chat.strip tx) <? 2))
    eqn:E1; simpl; [telegram_cases; left; reflexivity |].
  destruct (Chat.len (Chat.strip tx) >? 50) eqn:E2; simpl;
    [telegram_cases; left; reflexivity |].
  destruct phone as [ph |]; simpl; [| telegram_cases; left; reflexivity].
  destruct (String.eqb ph "") eqn:E3; simpl;
    [telegram_cases; left; reflexivity |].
  run_db. simpl. rewrite fits.
  destruct dbf as [| [|] dbf]; simpl;
    try (telegram_cases; left; reflexivity);
    (destruct (t !! id) as [u |] eqn:E4; simpl;
     [telegram_cases; left; reflexivity |]);
    (assert (R : exists t0 ph0,
                Some tx = Some t0 /\
                2 <= Chat.len (Chat.strip t0) <= 50 /\
                Some ph = Some ph0 /\ ph0 <> ""%string /\
                @None user_row = None /\
                Chat.strip tx = Chat.strip t0 /\ ph = ph0)
       by (exists tx, ph; apply orb_false_iff in E1; destruct E1 as [_ E1];
           apply Z.ltb_ge in E1; rewrite Z.gtb_ltb in E2; apply Z.ltb_ge in E2;
           apply String.eqb_neq in E3; repeat split; auto));
    destruct R as (t0 & ph0 & R1 & R2 & R3 & R4 & R5 & R6 & R7);
    telegram_cases; right; exists t0, ph0; rewrite R6, R7;
    repeat split; auto; apply R2.
Qed.

(** The run of [process_name] on a valid name, everything answering. *)
Lemma process_name_run
  (message : Chat.Message) (s : Chat.session) (t ph : string) :
  Chat.text_of message = Some t ->
  2 <= Chat.len (Chat.strip t) <= 50 ->
  Chat.fsm_phone s = Some ph -> ph <> ""%string ->
  users (Chat.base s) !! Chat.from_user_id message = None ->
  no_db_faults (Chat.base s) ->
  no_bot_faults (Chat.base s) ->
  let id := Chat.from_user_id message in
  let w := Chat.base s in
  Chat.process_name message s =
    (Returned tt,
     Chat.mk_session
       (set_bot_faults (tl (tl (bot_faults w)))
          (set_users
             (<[id := mk_user id (Chat.strip t) ph false
                              (Db.CURRENT_TIMESTAMP w) None]> (users w))
             (set_db_faults (tl (db_faults w)) w)))
       (Chat.sent s ++
        [ (ChatName (Admin.getenv (ADMIN_GROUP_ID w) "-1003016595712"),
           Chat.New_registration id (Chat.strip t) ph);
          (ChatId (Chat.chat_id message), Chat.Registration_done) ])
       None None).
Proof.
  destruct s as [w snt st phone].
  destruct w as [tb dbf now off rows plan out botf uid gid].
  destruct message as [id cid txt fits].
  unfold no_db_faults, no_bot_faults. simpl.
  intros -> [L1 L2] -> Hph Hrow Hdb Hbot.
  unfold Chat.process_name, Chat.htry, Chat.hbind, Chat.hret,
    Chat.answer, Chat.send, Chat.state_get_phone, Chat.state_clear,
    Chat.call, Chat.set_base, Admin.get_admin_group_id.
  simpl.
  assert (E1 : String.eqb (Chat.strip t) "" = false).
  { apply String.eqb_neq. intros E. rewrite E in L1. vm_compute in L1.
    now apply L1. }
  assert (E2 : (Chat.len (Chat.strip t) <? 2) = false)
    by now apply Z.ltb_ge.
  assert (E3 : (Chat.len (Chat.strip t) >? 50) = false)
    by (rewrite Z.gtb_ltb; now apply Z.ltb_ge).
  rewrite E1, E2, E3. simpl.
  apply String.eqb_neq in Hph. rewrite Hph.
  run_db. simpl. rewrite fits.
  destruct dbf as [| f dbf]; [| inversion Hdb; subst]; simpl;
    rewrite Hrow; simpl;
    (destruct botf as [| f1 botf]; [| inversion Hbot; subst]; simpl;
     [rewrite <- app_assoc; reflexivity |]);
    match goal with
    | X : Forall _ botf |- _ =>
        destruct botf as [| f2 botf]; [| inversion X; subst]; simpl;
        rewrite <- app_assoc; reflexivity
    end.
Qed.

(** X21.  A user in the name step who sends a name of 2 to 50
    characters, with a phone in the FSM data and no row yet, everything
    answering: a pending row with the stripped name and the phone is
    stored, the admin group is told of the registration, the user gets
    the confirmation, and the FSM state and data are cleared. *)
Theorem process_name_completes_registration
  (message : Chat.Message) (s : Chat.session) (t ph : string) :
  Chat.text_of message = Some t ->
  2 <= Chat.len (Chat.strip t) <= 50 ->
  Chat.fsm_phone s = Some ph -> ph <> ""%string ->
  users (Chat.base s) !! Chat.from_user_id message = None ->
  no_db_faults (Chat.base s) ->
  no_bot_faults (Chat.base s) ->
  let id := Chat.from_user_id message in
  let w := Chat.base s in
  let s' := Chat.hafter (Chat.process_name message) s in
  Chat.hresult (Chat.process_name message) s = Returned tt /\
  users (Chat.base s') !! id =
    Some (mk_user id (Chat.strip t) ph false (Db.CURRENT_TIMESTAMP w) None) /\
  (forall k, k <> id -> users (Chat.base s') !! k = users w !! k) /\
  Chat.sent s' =
    (Chat.sent s ++
     [ (ChatName (Admin.getenv (ADMIN_GROUP_ID w) "-1003016595712"),
        Chat.New_registration id (Chat.strip t) ph);
       (ChatId (Chat.chat_id message), Chat.Registration_done) ])%list /\
  Chat.fsm_state s' = None /\ Chat.fsm_phone s' = None.
Proof.
  intros Ht Hlen Hph Hne Hrow Hdb Hbot. simpl.
  unfold Chat.hresult, Chat.hafter.
  rewrite (process_name_run message s t ph Ht Hlen Hph Hne Hrow Hdb Hbot).
  simpl. split; [reflexivity |].
  split; [apply lookup_insert_eq |].
  split; [intros k Hk; now apply lookup_insert_ne |].
  repeat split.
Qed.

Lemma process_name_completes_registration_witness :
  Chat.sent
    (Chat.hafter
       (Chat.process_name (Chat.mk_message 12345 12345 (Some " Test User ") eq_refl))
       (Chat.mk_session installed [] (Some Chat.Register_name)
                        (Some "+1234567890")))
  = [ (ChatName "-1003016595712",
       Chat.New_registration 12345 "Test User" "+1234567890");
      (ChatId 12345, Chat.Registration_done) ].
Proof.
  refine (proj1 (proj2 (proj2 (proj2
            (process_name_completes_registration
               (Chat.mk_message 12345 12345 (Some " Test User ") eq_refl)
               (Chat.mk_session installed [] (Some Chat.Register_name)
                                (Some "+1234567890"))
               " Test User " "+1234567890" _ _ _ _ _ _ _))))).
  - reflexivity.
  - vm_compute. split; discriminate.
  - reflexivity.
  - discriminate.
  - reflexivity.
  - constructor.
  - constructor.
Defined.

(** X22.  A name that is too short or too long costs the user nothing:
    [process_name] reads and writes neither the table nor the ledger,
    and the FSM state and data stay as they were, so the next message is
    again taken as a name; the user is told which bound was missed. *)
Theorem rejected_name_keeps_the_dialogue_open
  (message : Chat.Message) (s : Chat.session) (t : string) :
  Chat.text_of message = Some t ->
  Chat.len (Chat.strip t) < 2 \/ 50 < Chat.len (Chat.strip t) ->
  let s' := Chat.hafter (Chat.process_name message) s in
  only_telegram (Chat.base s) (Chat.base s') /\
  Chat.fsm_state s' = Chat.fsm_state s /\
  Chat.fsm_phone s' = Chat.fsm_phone s /\
  (no_bot_faults (Chat.base s) ->
   Chat.sent s' =
     (Chat.sent s ++
      [(ChatId (Chat.chat_id message),
        if Chat.len (Chat.strip t) <? 2 then Chat.Name_invalid
        else Chat.Name_too_long)])%list).
Proof.
  destruct s as [w snt st phone].
  destruct w as [tb dbf now off rows plan out botf uid gid].
  destruct message as [id cid txt fits].
  unfold no_bot_faults, only_telegram. simpl.
  intros -> Hlen.
  unfold Chat.hafter, Chat.process_name, Chat.htry, Chat.hbind, Chat.hret,
    Chat.answer, Chat.send, Chat.set_base.
  simpl.
  destruct (Chat.len (Chat.strip t) <? 2) eqn:E2.
  - rewrite orb_true_r. simpl.
    telegram_cases; repeat split; auto;
      intros F; inversion F; subst; try discriminate;
      match goal with
      | X : Forall _ (Some _ :: _) |- _ => inversion X; discriminate
      | _ => idtac
      end.
  - assert (E3 : (Chat.len (Chat.strip t) >? 50) = true).
    { rewrite Z.gtb_ltb. apply Z.ltb_lt. apply Z.ltb_ge in E2. lia. }
    assert (E1 : String.eqb (Chat.strip t) "" = false).
    { apply String.eqb_neq. intros E. rewrite E in E3. discriminate. }
    rewrite E1, E3. simpl.
    telegram_cases; repeat split; auto;
      intros F; inversion F; subst; try discriminate;
      match goal with
      | X : Forall _ (Some _ :: _) |- _ => inversion X; discriminate
      | _ => idtac
      end.
Qed.

Lemma rejected_name_keeps_the_dialogue_open_witness :
  Chat.fsm_state
    (Chat.hafter
       (Chat.process_name (Chat.mk_message 12345 12345 (Some " A ") eq_refl))
       (Chat.mk_session installed [] (Some Chat.Register_name)
                        (Some "+1234567890")))
  = Some Chat.Register_name.
Proof.
  refine (proj1 (proj2
            (rejected_name_keeps_the_dialogue_open
               (Chat.mk_message 12345 12345 (Some " A ") eq_refl)
               (Chat.mk_session installed [] (Some Chat.Register_name)
                                (Some "+1234567890"))
               " A " _ _))).
  - reflexivity.
  - left. vm_compute. reflexivity.
Defined.

(** ** Message handlers: the statistics command *)

Lemma get_pending_users_run (w : world) :
  no_db_faults w ->
  DbQueries.get_pending_users w =
    (Returned (map DbQueries.pending_of (DbQueries.select_pending (users w))),
     set_db_faults (tl (db_faults w)) w).
Proof.
  unfold no_db_faults, DbQueries.get_pending_users. intros F. run_db.
  destruct (db_faults w) as [| f plan] eqn:E; simpl.
  - reflexivity.
  - inversion F; subst; reflexivity.
Qed.

Lemma get_approved_users_run (w : world) :
  no_db_faults w ->
  DbQueries.get_approved_users w =
    (Returned (map DbQueries.approved_of (DbQueries.select_approved (users w))),
     set_db_faults (tl (db_faults w)) w).
Proof.
  unfold no_db_faults, DbQueries.get_approved_users. intros F. run_db.
  destruct (db_faults w) as [| f plan] eqn:E; simpl.
  - reflexivity.
  - inversion F; subst; reflexivity.
Qed.

Lemma no_db_faults_tl (w : world) :
  no_db_faults w -> no_db_faults (set_db_faults (tl (db_faults w)) w).
Proof.
  unfold no_db_faults. simpl. intros F.
  destruct (db_faults w); simpl; [constructor | now inversion F].
Qed.

Ltac plan_done :=
  eexists; repeat split; intros H;
  repeat match goal with
         | X : Exists _ [] |- _ => inversion X
         | X : Exists _ (firstn 0 _) |- _ => inversion X
         | X : Exists _ (_ :: _) |- _ =>
             inversion X; subst; clear X; try congruence
         | X : Forall _ (_ :: _) |- _ =>
             inversion X; subst; clear X; try congruence
         end;
  try reflexivity; try congruence.

(** [test_connection] returns a boolean, which tells whether its four
    requests went through, and touches the Sheets plan only. *)
Lemma test_connection_run (w : world) :
  exists b,
    SheetsConn.test_connection w
      = (Returned b, after SheetsConn.test_connection w) /\
    only_ledger w (after SheetsConn.test_connection w) /\
    (Forall (fun f => f = None) (firstn 4 (api_faults w)) -> b = true) /\
    (Exists (fun f => f <> None) (firstn 4 (api_faults w)) -> b = false).
Proof.
  unfold after. rewrite test_connection_handlers.
  unfold only_ledger, SheetsConn.cell_1_1,
    Sheets.open_worksheet, Sheets.get_client, Sheets.request,
    try_except, bind, ret, next_fault.
  destruct w as [t dbf now off rows plan out botf uid gid]. simpl.
  destruct plan as [| [e1 |] plan]; simpl; [plan_done | plan_done |].
  destruct plan as [| [e2 |] plan]; simpl; [plan_done | plan_done |].
  destruct plan as [| [e3 |] plan]; simpl; [plan_done | plan_done |].
  destruct plan as [| [e4 |] plan]; simpl; plan_done.
Qed.

(** X23.  [admin_stats] for the administrator, database and Telegram
    answering: when the four requests of the connection test go through,
    the worksheet figures are asked of a function that is bound to no
    name, and the reply is the error text; the counts of pending and of
    approved users are shown only when the connection test fails. *)
Theorem admin_stats_shows_counts_only_when_ledger_is_down
  (message : Chat.Message) (s : Chat.session) :
  result (Admin.is_admin (Chat.from_user_id message)) (Chat.base s)
    = Returned true ->
  no_db_faults (Chat.base s) ->
  no_bot_faults (Chat.base s) ->
  let s' := Chat.hafter (Chat.admin_stats message) s in
  let t := users (Chat.base s) in
  let to_sender r := (ChatId (Chat.chat_id message), r) in
  (Forall (fun f => f = None) (firstn 4 (api_faults (Chat.base s))) ->
   Chat.sent s' = (Chat.sent s ++ [to_sender Chat.Stats_failed])%list) /\
  (Exists (fun f => f <> None) (firstn 4 (api_faults (Chat.base s))) ->
   Chat.sent s' =
     (Chat.sent s ++
      [to_sender (Chat.Stats (length (DbQueries.select_pending t))
                             (length (DbQueries.select_approved t))
                             None)])%list).
Proof.
  destruct s as [w snt st ph].
  cbn [Chat.base Chat.sent].
  intros Hadmin Hdb Hbot.
  set (w1 := set_db_faults (tl (db_faults w)) w).
  set (w2 := set_db_faults (tl (db_faults w1)) w1).
  pose proof (no_db_faults_tl w Hdb) as Hdb1. fold w1 in Hdb1.
  destruct (test_connection_run w2) as (b & R & L & Yes & No).
  set (w3 := after SheetsConn.test_connection w2) in *.
  assert (B : no_bot_faults w3).
  { unfold no_bot_faults, only_ledger in *.
    destruct L as (_ & _ & _ & _ & _ & -> & _). exact Hbot. }
  change (api_faults w2) with (api_faults w) in Yes, No.
  assert (Run : Chat.sent
                  (Chat.hafter (Chat.admin_stats message)
                               (Chat.mk_session w snt st ph)) =
                (snt ++
                 [(ChatId (Chat.chat_id message),
                   if b then Chat.Stats_failed
                   else Chat.Stats
                          (length (DbQueries.select_pending (users w)))
                          (length (DbQueries.select_approved (users w)))
                          None)])%list).
  { unfold Chat.hafter, Chat.admin_stats, Chat.htry, Chat.hbind, Chat.call.
    cbn [Chat.base].
    rewrite (run_eq (Admin.is_admin _) w), Hadmin, is_admin_after.
    cbn [negb]. unfold Chat.set_base.
    cbn [Chat.base Chat.sent Chat.fsm_state Chat.fsm_phone].
    rewrite (get_pending_users_run w Hdb). fold w1.
    cbn [Chat.base Chat.sent Chat.fsm_state Chat.fsm_phone].
    rewrite (get_approved_users_run w1 Hdb1). fold w2.
    cbn [Chat.base Chat.sent Chat.fsm_state Chat.fsm_phone].
    rewrite R.
    cbn [Chat.base Chat.sent Chat.fsm_state Chat.fsm_phone].
    destruct b.
    - cbn [Chat.base Chat.sent Chat.fsm_state Chat.fsm_phone].
      change (Sheets.get_worksheet_info w3)
        with (@Raised (list (string * Z)) NameError, w3).
      cbv beta iota. unfold Chat.answer.
      rewrite send_delivered by exact B. reflexivity.
    - unfold Chat.hret. cbv beta iota. unfold Chat.answer.
      rewrite send_delivered by exact B.
      cbn [snd Chat.sent]. change (users w1) with (users w).
      now rewrite !length_map. }
  rewrite Run.
  split; intros X.
  - now rewrite (Yes X).
  - now rewrite (No X).
Qed.

Lemma admin_stats_shows_counts_only_when_ledger_is_down_witness :
  Chat.sent
    (Chat.hafter
       (Chat.admin_stats (Chat.mk_message 1454702347 1454702347 (Some "/stats") eq_refl))
       (Chat.idle registered))
  = [(ChatId 1454702347, Chat.Stats_failed)].
Proof.
  refine (proj1
            (admin_stats_shows_counts_only_when_ledger_is_down
               (Chat.mk_message 1454702347 1454702347 (Some "/stats") eq_refl)
               (Chat.idle registered) _ _ _) _).
  - vm_compute. reflexivity.
  - vm_compute. constructor.
  - constructor.
  - constructor.
Defined.

(** ** From registration to the first balance *)
















